(** * cpppo [server/enip/device.py]: the CIP object model, checked against its
    specification.

    The development embeds the parts of [device.py] that the specification
    talks about -- integer and path handling, tag resolution, attributes, the
    object registry, the request/reply conversion of the CIP objects -- as
    Rocq functions, and states each property of the specification over these
    functions.

    Conventions of the embedding:
    - a Python [int] is a [Z]; a byte string is a [list Z] of values 0..255;
      a [str] is the [string] of its code points, all below 256;
    - a Python exception is a [Raise] outcome ([None] where only one kind of
      exception can occur);
    - a [dict] is a [gmap]; a [dotdict] whose keys are known is a record of
      optional fields ([None]: the key is absent);
    - module- and class-level variables ([directory], [symbol],
      [max_instance], [sessions]) are threaded explicitly;
    - [random.randint] reads a stream of draws that the caller supplies;
    - the codecs of [parser.py] that [device.py] calls are either written out
      from the wire format of the specification or taken as section
      variables, as is the path syntax of [dotdict] for a key of the
      directory that the caller supplies as a [str];
    - of the configuration, the embedding holds what the [ConfigParser] finds
      for each option, after its interpolation. *)

From Stdlib Require Import ZArith String Ascii List Bool Lia DecimalString.
From stdpp Require Import base option list gmap strings.
Import ListNotations.

Local Open Scope Z_scope.

(** ** Python builtins used by the module *)

Module Py.

(** The blanks that [int()] skips around a number.  A [str] is the string of
    its code points, all below 256.  [int()] skips the blanks of C, tab to
    carriage return (9..13) and the space; the separators 28..31, which
    [str.isspace] and [str.strip] count as blanks, it does not skip.  Of the
    code points above the ASCII range it first turns the Unicode blanks, here
    NEL (0x85) and the no-break space (0xA0), into spaces. *)
Definition is_space (c : ascii) : bool :=
  let n := Z.of_nat (nat_of_ascii c) in
  ((9 <=? n) && (n <=? 13)) || (n =? 32) || (n =? 133) || (n =? 160).

Fixpoint lstrip (s : list ascii) : list ascii :=
  match s with
  | c :: r => if is_space c then lstrip r else s
  | [] => []
  end.

(** Value of a character as a digit: [0-9], then [a-z] or [A-Z] for 10..35. *)
Definition digit_value (c : ascii) : option Z :=
  let n := Z.of_nat (nat_of_ascii c) in
  if (48 <=? n) && (n <=? 57) then Some (n - 48)
  else if (97 <=? n) && (n <=? 122) then Some (n - 87)
  else if (65 <=? n) && (n <=? 90) then Some (n - 55)
  else None.

Definition is_underscore (c : ascii) : bool := Ascii.eqb c "_".

Definition is_digit_of (base : Z) (c : ascii) : bool :=
  match digit_value c with
  | Some d => d <? base
  | None => false
  end.

(** The digit loop of [int()]: digits of [base], single underscores between
    them.  Returns the value, the number of digits read and the unread rest;
    fails on a doubled or trailing underscore. *)
Fixpoint scan_digits (base acc : Z) (prev_us : bool) (ndig : nat)
         (s : list ascii) : option (Z * nat * list ascii) :=
  match s with
  | [] => if prev_us then None else Some (acc, ndig, [])
  | c :: r =>
      if is_underscore c then
        if prev_us then None else scan_digits base acc true ndig r
      else
        match digit_value c with
        | Some d =>
            if d <? base
            then scan_digits base (acc * base + d) false (S ndig) r
            else if prev_us then None else Some (acc, ndig, s)
        | None => if prev_us then None else Some (acc, ndig, s)
        end
  end.

Definition char_in (c : ascii) (a b : ascii) : bool :=
  Ascii.eqb c a || Ascii.eqb c b.

(** Does [s] start with the literal prefix of [base] ([0x], [0o], [0b])? *)
Definition has_prefix (base : Z) (s : list ascii) : bool :=
  match s with
  | z :: p :: _ =>
      Ascii.eqb z "0" &&
      (((base =? 16) && char_in p "x" "X") ||
       ((base =? 8) && char_in p "o" "O") ||
       ((base =? 2) && char_in p "b" "B"))
  | _ => false
  end.

(** Base deduced by [int( x, base=0 )], and whether a nonzero value is an
    error (a C-style octal literal such as "012"). *)
Definition deduce_base (s : list ascii) : Z * bool :=
  match s with
  | z :: r =>
      if Ascii.eqb z "0" then
        match r with
        | p :: _ =>
            if char_in p "x" "X" then (16, false)
            else if char_in p "o" "O" then (8, false)
            else if char_in p "b" "B" then (2, false)
            else (10, true)
        | [] => (10, true)
        end
      else (10, false)
  | [] => (10, false)
  end.

(** [int( x, base )] for a [str] x; [None] stands for [ValueError]. *)
Definition int (x : string) (base : Z) : option Z :=
  if negb ((base =? 0) || ((2 <=? base) && (base <=? 36))) then None
  else
    let s0 := lstrip (list_ascii_of_string x) in
    let '(sign, s1) :=
      match s0 with
      | c :: r =>
          if Ascii.eqb c "+" then (1, r)
          else if Ascii.eqb c "-" then (-1, r)
          else (1, s0)
      | [] => (1, s0)
      end in
    let '(b, error_if_nonzero) :=
      if base =? 0 then deduce_base s1 else (base, false) in
    let s2 :=
      if has_prefix b s1 then
        match skipn 2 s1 with
        | c :: r => if is_underscore c then r else c :: r
        | [] => []
        end
      else s1 in
    match s2 with
    | c :: _ => if is_underscore c then None else
        match scan_digits b 0 false 0 s2 with
        | Some (v, ndig, rest) =>
            if error_if_nonzero && negb (v =? 0) then None
            else if Nat.eqb ndig 0 then None
            else match lstrip rest with
                 | [] => Some (sign * v)
                 | _ => None
                 end
        | None => None
        end
    | [] => None
    end.

(** [str.lower] on the code points below 256: the letters A to Z, and the
    capital letters of Latin-1, 0xC0 to 0xDE without the multiplication
    sign. *)
Definition lower_char (c : ascii) : ascii :=
  let n := nat_of_ascii c in
  if ((65 <=? n) && (n <=? 90))%nat
     || ((192 <=? n) && (n <=? 222) && negb (n =? 215))%nat
  then ascii_of_nat (n + 32) else c.

Fixpoint lower (s : string) : string :=
  match s with
  | EmptyString => EmptyString
  | String c r => String (lower_char c) (lower r)
  end.

End Py.

(** ** Integer parsing *)

(** [parse_int]: try the target base, then let [int] deduce the base. *)
Definition parse_int (x : string) (base : Z) : option Z :=
  match Py.int x base with
  | Some v => Some v
  | None => Py.int x 0
  end.

(** Value of a digit string read in [base], most significant digit first. *)
Definition digits_value (base : Z) (ds : list ascii) : Z :=
  fold_left (fun acc c => acc * base + default 0 (Py.digit_value c)) ds 0.


(** ** Exceptions and values *)

Inductive exn :=
| AssertionError | KeyError | IndexError | ValueError | TypeError
| AttributeError | StopIteration | StructError | InterpolationError
| Exception.

Inductive result (A : Type) :=
| Ok (a : A)
| Raise (e : exn).
Arguments Ok {A} a.
Arguments Raise {A} e.

#[global] Instance result_ret : MRet result := fun _ a => Ok a.
#[global] Instance result_bind : MBind result := fun _ _ f m =>
  match m with
  | Ok a => f a
  | Raise e => Raise e
  end.

#[global] Instance result_fmap : FMap result := fun _ _ f m =>
  match m with
  | Ok a => Ok (f a)
  | Raise e => Raise e
  end.

(** [assert c]: [AssertionError] unless [c]. *)
Definition assert (c : bool) : result unit :=
  if c then Ok tt else Raise AssertionError.

(** The Python values that occur in paths, addresses and attributes. *)
Inductive pyval :=
| VNone
| VInt (z : Z)
| VStr (s : string).

#[global] Instance pyval_eq_dec : EqDecision pyval.
Proof. solve_decision. Defined.

Definition is_None (v : pyval) : bool :=
  match v with VNone => true | _ => false end.

(** [str( v )]. *)
Definition py_str (v : pyval) : string :=
  match v with
  | VNone => "None"
  | VInt z => NilZero.string_of_int (Z.to_int z)
  | VStr s => s
  end.

(** ** Paths, the symbol table and [resolve] *)

(** A path segment is a [dict]: [{'class': 5}], [{'symbolic': 'SCADA'}],
    [{'port': 1, 'link': 0}], ... *)
Abbreviation term := (gmap string pyval).

(** An address of the symbol table: [redirect_tag] asserts that it has the
    keys of [symbol_keys], all of them and no others. *)
Record address := Address {
  a_class : pyval;
  a_instance : pyval;
  a_attribute : pyval
}.

Definition address_dict (a : address) : term :=
  <["class" := a_class a]>
    (<["instance" := a_instance a]> (<["attribute" := a_attribute a]> ∅)).

Definition address_tuple (a : address) : pyval * pyval * pyval :=
  (a_class a, a_instance a, a_attribute a).

(** [redirect_tag]: establish or change a tag; returns the address tuple. *)
Definition redirect_tag (symbol : gmap string address) (tag : string)
           (a : address) : gmap string address * (pyval * pyval * pyval) :=
  (<[tag := a]> symbol, address_tuple a).

(** [resolve_tag]: the address tuple of a tag, or [None]. *)
Definition resolve_tag (symbol : gmap string address) (tag : string)
  : option (pyval * pyval * pyval) :=
  address_tuple <$> symbol !! tag.

(** The developing [result] dict of [resolve]; its keys are iterated in the
    order class, instance, attribute. *)
Record resolved := Resolved {
  r_class : pyval;
  r_instance : pyval;
  r_attribute : pyval
}.

Definition unresolved : resolved := Resolved VNone VNone VNone.

Definition get_key (key : string) (r : resolved) : pyval :=
  if String.eqb key "class" then r_class r
  else if String.eqb key "instance" then r_instance r
  else r_attribute r.

Definition set_key (key : string) (v : pyval) (r : resolved) : resolved :=
  if String.eqb key "class" then Resolved v (r_instance r) (r_attribute r)
  else if String.eqb key "instance" then Resolved (r_class r) v (r_attribute r)
  else Resolved (r_class r) (r_instance r) v.

(** One key of the [for key in result] loop: pull it from [working] into
    [result], unless the result already has it. *)
Definition pull (key : string) (st : resolved * term)
  : result (resolved * term) :=
  let '(res, working) := st in
  match working !! key with
  | Some v =>
      _ ← assert (is_None (get_key key res));
      Ok (set_key key v res, delete key working)
  | None => Ok st
  end.

Definition pull_keys (st : resolved * term) : result (resolved * term) :=
  st ← pull "class" st; st ← pull "instance" st; pull "attribute" st.

Definition is_empty (t : term) : bool := bool_decide (t = ∅).

Definition extend_tag (tag : string) (s : pyval) : string :=
  (tag ++ (if String.eqb tag "" then "" else ".") ++ py_str s)%string.

(** The [while working] loop for one path term.  A term is pulled into the
    result; what is left of it must be symbolic and extends the tag; a tag
    found in the symbol table puts its address in [working] for a second
    turn, which empties it (an address has the three result keys only). *)
Definition settle (symbol : gmap string address) (st : resolved * string)
           (t : term) : result (resolved * string) :=
  let '(res, tag) := st in
  '(res, working) ← pull_keys (res, t);
  if is_empty working then Ok (res, tag)
  else
    match working !! "symbolic" with
    | None => Raise AssertionError
    | Some s =>
        let tag := extend_tag tag s in
        match symbol !! tag with
        | None => Ok (res, tag)
        | Some a =>
            '(res, _) ← pull_keys (res, address_dict a);
            Ok (res, ""%string)
        end
    end.

(** All desired terms specified? *)
Definition complete (attribute : bool) (r : resolved) : bool :=
  negb (is_None (r_class r)) && negb (is_None (r_instance r))
  && (negb attribute || negb (is_None (r_attribute r))).

(** The [for term in path['segment']] loop, with its [break]. *)
Fixpoint walk (symbol : gmap string address) (attribute : bool)
         (segment : list term) (st : resolved * string)
  : result (resolved * string) :=
  match segment with
  | [] => Ok st
  | t :: rest =>
      if complete attribute (fst st) then Ok st
      else st ← settle symbol st t; walk symbol attribute rest st
  end.

(** [resolve( path, attribute )]. *)
Definition resolve (symbol : gmap string address) (segment : list term)
           (attribute : bool) : result (pyval * pyval * pyval) :=
  '(res, tag) ← walk symbol attribute segment (unresolved, ""%string);
  _ ← assert (String.eqb tag "");
  _ ← assert (complete attribute res);
  Ok (r_class res, r_instance res, if attribute then r_attribute res else VNone).

(** [resolve_element]: the first element index of the path, default [(0,)]. *)
Fixpoint resolve_element (segment : list term) : pyval :=
  match segment with
  | [] => VInt 0
  | t :: rest =>
      match t !! "element" with
      | Some e => e
      | None => resolve_element rest
      end
  end.

(** ** Wire formats of the elementary types

    [parser.py] is not part of the sources; the elementary codecs are written
    out from the wire format of the specification. *)

(** Little-endian bytes of [v], [n] of them. *)
Fixpoint le_bytes (n : nat) (v : Z) : list Z :=
  match n with
  | O => []
  | S n => (v mod 256) :: le_bytes n (v / 256)
  end.

Fixpoint le_value (bs : list Z) : Z :=
  match bs with
  | [] => 0
  | b :: bs => b + 256 * le_value bs
  end.

(** Modelled from the spec: [struct.pack] of an unsigned little-endian
    integer of [n] bytes (USINT 1, UINT and WORD 2, UDINT and DWORD 4); a
    value out of range or not an integer is a [struct.error]. *)
Definition pack_unsigned (n : nat) (v : pyval) : result (list Z) :=
  match v with
  | VInt z =>
      if (0 <=? z) && (z <? 256 ^ Z.of_nat n) then Ok (le_bytes n z)
      else Raise StructError
  | _ => Raise StructError
  end.

(** Modelled from the spec: the signed counterpart (SINT 1, INT 2, DINT 4),
    two's complement. *)
Definition pack_signed (n : nat) (v : pyval) : result (list Z) :=
  match v with
  | VInt z =>
      let half := 256 ^ Z.of_nat n / 2 in
      if (- half <=? z) && (z <? half)
      then Ok (le_bytes n (z mod 256 ^ Z.of_nat n))
      else Raise StructError
  | _ => Raise StructError
  end.

Definition unpack_unsigned (n : nat) (bs : list Z) : result pyval :=
  if Nat.eqb (length bs) n then Ok (VInt (le_value bs)) else Raise StructError.

Definition unpack_signed (n : nat) (bs : list Z) : result pyval :=
  if Nat.eqb (length bs) n then
    let v := le_value bs in
    let full := 256 ^ Z.of_nat n in
    Ok (VInt (if v <? full / 2 then v else v - full))
  else Raise StructError.

Definition USINT_produce (z : Z) : result (list Z) := pack_unsigned 1 (VInt z).
Definition UINT_produce (z : Z) : result (list Z) := pack_unsigned 2 (VInt z).
Definition UDINT_produce (z : Z) : result (list Z) := pack_unsigned 4 (VInt z).
Definition WORD_produce (z : Z) : result (list Z) := pack_unsigned 2 (VInt z).

(** The [parser] of an Attribute: an instance of one of the type classes of
    [parser.py], used through [produce], [struct_calcsize] and
    [struct_format]. *)
Record codec := Codec {
  type_name : string;
  produce_value : pyval -> result (list Z);
  struct_calcsize : Z;
  struct_unpack : list Z -> result pyval
}.

Definition unsigned_codec (nm : string) (n : nat) : codec :=
  Codec nm (pack_unsigned n) (Z.of_nat n) (unpack_unsigned n).
Definition signed_codec (nm : string) (n : nat) : codec :=
  Codec nm (pack_signed n) (Z.of_nat n) (unpack_signed n).

Definition USINT : codec := unsigned_codec "USINT" 1.
Definition UINT : codec := unsigned_codec "UINT" 2.
Definition UDINT : codec := unsigned_codec "UDINT" 4.
Definition WORD : codec := unsigned_codec "WORD" 2.
Definition DWORD : codec := unsigned_codec "DWORD" 4.
Definition SINT : codec := signed_codec "SINT" 1.
Definition INT : codec := signed_codec "INT" 2.
Definition DINT : codec := signed_codec "DINT" 4.

(** ** Attributes *)

(** What [MaxInstance] and [NumInstances] report, for the class they are
    given. *)
Inductive computed :=
| MaxInstance (class_id : Z)
| NumInstances (class_id : Z).

(** The backing value of an Attribute: a scalar (anything without [__len__],
    or a [str]), a list, or, for the subclasses [MaxInstance] and
    [NumInstances], a scalar that the [value] property computes. *)
Inductive store :=
| Scalar (v : pyval)
| Vector (l : list pyval)
| Computed (c : computed).

Record Attribute := mkAttribute {
  attr_name : string;
  attr_parser : codec;
  attr_default : store;
  attr_error : Z;
  attr_mask : Z
}.

Definition MASK_GA_SNG : Z := Z.shiftl 1 0.
Definition MASK_GA_ALL : Z := Z.shiftl 1 1.

(** [Attribute( name, type_cls, default=0, error=0x00, mask=0 )]. *)
Definition Attribute_init (name : string) (type_cls : codec) (default : store)
  : Attribute :=
  mkAttribute name type_cls default 0 0.

Definition attr_scalar (a : Attribute) : bool :=
  match attr_default a with Vector _ => false | _ => true end.

Definition set_default (s : store) (a : Attribute) : Attribute :=
  mkAttribute (attr_name a) (attr_parser a) s (attr_error a) (attr_mask a).

(** An index: an [int], a [slice( start, stop, step )], or anything else. *)
Inductive key :=
| KInt (k : Z)
| KSlice (start stop step : option Z)
| KOther.

Inductive key_type := is_slice | is_int.

(** What [__getitem__] returns: a scalar for an [int] key, an iterable for a
    slice. *)
Inductive item :=
| Item (v : pyval)
| Items (l : list pyval).

(** What [__setitem__] is given: a scalar with an [int] key, an iterable
    with a slice. *)
Inductive assignment :=
| SetInt (k : Z) (v : pyval)
| SetSlice (start stop step : option Z) (vs : list pyval)
| SetOther.

Definition assignment_key (s : assignment) : key :=
  match s with
  | SetInt k _ => KInt k
  | SetSlice start stop step _ => KSlice start stop step
  | SetOther => KOther
  end.

(** [slice.indices( len )]. *)
Definition slice_indices (start stop step : option Z) (len : Z)
  : result (Z * Z * Z) :=
  let step := default 1 step in
  if step =? 0 then Raise ValueError
  else
    let lower := if step <? 0 then -1 else 0 in
    let upper := if step <? 0 then len - 1 else len in
    let clip (o : option Z) (dflt : Z) :=
      match o with
      | None => dflt
      | Some i => if i <? 0 then Z.max (i + len) lower else Z.min i upper
      end in
    Ok (clip start (if step <? 0 then upper else lower),
        clip stop (if step <? 0 then lower else upper),
        step).

(** [list[k]] for an [int] k: counts from the end when negative. *)
Definition list_getitem {A} (l : list A) (k : Z) : result A :=
  let n := Z.of_nat (length l) in
  let i := if k <? 0 then k + n else k in
  if (0 <=? i) && (i <? n)
  then match l !! Z.to_nat i with Some x => Ok x | None => Raise IndexError end
  else Raise IndexError.

(** [list[k] = x] for an [int] k. *)
Definition list_setitem {A} (l : list A) (k : Z) (x : A) : result (list A) :=
  let n := Z.of_nat (length l) in
  let i := if k <? 0 then k + n else k in
  if (0 <=? i) && (i <? n) then Ok (<[Z.to_nat i := x]> l)
  else Raise IndexError.

(** [list[start:stop]] with indices already clipped by [slice_indices]. *)
Definition list_slice {A} (l : list A) (start stop : Z) : list A :=
  take (Z.to_nat (stop - start)) (drop (Z.to_nat start) l).

(** [list[start:stop] = xs]: the slice is replaced, whatever the length of
    [xs]. *)
Definition list_set_slice {A} (l : list A) (start stop : Z) (xs : list A)
  : list A :=
  take (Z.to_nat start) l ++ xs ++ drop (Z.to_nat (Z.max start stop)) l.

(** [type( old )( v )], the conversion of the [value] setter. *)
Definition coerce (old v : pyval) : result pyval :=
  match old, v with
  | VInt _, VInt z => Ok (VInt z)
  | VInt _, VStr s =>
      match Py.int s 10 with Some z => Ok (VInt z) | None => Raise ValueError end
  | VInt _, VNone => Raise TypeError
  | VStr _, _ => Ok (VStr (py_str v))
  | VNone, _ => Raise TypeError
  end.

(** ** The registry *)

Inductive pyclass :=
| Identity | TCPIP | UCMM | Message_Router | Connection_Manager.

#[global] Instance pyclass_eq_dec : EqDecision pyclass.
Proof. solve_decision. Defined.

Definition class_id (c : pyclass) : Z :=
  match c with
  | Identity => 0x01
  | TCPIP => 0xF5
  | UCMM => 0x9999
  | Message_Router => 0x02
  | Connection_Manager => 0x06
  end.

Definition class_name (c : pyclass) : string :=
  match c with
  | Identity => "Identity"
  | TCPIP => "TCPIP"
  | UCMM => "UCMM"
  | Message_Router => "Message_Router"
  | Connection_Manager => "Connection_Manager"
  end.

Definition class_of_id (z : Z) : option pyclass :=
  if z =? 0x01 then Some Identity
  else if z =? 0xF5 then Some TCPIP
  else if z =? 0x9999 then Some UCMM
  else if z =? 0x02 then Some Message_Router
  else if z =? 0x06 then Some Connection_Manager
  else None.

#[global] Instance pyclass_countable : Countable pyclass.
Proof.
  refine (inj_countable class_id class_of_id _).
  intros []; reflexivity.
Defined.

(** A device Object: its Python class and what [__init__] stores in it.  Its
    [attribute] dict is the entry of the directory at its class and instance
    (the two are one [dotdict]), and is read there. *)
Record Object := mkObject {
  obj_cls : pyclass;
  instance_id : Z;
  obj_name : string
}.

(** What the directory holds under an attribute id: the Object itself under
    0, Attributes elsewhere. *)
Inductive entry :=
| EObject (o : Object)
| EAttribute (a : Attribute).

(** One generator of [random]: its draws, and how many were taken. *)
Record rng := mkRng {
  draws : nat -> Z;
  taken : nat
}.

(** [random.randint( lo, hi )]: a value in [lo..hi], both ends included. *)
Definition randint (lo hi : Z) (r : rng) : Z * rng :=
  (lo + draws r (taken r) mod (hi - lo + 1), mkRng (draws r) (S (taken r))).

(** The peer address of a session: [( host, port )] from the socket, or an
    [int]. *)
Inductive addr :=
| AddrTuple (host : string) (port : Z)
| AddrInt (n : Z).

#[global] Instance addr_eq_dec : EqDecision addr.
Proof. solve_decision. Defined.

#[global] Instance addr_countable : Countable addr.
Proof.
  refine (inj_countable
            (fun a => match a with
                      | AddrTuple h p => inl (h, p)
                      | AddrInt n => inr n
                      end)
            (fun s => match s with
                      | inl (h, p) => Some (AddrTuple h p)
                      | inr n => Some (AddrInt n)
                      end) _).
  intros []; reflexivity.
Defined.

(** What [Object.config_loader], a [ConfigParser] with extended
    interpolation that allows options without value, finds for an option
    when it is asked through a section. *)
Inductive setting :=
| Text (v : string)
    (** the value, with its [${section:option}] references replaced *)
| NoValue
    (** nothing to convert: an option without value, or a reference to one;
        the conversion raises [TypeError] *)
| Unresolved.
    (** a [$] that the interpolation cannot replace: one of the
        [InterpolationError]s of [configparser] *)

(** The module's and the classes' variables.  The directory is keyed by
    (class, instance) and then by attribute id, in place of the path strings
    ["class.instance.attribute"] of the [dotdict].  The configuration is
    keyed by section and then by option: a section is there with the options
    that the parser finds through it, its own and those that DEFAULT backs
    it with, and DEFAULT with its own; the names of the options are in lower
    case, as [optionxform] stores them. *)
Record world := mkWorld {
  directory : gmap (Z * Z) (gmap Z entry);
  symbol : gmap string address;
  max_instance : gmap pyclass Z;
  config : gmap string (gmap string setting);
  sessions : gmap addr Z;
  random : rng
}.

Definition set_directory (d : gmap (Z * Z) (gmap Z entry)) (w : world) : world :=
  mkWorld d (symbol w) (max_instance w) (config w) (sessions w) (random w).
Definition set_symbol (s : gmap string address) (w : world) : world :=
  mkWorld (directory w) s (max_instance w) (config w) (sessions w) (random w).
Definition set_max_instance (m : gmap pyclass Z) (w : world) : world :=
  mkWorld (directory w) (symbol w) m (config w) (sessions w) (random w).
Definition set_sessions (s : gmap addr Z) (w : world) : world :=
  mkWorld (directory w) (symbol w) (max_instance w) (config w) s (random w).
Definition set_random (r : rng) (w : world) : world :=
  mkWorld (directory w) (symbol w) (max_instance w) (config w) (sessions w) r.

(** [cls.max_instance]: the class's own counter once it was assigned, the 0
    inherited from [Object] before. *)
Definition class_max_instance (w : world) (c : pyclass) : Z :=
  default 0 (max_instance w !! c).

(** [lookup( class_id, instance_id, attribute_id )] (the name [lookup] is
    taken): the Object for [attribute_id=None], the Attribute otherwise;
    [None] when absent, and for the attribute id 0, which the path assertion
    refuses. *)
Definition dir_lookup (w : world) (class_id instance_id : Z)
           (attribute_id : option Z) : option entry :=
  match attribute_id with
  | Some 0 => None
  | _ => directory w !! (class_id, instance_id) ≫= (.!! default 0 attribute_id)
  end.

(** [lookup_reset]: a new directory and a new symbol table; the counters of
    the classes stay. *)
Definition lookup_reset (w : world) : world :=
  set_symbol ∅ (set_directory ∅ w).

(** [self.config]: the section named as the Object if there is one, else
    DEFAULT; the name of the option is looked up in lower case. *)
Definition config_get (w : world) (name key : string) : option setting :=
  let key := Py.lower key in
  match config w !! name with
  | Some section => section !! key
  | None => config w !! "DEFAULT"%string ≫= (.!! key)
  end.

(** [config_int( key, fallback )], which is [self.config.getint]: [int()] of
    what the configuration finds, the fallback when it has no such option. *)
Definition config_int (w : world) (name key : string) (fallback : Z)
  : result Z :=
  match config_get w name key with
  | Some (Text v) =>
      match Py.int v 10 with Some z => Ok z | None => Raise ValueError end
  | Some NoValue => Raise TypeError
  | Some Unresolved => Raise InterpolationError
  | None => Ok fallback
  end.

Definition set_attribute (o : Object) (a_id : Z) (e : entry) (w : world)
  : world :=
  let k := (class_id (obj_cls o), instance_id o) in
  set_directory (<[k := <[a_id := e]> (default ∅ (directory w !! k))]>
                   (directory w)) w.

(** The class-level attributes 1 to 4 of an instance 0. *)
Definition meta_attributes (o : Object) (w : world) : world * result unit :=
  match config_int w (obj_name o) "Revision" 0 with
  | Raise e => (w, Raise e)
  | Ok rev =>
      let w := set_attribute o 1
                 (EAttribute (Attribute_init "Revision" INT (Scalar (VInt rev)))) w in
      let w := set_attribute o 2
                 (EAttribute (Attribute_init "Max Instance" INT
                    (Computed (MaxInstance (class_id (obj_cls o)))))) w in
      let w := set_attribute o 3
                 (EAttribute (Attribute_init "Num Instances" INT
                    (Computed (NumInstances (class_id (obj_cls o)))))) w in
      match config_int w (obj_name o) "Optional Attributes" 0 with
      | Raise e => (w, Raise e)
      | Ok opt =>
          (set_attribute o 4
             (EAttribute (Attribute_init "Optional Attributes" INT
                                         (Scalar (VInt opt)))) w, Ok tt)
      end
  end.

(** [Object.__init__( self, name, instance_id )] for an instance of class
    [c].  [create_meta] stands for the call [self.__class__( name='meta-' +
    self.name, instance_id=0 )], which runs the constructor of the class
    again. *)
Definition Object_init (create_meta : world -> string -> world * result unit)
           (c : pyclass) (w : world) (name : option string)
           (instance_id : option Z) : world * result Object :=
  let name :=
    match name with
    | Some n => if String.eqb n "" then class_name c else n
    | None => class_name c
    end in
  (* Allocate and/or keep track of maximum instance ID assigned thus far. *)
  let instance_id := default (class_max_instance w c + 1) instance_id in
  let w :=
    if class_max_instance w c <? instance_id
    then set_max_instance (<[c := instance_id]> (max_instance w)) w
    else w in
  let self := mkObject c instance_id name in
  match dir_lookup w (class_id c) instance_id None with
  | Some _ => (w, Raise AssertionError)
  | None =>
      let w := set_attribute self 0 (EObject self) w in
      let '(w, r) :=
        match dir_lookup w (class_id c) 0 None with
        | None => create_meta w name
        | Some _ => (w, Ok tt)
        end in
      match r with
      | Raise e => (w, Raise e)
      | Ok _ =>
          if instance_id =? 0 then
            match meta_attributes self w with
            | (w, Ok _) => (w, Ok self)
            | (w, Raise e) => (w, Raise e)
            end
          else (w, Ok self)
      end
  end.

(** What the constructors of the subclasses add for an instance 0:
    [TCPIP.__init__] stores its Revision at the attribute id 0, over the
    Object; the others add nothing. *)
Definition subclass_init_meta (self : Object) (w : world)
  : world * result unit :=
  match obj_cls self with
  | TCPIP =>
      match config_int w (obj_name self) "Revision" 3 with
      | Ok rev =>
          (set_attribute self 0
             (EAttribute (Attribute_init "Revision" UINT (Scalar (VInt rev)))) w,
           Ok tt)
      | Raise e => (w, Raise e)
      end
  | _ => (w, Ok tt)
  end.

(** The construction of the instance 0 of a class: inside it the instance 0
    exists by the time it is looked up, so [create_meta] is not reached. *)
Definition construct_meta (c : pyclass) (w : world) (name : string)
  : world * result unit :=
  match Object_init (fun w _ => (w, Ok tt)) c w (Some ("meta-" ++ name)%string)
                    (Some 0) with
  | (w, Ok self) => subclass_init_meta self w
  | (w, Raise e) => (w, Raise e)
  end.

(** [cls( name=..., instance_id=... )]: [Object.__init__] of a new Object.
    The instance attributes that [Identity.__init__] and [TCPIP.__init__]
    add afterwards are not part of the registry properties. *)
Definition construct (c : pyclass) (w : world) (name : option string)
           (inst : option Z) : world * result Object :=
  match Object_init (construct_meta c) c w name inst with
  | (w, Ok self) =>
      if instance_id self =? 0 then
        match subclass_init_meta self w with
        | (w, Ok _) => (w, Ok self)
        | (w, Raise e) => (w, Raise e)
        end
      else (w, Ok self)
  | r => r
  end.

(** ** Attribute access *)

(** The [value] property of [MaxInstance]: [lookup( class_id, 0
    ).max_instance], and of [NumInstances]: how many of the instances 1 to
    [max_instance] are in the directory. *)
Definition computed_value (w : world) (c : computed) : result pyval :=
  let max_of cid :=
    match dir_lookup w cid 0 None with
    | Some (EObject o) => Ok (class_max_instance w (obj_cls o))
    | _ => Raise AttributeError
    end in
  match c with
  | MaxInstance cid => VInt <$> max_of cid
  | NumInstances cid =>
      m ← max_of cid;
      Ok (VInt (Z.of_nat (length (filter
           (fun i => is_Some (dir_lookup w cid i None))
           (map (fun n => Z.of_nat n + 1) (seq 0 (Z.to_nat m)))))))
  end.

(** [len( self )]: 1 for a scalar, the length of the list otherwise. *)
Definition Attribute_len (a : Attribute) : Z :=
  match attr_default a with
  | Vector l => Z.of_nat (length l)
  | _ => 1
  end.

(** [_validate_key]: simple, linear slices within the length; [int] keys
    below the length. *)
Definition Attribute_validate_key (a : Attribute) (k : key) : result key_type :=
  match k with
  | KSlice start stop step =>
      '(b, e, stride) ← slice_indices start stop step (Attribute_len a);
      if (stride =? 1) && (b <? e) && (e <=? Attribute_len a)
         && bool_decide (stop = Some e \/ stop = None)
      then Ok is_slice
      else Raise KeyError
  | KInt k =>
      if k >=? Attribute_len a then Raise KeyError else Ok is_int
  | KOther => Raise KeyError
  end.

(** [__getitem__]. *)
Definition Attribute_getitem (w : world) (a : Attribute) (k : key)
  : result item :=
  kt ← Attribute_validate_key a k;
  match attr_default a with
  | Scalar v =>
      Ok (match kt with is_slice => Items [v] | is_int => Item v end)
  | Computed c =>
      v ← computed_value w c;
      Ok (match kt with is_slice => Items [v] | is_int => Item v end)
  | Vector l =>
      match k with
      | KSlice start stop step =>
          '(b, e, _) ← slice_indices start stop step (Z.of_nat (length l));
          Ok (Items (list_slice l b e))
      | KInt i => Item <$> list_getitem l i
      | KOther => Raise KeyError
      end
  end.

(** [__setitem__]; [MaxInstance] and [NumInstances] refuse it. *)
Definition Attribute_setitem (a : Attribute) (s : assignment)
  : result Attribute :=
  match attr_default a with
  | Computed _ => Raise AssertionError
  | Scalar old =>
      _ ← Attribute_validate_key a (assignment_key s);
      match s with
      | SetSlice _ _ _ [] => Raise StopIteration
      | SetSlice _ _ _ (v :: _) | SetInt _ v =>
          v ← coerce old v; Ok (set_default (Scalar v) a)
      | SetOther => Raise KeyError
      end
  | Vector l =>
      _ ← Attribute_validate_key a (assignment_key s);
      match s with
      | SetSlice start stop step vs =>
          '(b, e, _) ← slice_indices start stop step (Z.of_nat (length l));
          Ok (set_default (Vector (list_set_slice l b e vs)) a)
      | SetInt k v =>
          l ← list_setitem l k v; Ok (set_default (Vector l) a)
      | SetOther => Raise KeyError
      end
  end.

(** [b''.join( produce( v ) for v in vs )]. *)
Fixpoint join_produce (produce : pyval -> result (list Z)) (vs : list pyval)
  : result (list Z) :=
  match vs with
  | [] => Ok []
  | v :: vs =>
      b ← produce v; bs ← join_produce produce vs; Ok (b ++ bs)
  end.

(** [Attribute.produce( start=0, stop=None )]. *)
Definition Attribute_produce (w : world) (a : Attribute) (start : Z)
           (stop : option Z) : result (list Z) :=
  let stop := default (Attribute_len a) stop in
  it ← Attribute_getitem w a (KSlice (Some start) (Some stop) None);
  match it with
  | Items vs => join_produce (produce_value (attr_parser a)) vs
  | Item _ => Raise TypeError
  end.

(** ** Request and reply data *)

(** The context of a service in the data: the mark [True] that the request
    parsers leave, or a [dotdict] with or without [.data]. *)
Inductive ctx :=
| Mark
| Dict (data : option (list Z)).

Definition ctx_data (c : ctx) : option (list Z) :=
  match c with
  | Mark => None
  | Dict d => d
  end.

(** [forward_open.application] and [forward_close.application]. *)
Record application := mkApplication {
  app_data : option (list Z);
  app_input : option (list Z);
  app_size : option Z
}.

(** The fields of a parsed Forward Open; the reply adds the two API. *)
Record fwd_open := mkFwdOpen {
  priority_time_tick : Z;
  timeout_ticks : Z;
  O_T_connection_ID : Z;
  T_O_connection_ID : Z;
  connection_serial : Z;
  O_vendor : Z;
  O_serial : Z;
  connection_timeout_multiplier : Z;
  O_T_RPI : Z;
  O_T_NCP : Z;
  T_O_RPI : Z;
  T_O_NCP : Z;
  transport_class_triggers : Z;
  connection_path : list term;
  O_T_API : option Z;
  T_O_API : option Z;
  fo_application : option application
}.

Record fwd_close := mkFwdClose {
  fc_priority_time_tick : Z;
  fc_timeout_ticks : Z;
  fc_connection_serial : Z;
  fc_O_vendor : Z;
  fc_O_serial : Z;
  fc_connection_path : list term;
  fc_application : option application
}.

(** The data artifact of a request, a [dotdict]: [None] is an absent key.
    [multiple] is the list [multiple.request] of a Multiple Service
    Packet. *)
#[warnings="-register-all"]
Inductive data := mkData {
  service : option Z;
  status : option Z;
  status_ext : option (list Z);
  path : option (list term);
  get_attributes_all : option ctx;
  get_attribute_single : option ctx;
  set_attribute_single : option ctx;
  service_code : option ctx;
  multiple : option (list data);
  forward_open : option fwd_open;
  forward_close : option fwd_close;
  input : option (list Z)
}.

Definition set_service (v : option Z) (d : data) : data :=
  mkData v (status d) (status_ext d) (path d) (get_attributes_all d)
         (get_attribute_single d) (set_attribute_single d) (service_code d)
         (multiple d) (forward_open d) (forward_close d) (input d).
Definition set_status (v : option Z) (d : data) : data :=
  mkData (service d) v (status_ext d) (path d) (get_attributes_all d)
         (get_attribute_single d) (set_attribute_single d) (service_code d)
         (multiple d) (forward_open d) (forward_close d) (input d).
Definition set_status_ext (v : option (list Z)) (d : data) : data :=
  mkData (service d) (status d) v (path d) (get_attributes_all d)
         (get_attribute_single d) (set_attribute_single d) (service_code d)
         (multiple d) (forward_open d) (forward_close d) (input d).
Definition set_get_attributes_all (v : option ctx) (d : data) : data :=
  mkData (service d) (status d) (status_ext d) (path d) v
         (get_attribute_single d) (set_attribute_single d) (service_code d)
         (multiple d) (forward_open d) (forward_close d) (input d).
Definition set_get_attribute_single (v : option ctx) (d : data) : data :=
  mkData (service d) (status d) (status_ext d) (path d) (get_attributes_all d)
         v (set_attribute_single d) (service_code d)
         (multiple d) (forward_open d) (forward_close d) (input d).
Definition set_multiple (v : option (list data)) (d : data) : data :=
  mkData (service d) (status d) (status_ext d) (path d) (get_attributes_all d)
         (get_attribute_single d) (set_attribute_single d) (service_code d)
         v (forward_open d) (forward_close d) (input d).
Definition set_forward_open (v : option fwd_open) (d : data) : data :=
  mkData (service d) (status d) (status_ext d) (path d) (get_attributes_all d)
         (get_attribute_single d) (set_attribute_single d) (service_code d)
         (multiple d) v (forward_close d) (input d).
Definition set_forward_close (v : option fwd_close) (d : data) : data :=
  mkData (service d) (status d) (status_ext d) (path d) (get_attributes_all d)
         (get_attribute_single d) (set_attribute_single d) (service_code d)
         (multiple d) (forward_open d) v (input d).
Definition set_input (v : option (list Z)) (d : data) : data :=
  mkData (service d) (status d) (status_ext d) (path d) (get_attributes_all d)
         (get_attribute_single d) (set_attribute_single d) (service_code d)
         (multiple d) (forward_open d) (forward_close d) v.

(** An empty [dotdict]. *)
Definition dotdict : data :=
  mkData None None None None None None None None None None None None.

(** What a [request] leaves behind: the variables, the data artifact it
    converted in place, and what it returned or raised. *)
Definition outcome : Type := world * data * result bool.

(** [ctx in data and data.setdefault( 'service', code ) == code]: the data
    with the service filled in if the test holds. *)
Definition service_for {A} (context : option A) (code : Z) (d : data)
  : option data :=
  match context with
  | None => None
  | Some _ =>
      match service d with
      | None => Some (set_service (Some code) d)
      | Some s => if s =? code then Some d else None
      end
  end.

Definition GA_ALL_REQ : Z := 0x01.
Definition GA_ALL_RPY : Z := Z.lor GA_ALL_REQ 0x80.
Definition GA_SNG_REQ : Z := 0x0E.
Definition GA_SNG_RPY : Z := Z.lor GA_SNG_REQ 0x80.
Definition SA_SNG_REQ : Z := 0x10.
Definition SA_SNG_RPY : Z := Z.lor SA_SNG_REQ 0x80.
Definition MULTIPLE_REQ : Z := 0x0A.
Definition MULTIPLE_RPY : Z := Z.lor MULTIPLE_REQ 0x80.
Definition FWD_OPEN_REQ : Z := 0x54.
Definition FWD_OPEN_RPY : Z := Z.lor FWD_OPEN_REQ 0x80.
Definition FWD_CLOS_REQ : Z := 0x4E.
Definition FWD_CLOS_RPY : Z := Z.lor FWD_CLOS_REQ 0x80.

(** Modelled from the spec: [status.produce] of [parser.py], which is not
    part of the sources.  The layout is that of the reply table in the
    docstring of [Message_Router.produce]: the general status, the size of
    the extended status (in words), and the extended status words. *)
Definition status_produce (d : data) : result (list Z) :=
  match status d with
  | None => Raise AttributeError
  | Some st =>
      let ext := default [] (status_ext d) in
      b ← USINT_produce st;
      n ← USINT_produce (Z.of_nat (length ext));
      e ← join_produce (pack_unsigned 2) (VInt <$> ext);
      Ok (b ++ n ++ e)
  end.

(** Modelled from the spec: [typed_data.produce] of [parser.py] with the
    USINT tag type: the elements of [.data], a byte each. *)
Definition typed_data_produce (c : option ctx) : result (list Z) :=
  match c with
  | Some (Dict (Some bs)) => join_produce (pack_unsigned 1) (VInt <$> bs)
  | _ => Raise AttributeError
  end.

Section Wire.

(** The EPATH encoders of [parser.py], which is not part of the sources. *)
Variable EPATH_produce : list term -> result (list Z).
Variable EPATH_padded_produce : list term -> result (list Z).

Definition produce_path (p : option (list term)) : result (list Z) :=
  match p with
  | Some segment => EPATH_produce segment
  | None => Raise AttributeError
  end.

Definition produce_service (d : data) : result (list Z) :=
  match service d with
  | Some s => USINT_produce s
  | None => Raise AttributeError
  end.

(** The head of every reply: service, reserved, status. *)
Definition produce_reply_head (d : data) : result (list Z) :=
  s ← produce_service d; st ← status_produce d; Ok (s ++ [0] ++ st).

(** [Object.produce]. *)
Definition Object_produce (d : data) : data * result (list Z) :=
  match service_for (get_attributes_all d) GA_ALL_REQ d with
  | Some d =>
      (d, s ← produce_service d; p ← produce_path (path d); Ok (s ++ p))
  | None =>
  match service_for (get_attribute_single d) GA_SNG_REQ d with
  | Some d =>
      (d, s ← produce_service d; p ← produce_path (path d); Ok (s ++ p))
  | None =>
  match service_for (set_attribute_single d) SA_SNG_REQ d with
  | Some d =>
      (d, s ← produce_service d; p ← produce_path (path d);
          t ← typed_data_produce (set_attribute_single d); Ok (s ++ p ++ t))
  | None =>
      (d,
       if bool_decide (service d = Some GA_ALL_RPY) then
         h ← produce_reply_head d;
         if bool_decide (status d = Some 0)
         then t ← typed_data_produce (get_attributes_all d); Ok (h ++ t)
         else Ok h
       else if bool_decide (service d = Some GA_SNG_RPY) then
         h ← produce_reply_head d;
         if bool_decide (status d = Some 0)
         then t ← typed_data_produce (get_attribute_single d); Ok (h ++ t)
         else Ok h
       else if bool_decide (service d = Some SA_SNG_RPY) then
         produce_reply_head d
       else
         match service d, service_code d with
         | Some s, Some sc =>
             if negb (s =? 0) then
               (* Generic CIP Service Code + EPATH *)
               s ← produce_service d; p ← produce_path (path d);
               match ctx_data sc with
               | Some _ => t ← typed_data_produce (Some sc); Ok (s ++ p ++ t)
               | None => Ok (s ++ p)
               end
             else Raise AssertionError
         | Some s, None =>
             if negb (Z.land s 0x80 =? 0) then
               (* Generic CIP Service Code Reply *)
               produce_reply_head d
             else Raise AssertionError
         | None, _ => Raise TypeError
         end)
  end end end.

(** *** [Object.request] *)

(** The id that a key of the directory stands for: [str( v )] is the key of
    an [int] id when it is the plain decimal numeral of the id. *)
Definition directory_key (v : pyval) : option Z :=
  match v with
  | VInt z => Some z
  | VStr s =>
      match Py.int s 10 with
      | Some z => if String.eqb (py_str (VInt z)) s then Some z else None
      | None => None
      end
  | VNone => None
  end.

(** [self.attribute]. *)
Definition attributes_of (w : world) (self : Object) : gmap Z entry :=
  default ∅ (directory w !! (class_id (obj_cls self), instance_id self)).

(** [self.attribute[str( a_id )]], where an Attribute is expected. *)
Definition attribute_at (w : world) (self : Object) (a_id : Z)
  : result Attribute :=
  match attributes_of w self !! a_id with
  | Some (EAttribute a) => Ok a
  | Some (EObject _) => Raise AttributeError
  | None => Raise KeyError
  end.

(** The loop of Get Attributes All: the attribute ids from [a_id] on, as long
    as they are present; at most [n] of them. *)
Fixpoint get_attributes_all_loop (n : nat) (w : world) (self : Object)
         (a_id : Z) : result (list Z) :=
  match n with
  | O => Ok []
  | S n =>
      match attributes_of w self !! a_id with
      | None => Ok []
      | Some _ =>
          a ← attribute_at w self a_id;
          bs ← (if Z.land (attr_mask a) MASK_GA_ALL =? 0
                then Attribute_produce w a 0 None else Ok []);
          rest ← get_attributes_all_loop n w self (a_id + 1);
          Ok (bs ++ rest)
      end
  end.

(** Is the request one of Get Attribute Single, Get Attributes All, Set
    Attribute Single?  The data comes back with its service filled in. *)
Definition recognized (d : data) : option data :=
  match service d with
  | Some s =>
      if (s =? GA_SNG_REQ) || (s =? GA_ALL_REQ) || (s =? SA_SNG_REQ)
      then Some d else None
  | None =>
      match service_for (get_attribute_single d) GA_SNG_REQ d with
      | Some d => Some d
      | None =>
          match service_for (get_attributes_all d) GA_ALL_REQ d with
          | Some d => Some d
          | None => service_for (set_attribute_single d) SA_SNG_REQ d
          end
      end
  end.

(** The attribute that the last segment of the path names, for Get and Set
    Attribute Single: the one at the key [str( a_id )], for an id given as an
    [int] or as a [str]. *)
Definition located_attribute (w : world) (self : Object) (d : data)
  : result (Z * Attribute) :=
  match path d with
  | None => Raise AttributeError
  | Some segment =>
      match last segment with
      | None => Raise IndexError
      | Some t =>
          match t !! "attribute"%string with
          | None => Raise AssertionError
          | Some v =>
              (* str( a_id ) in self.attribute *)
              match directory_key v with
              | None => Raise AssertionError
              | Some a_id =>
                  match attributes_of w self !! a_id with
                  | None => Raise AssertionError
                  | Some _ =>
                      a ← attribute_at w self a_id;
                      _ ← assert (Z.land (attr_mask a) MASK_GA_SNG =? 0);
                      Ok (a_id, a)
                  end
              end
          end
      end
  end.

(** [buf[i:i+siz] for i in range( 0, len( buf ), siz )]. *)
Fixpoint chunks (n : nat) (siz : nat) (buf : list Z) : list (list Z) :=
  match n with
  | O => []
  | S n =>
      match buf with
      | [] => []
      | _ => take siz buf :: chunks n siz (drop siz buf)
      end
  end.

Fixpoint unpack_all (unpack : list Z -> result pyval) (cs : list (list Z))
  : result (list pyval) :=
  match cs with
  | [] => Ok []
  | c :: cs => v ← unpack c; vs ← unpack_all unpack cs; Ok (v :: vs)
  end.

(** The body of the [try] of [Object.request] once the service is
    recognized and turned into its reply code. *)
Definition Object_service (w : world) (self : Object) (d : data)
  : result (world * data) :=
  if bool_decide (service d = Some GA_ALL_RPY) then
    bs ← get_attributes_all_loop (size (attributes_of w self)) w self 1;
    _ ← assert (negb (Nat.eqb (length bs) 0));
    Ok (w, set_get_attributes_all (Some (Dict (Some bs))) d)
  else if bool_decide (service d = Some GA_SNG_RPY) then
    '(a_id, a) ← located_attribute w self d;
    bs ← Attribute_produce w a 0 None;
    Ok (w, set_get_attribute_single (Some (Dict (Some bs))) d)
  else if bool_decide (service d = Some SA_SNG_RPY) then
    '(a_id, a) ← located_attribute w self d;
    let siz := struct_calcsize (attr_parser a) in
    match set_attribute_single d ≫= ctx_data with
    | None => Raise AssertionError
    | Some bs =>
        _ ← assert (Z.of_nat (length bs) =? siz * Attribute_len a);
        _ ← (if forallb (fun b => (0 <=? b) && (b <? 256)) bs
             then Ok tt else Raise ValueError);
        cs ← (if siz =? 0 then Raise ValueError
              else if siz <? 0 then Ok []
              else Ok (chunks (length bs) (Z.to_nat siz) bs));
        val ← unpack_all (struct_unpack (attr_parser a)) cs;
        a ← Attribute_setitem a (SetSlice None None None val);
        Ok (set_attribute self a_id (EAttribute a) w, d)
    end
  else Raise AssertionError.

(** [Object.request], with [produce] the [produce] of the class of [self]. *)
Definition Object_request (produce : data -> data * result (list Z))
           (self : Object) (w : world) (d : data) : outcome :=
  let d := set_status_ext None (set_status (Some 0x08) d) in
  let '(w, d) :=
    match recognized d with
    | None => (w, d)
    | Some d =>
        let d := set_service (Z.lor 0x80 <$> service d) d in
        match Object_service w self d with
        | Ok (w, d) => (w, set_status_ext None (set_status (Some 0x00) d))
        | Raise _ => (w, d)
        end
    end in
  (* Always produce a response payload *)
  match produce d with
  | (d, Ok bs) => (w, set_input (Some bs) d, Ok true)
  | (d, Raise e) => (w, d, Raise e)
  end.

(** *** [Message_Router] *)

(** The offsets and the payload of a Multiple Service Packet, as the loop
    over [reversed( data.multiple.request )] builds them from the encoded
    messages: each message is put in front, at offset 0, and moves the ones
    behind it by its length. *)
Fixpoint offsets_payload (msgs : list (list Z)) : list Z * list Z :=
  match msgs with
  | [] => ([], [])
  | m :: rest =>
      let '(offsets, payload) := offsets_payload rest in
      (0 :: map (fun o => o + Z.of_nat (length m)) offsets, m ++ payload)
  end.

(** The count, the offset table and the payload on the wire. *)
Definition produce_offsets_payload (msgs : list (list Z)) : result (list Z) :=
  let '(offsets, payload) := offsets_payload msgs in
  n ← UINT_produce (Z.of_nat (length offsets));
  os ← join_produce (pack_unsigned 2)
       ((fun o => VInt (2 + 2 * Z.of_nat (length offsets) + o)) <$> offsets);
  Ok (n ++ os ++ payload).

(** [octets_encode( r.input )] of every sub-request, last one first: stops at
    the last one that has no [.input]. *)
Fixpoint reply_inputs (rs : list data) : result (list (list Z)) :=
  match rs with
  | [] => Ok []
  | r :: rest =>
      ins ← reply_inputs rest;
      match input r with
      | Some i => Ok (i :: ins)
      | None => Raise AttributeError
      end
  end.

(** [cls.produce( r )] of every sub-request, last one first; [produce] may
    fill in the service of a sub-request. *)
Definition produce_requests (produce : data -> data * result (list Z))
  : list data -> list data * result (list (list Z)) :=
  fix go rs :=
    match rs with
    | [] => ([], Ok [])
    | r :: rest =>
        match go rest with
        | (rest, Raise e) => (r :: rest, Raise e)
        | (rest, Ok msgs) =>
            match produce r with
            | (r, Ok m) => (r :: rest, Ok (m :: msgs))
            | (r, Raise e) => (r :: rest, Raise e)
            end
        end
    end.

(** [Message_Router.produce]. *)
Fixpoint Message_Router_produce (d : data) : data * result (list Z) :=
  match d with
  | mkData sv st se pa ga gs ss sc (Some rs) fo fc inp =>
      if bool_decide (sv = None \/ sv = Some MULTIPLE_REQ) then
        (* Multiple Service Packet request *)
        let '(rs, msgs) := produce_requests Message_Router_produce rs in
        let d := mkData (Some MULTIPLE_REQ) st se pa ga gs ss sc (Some rs)
                        fo fc inp in
        (d, msgs ← msgs;
            s ← produce_service d;
            p ← EPATH_produce
                  (default [ {["class" := VInt (class_id Message_Router)]};
                             {["instance" := VInt 1]} ] pa);
            t ← produce_offsets_payload msgs;
            Ok (s ++ p ++ t))
      else if bool_decide (sv = Some MULTIPLE_RPY) then
        (d, h ← produce_reply_head d;
            if bool_decide (st = Some 0) then
              ins ← reply_inputs rs;
              t ← produce_offsets_payload ins;
              Ok (h ++ t)
            else Ok h)
      else Object_produce d
  | mkData sv st se pa ga gs ss sc None fo fc inp =>
      if bool_decide (sv = Some MULTIPLE_RPY) then
        (d, h ← produce_reply_head d;
            if bool_decide (st = Some 0) then Raise AttributeError
            else Ok h)
      else Object_produce d
  end.

(** What [lookup] returns: [None], an Object or an Attribute of the
    directory, or something else: one of the [dotdict]s of the directory,
    for a key that ends before the attribute id. *)
Inductive found :=
| Nothing
| Found (e : entry)
| FoundOther.

Definition found_entry (e : option entry) : found :=
  match e with
  | Some e => Found e
  | None => Nothing
  end.

(** What [route] returns: [None], [False], or what [lookup] found. *)
Inductive routed :=
| RouteNone
| RouteFalse
| RouteTo (e : entry)
| RouteOther.

Definition ROUTE_FALSE : Z := 0.
Definition ROUTE_RAISE : Z := 1.

(** [directory.get( key )] for a key that the caller gives as a [str]: the
    key is a path in the syntax of [dotdict] (cpppo/dotdict.py), which is
    not part of the sources. *)
Variable directory_get : gmap (Z * Z) (gmap Z entry) -> string -> found.

(** [lookup( *ids )].  A class given as a [str] is the key itself, whatever
    the instance and the attribute.  For an [int] class the key is built
    from [str( instance_id )] and the attribute id: 0, the place of the
    Object, when it is [None] or an empty [str]; the [int] 0 is refused. *)
Definition lookup_ids (w : world) (ids : pyval * pyval * pyval) : found :=
  let '(c, i, a) := ids in
  match c with
  | VStr key => directory_get (directory w) key
  | VNone => Nothing
  | VInt c =>
      match directory_key i with
      | None => Nothing
      | Some i =>
          found_entry
            match a with
            | VNone => dir_lookup w c i None
            | VInt a => dir_lookup w c i (Some a)
            | VStr s =>
                if String.eqb s "" then dir_lookup w c i None
                else directory_key a
                       ≫= (fun a => directory w !! (c, i) ≫= (.!! a))
            end
      end
  end.

(** [Message_Router.route]: the target of a request with a path that is not
    for this Object. *)
Definition Message_Router_route (self : Object) (w : world) (d : data)
           (fail : Z) : result routed :=
  match path d with
  | None => Ok RouteNone
  | Some segment =>
      match resolve (symbol w) segment false with
      | Ok ids =>
          if bool_decide (ids.1.1 = VInt (class_id (obj_cls self)) /\
                          ids.1.2 = VInt (instance_id self))
          then Ok RouteNone
          else Ok (match lookup_ids w ids with
                   | Found e => RouteTo e
                   | FoundOther => RouteOther
                   | Nothing => RouteNone
                   end)
      | Raise e => if fail =? ROUTE_FALSE then Ok RouteFalse else Raise e
      end
  end.

(** [for r in data.multiple.request: target.request( r )]: every
    sub-request is converted in place; an exception ends the loop. *)
Definition dispatch (call : world -> data -> outcome)
  : world -> list data -> world * list data * result unit :=
  fix go w rs :=
    match rs with
    | [] => (w, [], Ok tt)
    | r :: rest =>
        match call w r with
        | (w, r, Ok _) =>
            let '(w, rest, res) := go w rest in (w, r :: rest, res)
        | (w, r, Raise e) => (w, r :: rest, Raise e)
        end
    end.

(** [target.request] for the target of the sub-requests: an Object has it;
    the Attribute that sits in the place of an Object, and anything else
    that the route returned, has not. *)
Definition target_request (request : Object -> world -> data -> outcome)
           (target : routed) (w : world) (r : data) : outcome :=
  match target with
  | RouteTo (EObject o) => request o w r
  | _ => (w, r, Raise AttributeError)
  end.

(** [Message_Router.request] on a Multiple Service Packet, whose service is
    filled in and whose [multiple.request] is [requests]; [request] is the
    [request] method of the Objects. *)
Definition Message_Router_multiple
           (request : Object -> world -> data -> outcome)
           (self : Object) (w : world) (d : data) (requests : list data)
  : outcome :=
  let d := set_service (Z.lor 0x80 <$> service d) d in
  let d := set_status (Some 0x16) d in
  let '(w, d) :=
    match Message_Router_route self w d ROUTE_RAISE with
    | Raise _ => (w, d)
    | Ok r =>
        (* if target is None: target = self *)
        let target :=
          match r with RouteNone => RouteTo (EObject self) | _ => r end in
        if bool_decide (service d = Some MULTIPLE_RPY) then
          let d := set_status (Some 8) (set_status_ext None d) in
          let '(w, rs, res) :=
            dispatch (target_request request target) w requests in
          let d := set_multiple (Some rs) d in
          match res with
          | Ok _ => (w, set_status (Some 0x00) d)
          | Raise _ => (w, d)
          end
        else (w, d)
    end in
  (* Always produce a response payload *)
  match Message_Router_produce d with
  | (d, Ok bs) => (w, set_input (Some bs) d, Ok true)
  | (d, Raise e) => (w, d, Raise e)
  end.

(** [Message_Router.request]. *)
Definition Message_Router_request
           (request : Object -> world -> data -> outcome)
           (self : Object) (w : world) (d : data) : outcome :=
  match multiple d with
  | Some requests =>
      match service_for (multiple d) MULTIPLE_REQ d with
      | Some d => Message_Router_multiple request self w d requests
      | None => Object_request Message_Router_produce self w d
      end
  | None => Object_request Message_Router_produce self w d
  end.

(** *** [Connection_Manager] *)

(** The application data at the end of the Forward Open and Forward Close
    replies: typed data, USINT, padded to an even number of bytes. *)
Definition produce_application (a : option application)
  : application * result (list Z) :=
  let app := default (mkApplication None None None) a in
  let bs := default [] (app_data app) in
  let app := mkApplication (Some bs) (app_input app) (app_size app) in
  match bs with
  | [] =>
      let app := mkApplication (Some bs) (app_input app) (Some 0) in
      (app, s ← USINT_produce 0; Ok (s ++ [0]))
  | _ =>
      match typed_data_produce (Some (Dict (Some bs))) with
      | Raise e => (app, Raise e)
      | Ok i =>
          let i := if Nat.odd (length i) then i ++ [0] else i in
          let size := Z.of_nat (length i) / 2 in
          (mkApplication (Some bs) (Some i) (Some size),
           s ← USINT_produce size;
           Ok (s ++ [0] ++ (if size =? 0 then [] else i)))
      end
  end.

(** [Connection_Manager.produce]. *)
Definition Connection_Manager_produce (d : data) : data * result (list Z) :=
  match service_for (forward_open d) FWD_OPEN_REQ d with
  | Some d =>
      (d,
       match forward_open d with
       | None => Raise AttributeError
       | Some fo =>
           s ← produce_service d; p ← produce_path (path d);
           a ← USINT_produce (priority_time_tick fo);
           b ← USINT_produce (timeout_ticks fo);
           c ← UDINT_produce (O_T_connection_ID fo);
           e ← UDINT_produce (T_O_connection_ID fo);
           f ← UINT_produce (connection_serial fo);
           g ← UINT_produce (O_vendor fo);
           h ← UDINT_produce (O_serial fo);
           i ← USINT_produce (connection_timeout_multiplier fo);
           j ← UDINT_produce (O_T_RPI fo);
           k ← WORD_produce (O_T_NCP fo);
           l ← UDINT_produce (T_O_RPI fo);
           m ← WORD_produce (T_O_NCP fo);
           n ← USINT_produce (transport_class_triggers fo);
           o ← EPATH_produce (connection_path fo);
           Ok (s ++ p ++ a ++ b ++ c ++ e ++ f ++ g ++ h ++ i ++ [0; 0; 0]
                 ++ j ++ k ++ l ++ m ++ n ++ o)
       end)
  | None =>
  if bool_decide (service d = Some FWD_OPEN_RPY) then
    match forward_open d with
    | None => (d, _ ← produce_reply_head d; Raise AttributeError)
    | Some fo =>
        let fields :=
          h ← produce_reply_head d;
          c ← UDINT_produce (O_T_connection_ID fo);
          e ← UDINT_produce (T_O_connection_ID fo);
          f ← UINT_produce (connection_serial fo);
          g ← UINT_produce (O_vendor fo);
          i ← UDINT_produce (O_serial fo);
          j ← (match O_T_API fo with
               | Some v => UDINT_produce v | None => Raise AttributeError end);
          k ← (match T_O_API fo with
               | Some v => UDINT_produce v | None => Raise AttributeError end);
          Ok (h ++ c ++ e ++ f ++ g ++ i ++ j ++ k) in
        match fields with
        | Raise e => (d, Raise e)
        | Ok bs =>
            let '(app, tail) := produce_application (fo_application fo) in
            (set_forward_open
               (Some (mkFwdOpen
                  (priority_time_tick fo) (timeout_ticks fo)
                  (O_T_connection_ID fo) (T_O_connection_ID fo)
                  (connection_serial fo) (O_vendor fo) (O_serial fo)
                  (connection_timeout_multiplier fo) (O_T_RPI fo) (O_T_NCP fo)
                  (T_O_RPI fo) (T_O_NCP fo) (transport_class_triggers fo)
                  (connection_path fo) (O_T_API fo) (T_O_API fo) (Some app))) d,
             t ← tail; Ok (bs ++ t))
        end
    end
  else
  match service_for (forward_close d) FWD_CLOS_REQ d with
  | Some d =>
      (d,
       match forward_close d with
       | None => Raise AttributeError
       | Some fc =>
           s ← produce_service d; p ← produce_path (path d);
           a ← USINT_produce (fc_priority_time_tick fc);
           b ← USINT_produce (fc_timeout_ticks fc);
           f ← UINT_produce (fc_connection_serial fc);
           g ← UINT_produce (fc_O_vendor fc);
           h ← UDINT_produce (fc_O_serial fc);
           o ← EPATH_padded_produce (fc_connection_path fc);
           Ok (s ++ p ++ a ++ b ++ f ++ g ++ h ++ o)
       end)
  | None =>
  if bool_decide (service d = Some FWD_CLOS_RPY) then
    match forward_close d with
    | None => (d, _ ← produce_reply_head d; Raise AttributeError)
    | Some fc =>
        let fields :=
          h ← produce_reply_head d;
          f ← UINT_produce (fc_connection_serial fc);
          g ← UINT_produce (fc_O_vendor fc);
          i ← UDINT_produce (fc_O_serial fc);
          Ok (h ++ f ++ g ++ i) in
        match fields with
        | Raise e => (d, Raise e)
        | Ok bs =>
            let '(app, tail) := produce_application (fc_application fc) in
            (set_forward_close
               (Some (mkFwdClose
                  (fc_priority_time_tick fc) (fc_timeout_ticks fc)
                  (fc_connection_serial fc) (fc_O_vendor fc) (fc_O_serial fc)
                  (fc_connection_path fc) (Some app))) d,
             t ← tail; Ok (bs ++ t))
        end
    end
  else (d, Raise AssertionError)
  end end.

(** [Connection_Manager.forward_open]: report success, return the
    appropriate bits of the request, and pick a random T->O connection id. *)
Definition Connection_Manager_forward_open (w : world) (d : data)
  : result (world * data) :=
  match forward_open d with
  | None => Raise AttributeError
  | Some fo =>
      let '(id, g) := randint 0 (2 ^ 32 - 1) (random w) in
      let fo :=
        mkFwdOpen
          (priority_time_tick fo) (timeout_ticks fo)
          (O_T_connection_ID fo) id
          (connection_serial fo) (O_vendor fo) (O_serial fo)
          (connection_timeout_multiplier fo) (O_T_RPI fo) (O_T_NCP fo)
          (T_O_RPI fo) (T_O_NCP fo) (transport_class_triggers fo)
          (connection_path fo) (Some (O_T_RPI fo)) (Some (T_O_RPI fo))
          (fo_application fo) in
      Ok (set_random g w, set_status (Some 0) (set_forward_open (Some fo) d))
  end.

(** [Connection_Manager.request].  The only request that it handles
    directly is the Forward Open; anything else must carry the unparsed
    [request.input] of an Unconnected Send, which this data artifact does
    not have. *)
Definition Connection_Manager_request (self : Object) (w : world) (d : data)
  : outcome :=
  match service_for (forward_open d) FWD_OPEN_REQ d with
  | Some d =>
      let d := set_service (Z.lor 0x80 <$> service d) d in
      let d := set_status (Some 8) d in
      let '(w, d) :=
        match Connection_Manager_forward_open w d with
        | Ok (w, d) => (w, d)
        | Raise _ => (w, d)
        end in
      match Connection_Manager_produce d with
      | (d, Ok bs) => (w, set_input (Some bs) d, Ok true)
      | (d, Raise e) => (w, d, Raise e)
      end
  | None => (w, d, Raise AssertionError)
  end.

(** *** The [request] method of the class of an Object *)

(** [self.request( data )].  A [UCMM] asserts the client address, which
    this data artifact does not have. *)
Fixpoint request (self : Object) (w : world) (d : data) {struct d} : outcome :=
  match obj_cls self with
  | Identity | TCPIP => Object_request Object_produce self w d
  | Message_Router =>
      Message_Router_request (fun target w r => request target w r) self w d
  | Connection_Manager => Connection_Manager_request self w d
  | UCMM => (w, d, Raise AssertionError)
  end.

End Wire.

(** ** [UCMM]: the session commands *)

(** The session commands under [enip.CIP]; the other commands go through
    the encapsulation parsers and are not part of this development. *)
Inductive cip_command :=
| register (protocol_version options_flags : Z)
| unregister.

Record enip_data := mkEnip {
  CIP : cip_command;
  session_handle : option Z;
  enip_status : option Z;
  enip_input : option (list Z)
}.

(** The data of [UCMM.request]: the client address and the parsed
    encapsulation. *)
Record ucmm_data := mkUcmmData {
  addr_of : option addr;
  enip : option enip_data
}.

Section Encapsulation.

(** [CIP().produce] of [parser.py], which is not part of the sources. *)
Variable CIP_produce : enip_data -> result (list Z).

(** The [while not session or session in sessions] loop, [session] being the
    latest draw; [None] when it is still drawing after [n] more draws.
    [session in sessions] asks for a key of the dict, and the keys are the
    client addresses. *)
Fixpoint draw_session (n : nat) (sessions : gmap addr Z) (session : Z)
         (g : rng) : option (Z * rng) :=
  if (session =? 0) || bool_decide (is_Some (sessions !! AddrInt session))
  then
    match n with
    | O => None
    | S n =>
        let '(session, g) := randint 0 (2 ^ 32) g in
        draw_session n sessions session g
    end
  else Some (session, g).

(** [UCMM.request] on a session command; [None] when the session draw takes
    more than [n] retries. *)
Definition UCMM_request (n : nat) (w : world) (d : ucmm_data)
  : option (world * ucmm_data * result bool) :=
  match addr_of d with
  | None => Some (w, d, Raise AssertionError)
  | Some a =>
      match enip d with
      | None =>
          (* Session being closed *)
          Some (set_sessions (delete a (sessions w)) w, d, Ok false)
      | Some e =>
          let e := mkEnip (CIP e) (session_handle e) (enip_status e) None in
          match CIP e with
          | register _ _ =>
              let '(session, g) := randint 0 (2 ^ 32) (random w) in
              match draw_session n (sessions w) session g with
              | None => None
              | Some (session, g) =>
                  let w := set_random g
                             (set_sessions (<[a := session]> (sessions w)) w) in
                  let e := mkEnip (CIP e) (Some session) (enip_status e) None in
                  match CIP_produce e with
                  | Ok bs =>
                      Some (w, mkUcmmData (Some a)
                                 (Some (mkEnip (CIP e) (Some session) (Some 0x00)
                                               (Some bs))),
                            Ok true)
                  | Raise _ =>
                      let st :=
                        match enip_status e with
                        | Some st => if st =? 0 then 0x08 else st
                        | None => 0x08
                        end in
                      Some (w, mkUcmmData (Some a)
                                 (Some (mkEnip (CIP e) (Some session) (Some st)
                                               None)),
                            Ok true)
                  end
              end
          | unregister =>
              Some (set_sessions (delete a (sessions w)) w,
                    mkUcmmData (Some a) (Some e), Ok false)
          end
      end
  end.

End Encapsulation.

(** ** Definitions used to state the properties *)

(** A literal of base 2, 8, 10 or 16 with the digits [ds]: the decimal one has
    no prefix. *)
Definition literal (base : Z) (ds : list ascii) : string :=
  string_of_list_ascii
    (if base =? 16 then "0"%char :: "x"%char :: ds
     else if base =? 8 then "0"%char :: "o"%char :: ds
     else if base =? 2 then "0"%char :: "b"%char :: ds
     else ds).

(** The state of a fresh interpreter: nothing registered, no configuration,
    and a generator that draws [rnd]. *)
Definition fresh (rnd : nat -> Z) : world :=
  mkWorld ∅ ∅ ∅ ∅ ∅ (mkRng rnd 0).

Definition no_world : world := fresh (fun _ => 0).

Definition three_elements : Attribute :=
  Attribute_init "Samples" INT (Vector [VInt 10; VInt 20; VInt 30]).

(** A history of the registry: constructions and resets, and what came of
    them. *)
Inductive operation :=
| Construct (c : pyclass) (name : option string) (inst : option Z)
| Reset.

Inductive event :=
| Created (o : Object) (automatic : bool)
| Refused (c : pyclass) (e : exn)
| Cleared.

Definition perform (w : world) (op : operation) : world * event :=
  match op with
  | Construct c name inst =>
      match construct c w name inst with
      | (w, Ok o) => (w, Created o (bool_decide (inst = None)))
      | (w, Raise e) => (w, Refused c e)
      end
  | Reset => (lookup_reset w, Cleared)
  end.

Fixpoint run (w : world) (ops : list operation) : world * list event :=
  match ops with
  | [] => (w, [])
  | op :: ops =>
      let '(w, e) := perform w op in
      let '(w, es) := run w ops in
      (w, e :: es)
  end.

(** *** The failure conditions of [resolve], in the words of the
    specification

    The specification walks the segments left to right, filling class,
    instance and attribute, and lists when the resolution fails: a required
    field still unset at the end, a tag still unresolved, a segment that
    would overwrite a set field.  [spec_walk] is that walk; it never stops on
    an error but records, in [s_overwrites], that a segment would have
    overwritten a field, and, in [s_foreign], that a segment was left with
    keys, once its class, instance and attribute were taken, none of which
    is symbolic. *)
Record spec_state := SpecState {
  s_result : resolved;
  s_tag : string;
  s_overwrites : bool;
  s_foreign : bool
}.

Definition spec_fill (key : string) (v : option pyval)
           (st : resolved * bool) : resolved * bool :=
  match v with
  | None => st
  | Some v =>
      if is_None (get_key key st.1) then (set_key key v st.1, st.2)
      else (st.1, true)
  end.

Definition spec_fill_all (t : term) (st : resolved * bool) : resolved * bool :=
  spec_fill "attribute" (t !! "attribute"%string)
    (spec_fill "instance" (t !! "instance"%string)
       (spec_fill "class" (t !! "class"%string) st)).

Definition spec_step (symbol : gmap string address) (st : spec_state)
           (t : term) : spec_state :=
  let '(res, over) := spec_fill_all t (s_result st, s_overwrites st) in
  let rest := delete "attribute"%string
                (delete "instance"%string (delete "class"%string t)) in
  if is_empty rest then SpecState res (s_tag st) over (s_foreign st)
  else
    match rest !! "symbolic"%string with
    | None => SpecState res (s_tag st) over true
    | Some s =>
        let tag := extend_tag (s_tag st) s in
        match symbol !! tag with
        | None => SpecState res tag over (s_foreign st)
        | Some a =>
            let '(res, over) := spec_fill_all (address_dict a) (res, over) in
            SpecState res "" over (s_foreign st)
        end
    end.

Fixpoint spec_walk (symbol : gmap string address) (attribute : bool)
         (segment : list term) (st : spec_state) : spec_state :=
  match segment with
  | [] => st
  | t :: rest =>
      if complete attribute (s_result st) then st
      else spec_walk symbol attribute rest (spec_step symbol st t)
  end.

Definition spec_start : spec_state := SpecState unresolved "" false false.

(** The three conditions of the specification. *)
Definition spec_fails (attribute : bool) (st : spec_state) : bool :=
  negb (complete attribute (s_result st))
  || negb (String.eqb (s_tag st) "")
  || s_overwrites st.

Definition spec_triple (attribute : bool) (st : spec_state)
  : pyval * pyval * pyval :=
  (r_class (s_result st), r_instance (s_result st),
   if attribute then r_attribute (s_result st) else VNone).

(** A path with a connection segment between class and instance, as
    [parse_path] makes it from [@{"class":4}/{"connection":100}/{"instance":5}]. *)
Definition path_with_connection : list term :=
  [ {["class"%string := VInt 4]};
    {["connection"%string := VInt 100]};
    {["instance"%string := VInt 5]} ].

(** *** The Multiple Service Packet reply, in the words of the
    specification *)

(** The offset table: the first offset, and each next one the previous plus
    the length of the previous reply. *)
Fixpoint offsets_from (first : Z) (lengths : list Z) : list Z :=
  match lengths with
  | [] => []
  | l :: rest => first :: offsets_from (first + l) rest
  end.

Definition lengths_of (replies : list (list Z)) : list Z :=
  (fun r => Z.of_nat (length r)) <$> replies.

Definition sum_Z (l : list Z) : Z := foldr Z.add 0 l.

(** An EPATH encoder for the data that has no path to encode. *)
Definition EPATH_unused : list term -> result (list Z) :=
  fun _ => Raise Exception.

(** A directory that is given no [str] key finds nothing under one. *)
Definition directory_unused : gmap (Z * Z) (gmap Z entry) -> string -> found :=
  fun _ _ => Nothing.

(** A sub-request that was converted into a reply of 6 bytes. *)
Definition answered : data :=
  set_input (Some [0x8E; 0; 0; 0; 1; 0])
    (set_status (Some 0) (set_service (Some GA_SNG_RPY) dotdict)).

(** A Multiple Service Packet reply with that one sub-reply. *)
Definition one_reply : data :=
  set_multiple (Some [answered])
    (set_status (Some 0) (set_service (Some MULTIPLE_RPY) dotdict)).

(** *** A small device *)

(** An Identity at instance 1 with its Vendor Number, as [Identity.__init__]
    stores it at the attribute id 1, and a Message Router at instance 1. *)
Definition identity_1 : Object := mkObject Identity 1 "Identity".
Definition router_1 : Object := mkObject Message_Router 1 "Message_Router".

Definition device : world :=
  let w := (construct Identity no_world None None).1 in
  let w := set_attribute identity_1 1
             (EAttribute (Attribute_init "Vendor Number" INT (Scalar (VInt 1))))
             w in
  (construct Message_Router w None None).1.

Definition identity_path : list term :=
  [ {["class"%string := VInt 1]}; {["instance"%string := VInt 1]} ].

(** Get Attribute Single of the Vendor Number: [0E 03 20 01 24 01 30 01]. *)
Definition get_vendor : data :=
  mkData (Some GA_SNG_REQ) None None
         (Some (identity_path ++ [ {["attribute"%string := VInt 1]} ]))
         None (Some Mark) None None None None None None.

(** A Read Tag request, service 0x4C, which the base Object does not
    implement. *)
Definition read_tag : data :=
  mkData (Some 0x4C) None None (Some identity_path)
         None None None None None None None None.

(** The same device with 65530 samples of one byte at the attribute id 2 of
    the Identity, and the Get Attribute Single that reads them: a reply of
    65534 bytes. *)
Definition long_device : world :=
  set_attribute identity_1 2
    (EAttribute (Attribute_init "Samples" USINT
                   (Vector (repeat (VInt 0) (Z.to_nat 65530)))))
    device.

Definition get_long : data :=
  mkData (Some GA_SNG_REQ) None None
         (Some (identity_path ++ [ {["attribute"%string := VInt 2]} ]))
         None (Some Mark) None None None None None None.

(** Multiple Service Packets for the Identity, through the Message Router. *)
Definition packet (requests : list data) : data :=
  mkData (Some MULTIPLE_REQ) None None (Some identity_path)
         None None None None (Some requests) None None None.

(** *** Dispatch in index order

    The sub-requests are taken in the order of the list; each one is handed
    to [call] in the state that the previous one left; the first exception
    ends it and leaves the rest as it was. *)
Inductive in_order (call : world -> data -> outcome)
  : world -> list data -> world -> list data -> result unit -> Prop :=
| in_order_done w :
    in_order call w [] w [] (Ok tt)
| in_order_next w r rest w1 r1 b w2 rest2 res :
    call w r = (w1, r1, Ok b) ->
    in_order call w1 rest w2 rest2 res ->
    in_order call w (r :: rest) w2 (r1 :: rest2) res
| in_order_stop w r rest w1 r1 e :
    call w r = (w1, r1, Raise e) ->
    in_order call w (r :: rest) w1 (r1 :: rest) (Raise e).

(** *** Sample requests of the connection and session services *)

(** A Forward Open with the O->T connection id 0x12345678. *)
Definition open_fields : fwd_open :=
  mkFwdOpen 5 157 0x12345678 0 0x0001 0x1234 0x00000001 0
            0x00004000 0x4302 0x00004000 0x4302 0xA3 [] None None None.

Definition open_request : data :=
  mkData (Some FWD_OPEN_REQ) None None
         (Some [ {["class"%string := VInt 6]}; {["instance"%string := VInt 1]} ])
         None None None None None (Some open_fields) None None.

Definition manager_1 : Object :=
  mkObject Connection_Manager 1 "Connection_Manager".

(** An encapsulation encoder for where the bytes do not matter. *)
Definition CIP_empty : enip_data -> result (list Z) := fun _ => Ok [].

Definition first_peer : addr := AddrTuple "10.0.0.1" 49152.
Definition second_peer : addr := AddrTuple "10.0.0.2" 49153.

(** The first peer holds the session 7, and the generator draws 7 again. *)
Definition one_session : world :=
  set_sessions {[ first_peer := 7 ]} (fresh (fun _ => 7)).

Definition register_request (a : addr) : ucmm_data :=
  mkUcmmData (Some a) (Some (mkEnip (register 1 0) None None None)).

(** The counters only grow. *)
Definition counters_le (w w' : world) : Prop :=
  forall c, class_max_instance w c <= class_max_instance w' c.

(** What [Connection_Manager.produce] leaves of the Forward Open fields: all
    of them but the application data. *)
Definition same_connection (a b : fwd_open) : Prop :=
  O_T_connection_ID a = O_T_connection_ID b /\
  T_O_connection_ID a = T_O_connection_ID b /\
  connection_serial a = connection_serial b /\
  O_vendor a = O_vendor b /\ O_serial a = O_serial b /\
  O_T_RPI a = O_T_RPI b /\ T_O_RPI a = T_O_RPI b /\
  O_T_API a = O_T_API b /\ T_O_API a = T_O_API b.

(** The symbol table after [redirect_tag( "SCADA", {'class': 0x1A2,
    'instance': 1, 'attribute': 1} )]. *)
Definition SCADA_symbol : gmap string address :=
  (redirect_tag ∅ "SCADA" (Address (VInt 0x1A2) (VInt 1) (VInt 1))).1.

(** ** Further definitions

    What the further properties are stated with, and the parts of the code
    that they add to the embedding. *)

(** A path whose connection segment comes after class and instance, as
    [parse_path] makes it from [@{"class":4}/5/{"connection":100}]. *)
Definition path_with_connection_last : list term :=
  [ {["class"%string := VInt 4]};
    {["instance"%string := VInt 5]};
    {["connection"%string := VInt 100]} ].

(** The registry is counted when no counter is negative and the counter
    of each class is at or above every instance of the class that the
    directory holds. *)
Definition counted (w : world) : Prop :=
  (forall c, 0 <= class_max_instance w c) /\
  forall c i, is_Some (dir_lookup w (class_id c) i None) ->
              i <= class_max_instance w c.

(** A configuration whose Revision is no number. *)
Definition bad_revision : world :=
  mkWorld ∅ ∅ ∅ {[ "DEFAULT"%string := {[ "revision"%string := Text "x" ]} ]}
          ∅ (mkRng (fun _ => 0) 0).

(** How a configured value can fail to be a number: [int()] refuses it
    (ValueError), there is no value (TypeError), or its interpolation
    fails. *)
Definition config_error (e : exn) : Prop :=
  e = ValueError \/ e = TypeError \/ e = InterpolationError.

(** Set Attribute Single of an attribute 99, which the Identity does not
    have. *)
Definition set_missing : data :=
  mkData (Some SA_SNG_REQ) None None
         (Some (identity_path ++ [ {["attribute"%string := VInt 99]} ]))
         None None (Some (Dict (Some [0; 0]))) None None None None None.

(** The renderings of the Attributes of a list that [MASK_GA_ALL] does not
    hide, one after the other. *)
Fixpoint produce_unmasked (w : world) (attrs : list Attribute)
  : result (list Z) :=
  match attrs with
  | [] => Ok []
  | a :: attrs =>
      bs ← (if Z.land (attr_mask a) MASK_GA_ALL =? 0
            then Attribute_produce w a 0 None else Ok []);
      rest ← produce_unmasked w attrs;
      Ok (bs ++ rest)
  end.

(** Get Attributes All of the Identity. *)
Definition get_all : data :=
  mkData (Some GA_ALL_REQ) None None (Some identity_path)
         (Some Mark) None None None None None None None.

(** The Identity with an array of two USINT samples as its attribute 2,
    and the requests that write and read it. *)
Definition samples_device : world :=
  set_attribute identity_1 2
    (EAttribute (Attribute_init "Samples" USINT (Vector [VInt 10; VInt 20])))
    device.

Definition samples_path : list term :=
  identity_path ++ [ {["attribute"%string := VInt 2]} ].

Definition set_samples : data :=
  mkData (Some SA_SNG_REQ) None None (Some samples_path)
         None None (Some (Dict (Some [7; 9]))) None None None None None.

Definition get_samples : data :=
  mkData (Some GA_SNG_REQ) None None (Some samples_path)
         None (Some Mark) None None None None None None.

(** A Multiple Service Packet whose path is a tag that nothing defines. *)
Definition lost_packet : data :=
  mkData (Some MULTIPLE_REQ) None None
         (Some [ {["symbolic"%string := VStr "nowhere"]} ])
         None None None None (Some [get_vendor]) None None None.

(** *** The payload of a parsed Multiple Service Packet

    [reqdata[beg:end]] for two [int]s: the slice of a sequence, with the
    clipping of [slice.indices]. *)
Definition py_slice {A} (l : list A) (b e : Z) : list A :=
  match slice_indices (Some b) (Some e) None (Z.of_nat (length l)) with
  | Ok (b, e, _) => list_slice l b e
  | Raise _ => []
  end.

(** The [closure] of [state_multiple_service.terminate]: the [req.input] of
    the requests that it parses, one per offset; each runs from its offset
    to the next one, the last one to the end of the data, the offsets being
    counted from the start of the number of services. *)
Definition multiple_snippets (offsets : list Z) (reqdata : list Z)
  : list (list Z) :=
  let n := Z.of_nat (length offsets) in
  (fun oi : nat =>
     let beg := default 0 (offsets !! oi) - (2 + 2 * n) in
     let end_ :=
       if Z.of_nat oi <? n - 1
       then default 0 (offsets !! S oi) - (2 + 2 * n)
       else Z.of_nat (length reqdata) in
     py_slice reqdata beg end_) <$> seq 0 (length offsets).

(** ** Parsing of paths

    The [str] methods that [parse_path_component] uses, for a separator of
    one character. *)
Module Str.

(** [c in s]. *)
Fixpoint contains (c : ascii) (s : string) : bool :=
  match s with
  | EmptyString => false
  | String x r => Ascii.eqb x c || contains c r
  end.

(** [s.split( c, 1 )] when [c] is in [s]: what comes before the first [c],
    and what comes after it. *)
Fixpoint split1 (c : ascii) (s : string) : option (string * string) :=
  match s with
  | EmptyString => None
  | String x r =>
      if Ascii.eqb x c then Some (EmptyString, r)
      else match split1 c r with
           | Some (a, b) => Some (String x a, b)
           | None => None
           end
  end.

(** [s.split( c )]: never empty. *)
Fixpoint split (c : ascii) (s : string) : list string :=
  match s with
  | EmptyString => [EmptyString]
  | String x r =>
      if Ascii.eqb x c then EmptyString :: split c r
      else match split c r with
           | a :: rest => String x a :: rest
           | [] => [String x EmptyString]
           end
  end.

(** [s.startswith( c )]. *)
Definition startswith (c : ascii) (s : string) : bool :=
  match s with
  | String x _ => Ascii.eqb x c
  | EmptyString => false
  end.

End Str.

(** [s[1:]]. *)
Definition tail_of (s : string) : string :=
  match s with
  | String _ r => r
  | EmptyString => EmptyString
  end.

(** [int( x )] and [parse_int( x )] of a [str], with their [ValueError]. *)
Definition int_of (x : string) : result Z :=
  match Py.int x 10 with Some v => Ok v | None => Raise ValueError end.

Definition parse_int_of (x : string) : result Z :=
  match parse_int x 10 with Some v => Ok v | None => Raise ValueError end.

Definition defaults : list string :=
  [ "class"; "instance"; "attribute"; "element" ]%string.

Section Paths.

(** [json.loads] of the standard library, for the segments given in JSON
    form. *)
Variable json_loads : string -> result term.

(** The loop over [enumerate( path[1:].split( '/' ))] of a numeric path,
    from the index [i] on. *)
Fixpoint numeric_segments (i : nat) (segs : list string)
  : result (list term) :=
  match segs with
  | [] => Ok []
  | seg :: rest =>
      trm ← (if Str.startswith "{" seg then json_loads seg
             else match defaults !! i with
                  | None => Raise AssertionError
                  | Some key =>
                      v ← parse_int_of seg; Ok ({[ key := VInt v ]} : term)
                  end);
      more ← numeric_segments (S i) rest;
      Ok (trm :: more)
  end.

(** [segments[-1]['element'] = elm], after an empty segment was appended
    unless the last one has an element already. *)
Definition with_element (segments : list term) (elm : Z) : list term :=
  match last segments with
  | Some t =>
      if bool_decide (is_Some (t !! "element"%string))
      then removelast segments ++ [ <["element"%string := VInt elm]> t ]
      else segments ++ [ {["element"%string := VInt elm]} ]
  | None => [ {["element"%string := VInt elm]} ]
  end.

(** [parse_path_component( path, elm, cnt )] for an [int] or no default
    element and count. *)
Definition parse_path_component (path : string) (elm cnt : option Z)
  : result (list term * option Z * option Z) :=
  '(path, cnt) ←
    (if Str.contains "*" path then
       match Str.split1 "*" path with
       | Some (p, c) => c ← parse_int_of c; Ok (p, Some c)
       | None => Raise ValueError
       end
     else Ok (path, cnt));
  '(path, elm, cnt) ←
    (if Str.contains "[" path then
       match Str.split1 "[" path with
       | Some (p, e) =>
           match Str.split "]" e with
           | [e; rem] =>
               _ ← assert (String.eqb rem "");
               '(e, lst) ←
                 (if Str.contains "-" e then
                    match Str.split "-" e with
                    | [e; l] => l ← int_of l; Ok (e, Some l)
                    | _ => Raise ValueError
                    end
                  else Ok (e, None));
               e ← int_of e;
               match lst with
               | Some l =>
                   let c := l + 1 - e in
                   _ ← assert (0 <? c); Ok (p, Some e, Some c)
               | None => Ok (p, Some e, cnt)
               end
           | _ => Raise ValueError
           end
       | None => Raise ValueError
       end
     else Ok (path, elm, cnt));
  segments ←
    (if Str.startswith "@" path then
       (* Numeric and/or JSON *)
       match numeric_segments 0 (Str.split "/" (tail_of path)) with
       | Ok segments => Ok segments
       | Raise _ => Raise Exception
       end
     else
       (* Symbolic Tag *)
       Ok [ ({["symbolic"%string := VStr path]} : term) ]);
  Ok (match elm with
      | Some e => with_element segments e
      | None => segments
      end, elm, cnt).

(** The [while len( p ) > 1] loop of [parse_path_elements]: every component
    but the last. *)
Fixpoint leading_components (p : list string) : result (list term) :=
  match p with
  | [] => Ok []
  | x :: rest =>
      match rest with
      | [] => Ok []
      | _ :: _ =>
          '(s, e, c) ← parse_path_component x None None;
          _ ← assert (bool_decide (c = None \/ c = Some 1));
          more ← leading_components rest;
          Ok (s ++ more)
      end
  end.

(** [parse_path_elements( path, elm, cnt )] for a [str]; a path that is no
    [str] is returned as it is. *)
Definition parse_path_elements (path : string) (elm cnt : option Z)
  : result (list term * option Z * option Z) :=
  let p := Str.split "." path in
  segments ← leading_components p;
  match last p with
  | Some final =>
      '(s, elm, cnt) ← parse_path_component final elm cnt;
      Ok (segments ++ s, elm, cnt)
  | None => Raise IndexError
  end.

(** [parse_path( path, elm )]. *)
Definition parse_path (path : string) (elm : option Z) : result (list term) :=
  r ← parse_path_elements path elm None; Ok r.1.1.

End Paths.

(** [c.join( names )]. *)
Fixpoint join (c : ascii) (names : list string) : string :=
  match names with
  | [] => EmptyString
  | [ n ] => n
  | n :: rest => (n ++ String c (join c rest))%string
  end.

(** A string without any of the characters [cs]. *)
Definition free_of (cs : list ascii) (s : string) : bool :=
  forallb (fun c => negb (Str.contains c s)) cs.

(** A name that [parse_path_elements] takes as a symbolic tag: no ".", "*"
    or "[" in it, and no "@" in front. *)
Definition plain (s : string) : bool :=
  free_of [ "."; "*"; "[" ]%char s && negb (Str.startswith "@" s).

(** A number as a term of a numeric path: no ".", "*", "[" or "/" in it, no
    "{" in front. *)
Definition number (s : string) : bool :=
  free_of [ "."; "*"; "["; "/" ]%char s && negb (Str.startswith "{" s).

(** A [json.loads] for the paths that have no JSON in them. *)
Definition json_unused : string -> result term := fun _ => Raise ValueError.

(** An EPATH encoder that always writes the path of the class 1, instance
    1: [02 20 01 24 01]. *)
Definition EPATH_fixed : list term -> result (list Z) :=
  fun _ => Ok [0x02; 0x20; 0x01; 0x24; 0x01].

(* ================================================================== *)
(** * Properties *)

(** ** [parse_int] *)

Lemma digit_not_underscore base c :
  Py.is_digit_of base c = true -> Py.is_underscore c = false.
Proof.
  unfold Py.is_digit_of, Py.is_underscore. intros H.
  destruct (Ascii.eqb_spec c "_") as [-> | ]; [ | reflexivity ].
  discriminate H.
Qed.

Lemma digit_not_space base c :
  Py.is_digit_of base c = true -> Py.is_space c = false.
Proof.
  unfold Py.is_digit_of, Py.digit_value, Py.is_space.
  set (n := Z.of_nat (nat_of_ascii c)). intros H.
  destruct ((48 <=? n) && (n <=? 57)) eqn:E1;
    [ | destruct ((97 <=? n) && (n <=? 122)) eqn:E2;
        [ | destruct ((65 <=? n) && (n <=? 90)) eqn:E3; [ | discriminate H ] ] ];
    lia.
Qed.

Lemma digit_not_sign base c :
  Py.is_digit_of base c = true ->
  Ascii.eqb c "+" = false /\ Ascii.eqb c "-" = false.
Proof.
  unfold Py.is_digit_of. intros H.
  split; [ destruct (Ascii.eqb_spec c "+") as [-> | ]
         | destruct (Ascii.eqb_spec c "-") as [-> | ] ];
    try reflexivity; discriminate H.
Qed.

(** On digits alone the digit loop reads everything. *)
Lemma scan_digits_all base ds : forall acc n,
  Forall (fun c => Py.is_digit_of base c = true) ds ->
  Py.scan_digits base acc false n ds
  = Some (fold_left (fun a c => a * base + default 0 (Py.digit_value c)) ds acc,
          (n + length ds)%nat, []).
Proof.
  induction ds as [ | c ds IH ]; intros acc n H.
  - simpl. rewrite Nat.add_0_r. reflexivity.
  - inversion H as [ | ? ? Hc Hds ]; subst. simpl.
    rewrite (digit_not_underscore _ _ Hc).
    unfold Py.is_digit_of in Hc.
    destruct (Py.digit_value c) as [ d | ]; [ | discriminate Hc ].
    rewrite Hc, (IH _ _ Hds). simpl. do 3 f_equal. lia.
Qed.

(** [int( ds, b )] on a nonempty string of digits of the base. *)
Lemma int_digits base ds :
  2 <= base <= 36 -> ds <> [] ->
  Forall (fun c => Py.is_digit_of base c = true) ds ->
  Py.has_prefix base ds = false ->
  Py.int (string_of_list_ascii ds) base = Some (digits_value base ds).
Proof.
  intros Hb Hne H Hp. unfold Py.int.
  replace ((base =? 0) || ((2 <=? base) && (base <=? 36))) with true by lia.
  replace (base =? 0) with false by lia.
  simpl negb. cbv iota.
  rewrite list_ascii_of_string_of_list_ascii.
  destruct ds as [ | c ds ]; [ congruence | ].
  inversion H as [ | ? ? Hc Hds ]; subst.
  simpl Py.lstrip. rewrite (digit_not_space _ _ Hc).
  destruct (digit_not_sign _ _ Hc) as [-> ->].
  rewrite Hp, (digit_not_underscore _ _ Hc), (scan_digits_all _ _ _ _ H).
  simpl. unfold digits_value. f_equal. simpl.
  destruct (fold_left _ ds _); reflexivity.
Qed.

Lemma no_prefix_10 ds : Py.has_prefix 10 ds = false.
Proof.
  destruct ds as [ | z [ | p ds ] ]; try reflexivity.
  simpl. apply andb_false_r.
Qed.

(** A prefixed literal is not a decimal number, and [int] deduces its base
    from the prefix. *)
Lemma int_prefixed (p : ascii) (base : Z) (ds : list ascii) :
  (p = "x"%char /\ base = 16) \/ (p = "o"%char /\ base = 8)
  \/ (p = "b"%char /\ base = 2) ->
  ds <> [] ->
  Forall (fun c => Py.is_digit_of base c = true) ds ->
  Py.int (string_of_list_ascii ("0"%char :: p :: ds)) 10 = None /\
  Py.int (string_of_list_ascii ("0"%char :: p :: ds)) 0
  = Some (digits_value base ds).
Proof.
  intros Hp Hne H.
  destruct ds as [ | c ds ]; [ congruence | ].
  inversion H as [ | ? ? Hc Hds ]; subst.
  pose proof (digit_not_underscore _ _ Hc) as Hu.
  pose proof (scan_digits_all _ _ 0 0%nat H) as Hs.
  unfold Py.int.
  rewrite list_ascii_of_string_of_list_ascii.
  destruct Hp as [ [-> ->] | [ [-> ->] | [-> ->] ] ];
    (split; [ reflexivity | ]);
    simpl; rewrite !Hu, Hs; cbn [Nat.add length Nat.eqb Py.lstrip];
    rewrite Z.mul_1_l; reflexivity.
Qed.

(** The digit loop stops at a letter that is no digit of the base. *)
Lemma scan_zero_letter (p : ascii) (d target : Z) (r : list ascii) :
  Py.digit_value p = Some d -> Py.is_underscore p = false ->
  0 < target <= d ->
  Py.scan_digits target 0 false 0 ("0"%char :: p :: r)
  = Some (0, 1%nat, p :: r).
Proof.
  intros Hd Hu Ht. cbn [Py.scan_digits].
  change (Py.is_underscore "0") with false.
  change (Py.digit_value "0") with (Some 0). cbv iota.
  replace (0 <? target) with true by lia.
  rewrite Hu, Hd. replace (d <? target) with false by lia.
  reflexivity.
Qed.

Lemma has_prefix_letter (p : ascii) (target : Z) (r : list ascii) :
  Py.has_prefix target ("0"%char :: p :: r)
  = ((target =? 16) && Py.char_in p "x" "X")
    || ((target =? 8) && Py.char_in p "o" "O")
    || ((target =? 2) && Py.char_in p "b" "B").
Proof. reflexivity. Qed.

Lemma int_prefixed_target (p : ascii) (base target : Z) (ds : list ascii) :
  (p = "x"%char /\ base = 16 /\ target <= 33)
  \/ (p = "o"%char /\ base = 8 /\ target <= 24)
  \/ (p = "b"%char /\ base = 2 /\ target <= 11) ->
  ds <> [] ->
  Forall (fun c => Py.is_digit_of base c = true) ds ->
  Py.int (string_of_list_ascii ("0"%char :: p :: ds)) target = None
  \/ Py.int (string_of_list_ascii ("0"%char :: p :: ds)) target
     = Some (digits_value base ds).
Proof.
  intros Hp Hne H.
  assert (H0 : Py.int (string_of_list_ascii ("0"%char :: p :: ds)) 0
               = Some (digits_value base ds)).
  { apply (int_prefixed p base ds); [ | exact Hne | exact H ].
    destruct Hp as [ (-> & -> & _) | [ (-> & -> & _) | (-> & -> & _) ] ]; auto. }
  destruct (Z.eq_dec target 0) as [-> | Hz]; [ right; exact H0 | ].
  destruct (Z.eq_dec target base) as [-> | Hb].
  { right. rewrite <- H0. unfold Py.int.
    rewrite list_ascii_of_string_of_list_ascii.
    destruct Hp as [ (-> & -> & _) | [ (-> & -> & _) | (-> & -> & _) ] ];
      reflexivity. }
  left. unfold Py.int.
  destruct (negb _) eqn:Hv; [ reflexivity | ].
  rewrite list_ascii_of_string_of_list_ascii.
  replace (target =? 0) with false by lia.
  assert (Hpos : 0 < target) by lia.
  assert (Hx : exists d, Py.digit_value p = Some d /\ target <= d
                         /\ Py.is_underscore p = false
                         /\ Py.is_space p = false
                         /\ Py.has_prefix target ("0"%char :: p :: ds) = false).
  { rewrite has_prefix_letter.
    destruct Hp as [ (-> & -> & Ht) | [ (-> & -> & Ht) | (-> & -> & Ht) ] ];
      eexists; (split; [ reflexivity | ]); (split; [ exact Ht | ]);
      (split; [ reflexivity | ]); (split; [ reflexivity | ]);
      [ replace (target =? 16) with false by lia
      | replace (target =? 8) with false by lia
      | replace (target =? 2) with false by lia ];
      rewrite ?andb_false_r; reflexivity. }
  destruct Hx as (d & Hd & Htd & Hu & Hsp & Hpre).
  change (Py.lstrip ("0"%char :: p :: ds)) with ("0"%char :: p :: ds).
  cbv beta iota zeta.
  change (Ascii.eqb "0" "+") with false.
  change (Ascii.eqb "0" "-") with false. cbv beta iota zeta.
  rewrite Hpre.
  change (Py.is_underscore "0") with false. cbv iota.
  rewrite (scan_zero_letter p d target ds Hd Hu) by lia.
  cbn [andb Nat.eqb Py.lstrip]. rewrite Hsp. reflexivity.
Qed.

Lemma letter_digit (p a b : ascii) (d base : Z) :
  Py.digit_value a = Some d -> Py.digit_value b = Some d ->
  Py.is_digit_of base p = true -> Py.char_in p a b = true -> d < base.
Proof.
  intros Ha Hb Hp. unfold Py.char_in, Py.is_digit_of in *.
  destruct (Ascii.eqb_spec p a) as [-> | _];
    [ | destruct (Ascii.eqb_spec p b) as [-> | _]; [ | discriminate ] ];
    intros _; [ rewrite Ha in Hp | rewrite Hb in Hp ]; lia.
Qed.

(** A string of digits of a base does not start with the prefix of the
    base: the letter of the prefix is no digit of it. *)
Lemma digits_no_prefix base ds :
  Forall (fun c => Py.is_digit_of base c = true) ds ->
  Py.has_prefix base ds = false.
Proof.
  intros H. destruct ds as [ | z [ | p ds ] ]; try reflexivity.
  inversion H as [ | ? ? _ H1 ]; subst.
  inversion H1 as [ | ? ? Hp _ ]; subst.
  pose proof (letter_digit p "x" "X" 33 base eq_refl eq_refl Hp) as Hx.
  pose proof (letter_digit p "o" "O" 24 base eq_refl eq_refl Hp) as Ho.
  pose proof (letter_digit p "b" "B" 11 base eq_refl eq_refl Hp) as Hb.
  unfold Py.has_prefix.
  destruct (Py.char_in p "x" "X");
    [ replace (base =? 16) with false by (specialize (Hx eq_refl); lia) | ];
    (destruct (Py.char_in p "o" "O");
     [ replace (base =? 8) with false by (specialize (Ho eq_refl); lia) | ]);
    (destruct (Py.char_in p "b" "B");
     [ replace (base =? 2) with false by (specialize (Hb eq_refl); lia) | ]);
    rewrite ?andb_false_r; reflexivity.
Qed.

(** C7.  [parse_int] reads a numeral in the given base: for every base from
    2 to 36 a nonempty string of digits of the base is read digit by digit
    in that base, leading zeros included ("012" in base 10 is 12, not an
    octal number).  A literal with one of the prefixes 0x, 0o, 0b is read in
    the base of its prefix whenever the letter of the prefix is no digit of
    the given base (x is the digit 33, o is 24, b is 11), as it is in the
    default base 10 ("0o12" is 10); where the letter is a digit of the given
    base the literal is a numeral of that base, and is read as one ("0b1" in
    base 16 is 177). *)
Theorem parse_int_literal (base target : Z) (ds : list ascii) :
  ds <> [] ->
  Forall (fun c => Py.is_digit_of base c = true) ds ->
  (2 <= base <= 36 ->
   parse_int (string_of_list_ascii ds) base = Some (digits_value base ds))
  /\ ((base = 16 /\ target <= 33) \/ (base = 8 /\ target <= 24)
      \/ (base = 2 /\ target <= 11) ->
      parse_int (literal base ds) target = Some (digits_value base ds)).
Proof.
  intros Hne H. split.
  - intros Hb. unfold parse_int.
    rewrite int_digits; auto using digits_no_prefix.
  - intros Hp. unfold parse_int.
    assert (Hl : exists p,
               literal base ds = string_of_list_ascii ("0"%char :: p :: ds)
               /\ ((p = "x"%char /\ base = 16 /\ target <= 33)
                   \/ (p = "o"%char /\ base = 8 /\ target <= 24)
                   \/ (p = "b"%char /\ base = 2 /\ target <= 11))).
    { destruct Hp as [ [-> Ht] | [ [-> Ht] | [-> Ht] ] ];
        eexists; (split; [ reflexivity | ]); auto. }
    destruct Hl as (p & -> & Hp').
    assert (H0 : Py.int (string_of_list_ascii ("0"%char :: p :: ds)) 0
                 = Some (digits_value base ds)).
    { apply (int_prefixed p base ds); [ | exact Hne | exact H ].
      destruct Hp' as [ (-> & -> & _) | [ (-> & -> & _) | (-> & -> & _) ] ];
        auto. }
    destruct (int_prefixed_target p base target ds Hp' Hne H) as [-> | ->];
      [ exact H0 | reflexivity ].
Qed.

Lemma parse_int_literal_witness :
  parse_int "012" 10 = Some 12 /\ parse_int "0o12" 10 = Some 10
  /\ parse_int "0x1A" 10 = Some 26 /\ parse_int "0b101" 10 = Some 5
  /\ parse_int "ff" 16 = Some 255 /\ parse_int "0b1" 16 = Some 177.
Proof.
  refine (conj _ (conj _ (conj _ (conj _ (conj _ _))))).
  - refine (proj1 (parse_int_literal 10 10 ["0"; "1"; "2"]%char _ _) _);
      [ discriminate | repeat constructor | lia ].
  - refine (proj2 (parse_int_literal 8 10 ["1"; "2"]%char _ _) _);
      [ discriminate | repeat constructor | right; left; lia ].
  - refine (proj2 (parse_int_literal 16 10 ["1"; "A"]%char _ _) _);
      [ discriminate | repeat constructor | left; lia ].
  - refine (proj2 (parse_int_literal 2 10 ["1"; "0"; "1"]%char _ _) _);
      [ discriminate | repeat constructor | right; right; lia ].
  - refine (proj1 (parse_int_literal 16 16 ["f"; "f"]%char _ _) _);
      [ discriminate | repeat constructor | lia ].
  - refine (proj1 (parse_int_literal 16 16 ["0"; "b"; "1"]%char _ _) _);
      [ discriminate | repeat constructor | lia ].
Defined.

(** Without a base to try first, a base outside 2..36, the prefix decides:
    the error of the first attempt is caught like that of a literal. *)
Example parse_int_no_base :
  parse_int "0x1A" 1 = Some 26 /\ parse_int "012" 1 = None.
Proof. split; reflexivity. Qed.

(** The deduced base alone refuses the leading zero: this is what the first
    attempt in the target base avoids. *)
Example int_base0_leading_zero : Py.int "012" 0 = None.
Proof. reflexivity. Qed.

(** ** Attribute indexing *)

Lemma Attribute_len_nonneg a : 0 <= Attribute_len a.
Proof. unfold Attribute_len. destruct (attr_default a); lia. Qed.

(** An [int] key is refused exactly when it is at or beyond the length. *)
Lemma validate_int_key a k :
  Attribute_validate_key a (KInt k)
  = if k >=? Attribute_len a then Raise KeyError else Ok is_int.
Proof. reflexivity. Qed.

Lemma validate_negative_key a k :
  k < 0 -> Attribute_validate_key a (KInt k) = Ok is_int.
Proof.
  intros Hk. rewrite validate_int_key.
  pose proof (Attribute_len_nonneg a).
  destruct (Z.geb_spec k (Attribute_len a)); [ lia | reflexivity ].
Qed.

(** C9.  Only the upper bound of an [int] key is validated: the key is
    refused with [KeyError] exactly when it is at or beyond the length, so
    a negative key passes; on a vector Attribute a negative key within
    the length reads and writes the element counted from the end. *)
Theorem negative_key_counts_from_end (w : world) (a : Attribute)
        (l : list pyval) (k : Z) :
  attr_default a = Vector l ->
  - Z.of_nat (length l) <= k < 0 ->
  (forall k', Attribute_validate_key a (KInt k') = Raise KeyError
              <-> Z.of_nat (length l) <= k') /\
  Attribute_validate_key a (KInt k) = Ok is_int /\
  exists x,
    l !! Z.to_nat (Z.of_nat (length l) + k) = Some x /\
    Attribute_getitem w a (KInt k) = Ok (Item x) /\
    forall v,
      Attribute_setitem a (SetInt k v)
      = Ok (set_default
              (Vector (<[Z.to_nat (Z.of_nat (length l) + k) := v]> l)) a).
Proof.
  intros Hv Hk.
  assert (Hlen : Attribute_len a = Z.of_nat (length l))
    by (unfold Attribute_len; rewrite Hv; reflexivity).
  split; [ | split ].
  - intros k'. rewrite validate_int_key, Hlen.
    destruct (Z.geb_spec k' (Z.of_nat (length l))); split;
      (discriminate || lia || reflexivity).
  - apply validate_negative_key. lia.
  - destruct (lookup_lt_is_Some_2 l (Z.to_nat (Z.of_nat (length l) + k)))
      as [x Hx]; [ lia | ].
    exists x. split; [ exact Hx | ]. split.
    + unfold Attribute_getitem.
      rewrite validate_negative_key by lia. simpl. rewrite Hv.
      unfold list_getitem.
      replace (k <? 0) with true by lia.
      replace ((0 <=? k + Z.of_nat (length l))
               && (k + Z.of_nat (length l) <? Z.of_nat (length l)))
        with true by lia.
      replace (k + Z.of_nat (length l)) with (Z.of_nat (length l) + k) by lia.
      rewrite Hx. reflexivity.
    + intros v. unfold Attribute_setitem. rewrite Hv.
      cbn [assignment_key]. rewrite validate_negative_key by lia. simpl.
      unfold list_setitem.
      replace (k <? 0) with true by lia.
      replace ((0 <=? k + Z.of_nat (length l))
               && (k + Z.of_nat (length l) <? Z.of_nat (length l)))
        with true by lia.
      replace (k + Z.of_nat (length l)) with (Z.of_nat (length l) + k) by lia.
      reflexivity.
Qed.

Lemma negative_key_counts_from_end_witness :
  Attribute_getitem no_world three_elements (KInt (-1)) = Ok (Item (VInt 30))
  /\ Attribute_getitem no_world three_elements (KInt 3) = Raise KeyError.
Proof.
  destruct (negative_key_counts_from_end no_world three_elements
              [VInt 10; VInt 20; VInt 30] (-1))
    as (Hup & _ & x & Hx & Hget & _);
    [ reflexivity | simpl; lia | ].
  split.
  - simpl in Hx. injection Hx as <-. exact Hget.
  - unfold Attribute_getitem.
    rewrite (proj2 (Hup 3)) by (simpl; lia). reflexivity.
Defined.

(** A negative key beyond the length is not a [KeyError] either: the list
    raises [IndexError]. *)
Example negative_key_beyond_length :
  Attribute_getitem no_world three_elements (KInt (-4)) = Raise IndexError.
Proof. reflexivity. Qed.

(** ** The registry *)

Lemma dir_lookup_directory w w' c i a :
  directory w = directory w' -> dir_lookup w c i a = dir_lookup w' c i a.
Proof. unfold dir_lookup. intros ->. reflexivity. Qed.

Lemma counters_le_refl w : counters_le w w.
Proof. intros c. lia. Qed.

Lemma counters_le_trans w1 w2 w3 :
  counters_le w1 w2 -> counters_le w2 w3 -> counters_le w1 w3.
Proof. intros H1 H2 c. specialize (H1 c). specialize (H2 c). lia. Qed.

Lemma counters_le_same w w' :
  max_instance w = max_instance w' -> counters_le w w'.
Proof. intros H c. unfold class_max_instance. rewrite H. lia. Qed.

Lemma max_instance_set_attribute o a e w :
  max_instance (set_attribute o a e w) = max_instance w.
Proof. reflexivity. Qed.

Lemma meta_attributes_max o w w' r :
  meta_attributes o w = (w', r) -> max_instance w' = max_instance w.
Proof.
  unfold meta_attributes. intros H.
  destruct (config_int w (obj_name o) "Revision" 0); [ | congruence ].
  destruct (config_int _ (obj_name o) "Optional Attributes" 0);
    injection H as <- _; reflexivity.
Qed.

Lemma subclass_init_meta_max o w w' r :
  subclass_init_meta o w = (w', r) -> max_instance w' = max_instance w.
Proof.
  unfold subclass_init_meta. intros H.
  destruct (obj_cls o); try (injection H as <- _; reflexivity).
  destruct (config_int w (obj_name o) "Revision" 3);
    injection H as <- _; reflexivity.
Qed.

Lemma subclass_init_meta_directory_other o w w' r k :
  subclass_init_meta o w = (w', r) ->
  k <> (class_id (obj_cls o), instance_id o) ->
  directory w' !! k = directory w !! k.
Proof.
  unfold subclass_init_meta. intros H Hk.
  destruct (obj_cls o) eqn:E; try (injection H as <- _; reflexivity).
  destruct (config_int w (obj_name o) "Revision" 3);
    injection H as <- _; [ | reflexivity ].
  unfold set_attribute. cbn [directory set_directory].
  rewrite E. rewrite lookup_insert_ne; auto.
Qed.

(** What [Object.__init__] does to the counter of its class, whatever
    becomes of the construction. *)
Lemma Object_init_counters meta c w name inst w' r :
  (forall w n w1 r1, meta w n = (w1, r1) -> counters_le w w1) ->
  Object_init meta c w name inst = (w', r) ->
  counters_le w w' /\
  default (class_max_instance w c + 1) inst <= class_max_instance w' c /\
  forall o, r = Ok o ->
            obj_cls o = c /\
            instance_id o = default (class_max_instance w c + 1) inst.
Proof.
  intros Hmeta. unfold Object_init.
  set (nm := match name with Some n => _ | None => _ end).
  set (i := default (class_max_instance w c + 1) inst).
  set (w1 := if class_max_instance w c <? i then _ else w).
  assert (H1 : counters_le w w1 /\ i <= class_max_instance w1 c).
  { subst w1. destruct (Z.ltb_spec (class_max_instance w c) i).
    - split.
      + intros c'. unfold class_max_instance. cbn [max_instance set_max_instance].
        destruct (decide (c = c')) as [<- | Hne].
        * rewrite lookup_insert_eq. simpl.
          unfold class_max_instance in H. lia.
        * rewrite lookup_insert_ne by auto. lia.
      + unfold class_max_instance. cbn [max_instance set_max_instance].
        rewrite lookup_insert_eq. simpl. lia.
    - split; [ apply counters_le_refl | lia ]. }
  destruct H1 as [H1 H1'].
  destruct (dir_lookup w1 (class_id c) i None).
  { intros H. injection H as <- <-. repeat split; auto; discriminate. }
  set (w2 := set_attribute _ 0 _ w1).
  assert (H2 : max_instance w2 = max_instance w1) by reflexivity.
  destruct (match dir_lookup w2 (class_id c) 0 None with
            | Some _ => (w2, Ok ())
            | None => meta w2 nm
            end) as [w3 r3] eqn:E3.
  assert (H3 : counters_le w2 w3).
  { destruct (dir_lookup w2 (class_id c) 0 None).
    - injection E3 as <- _. apply counters_le_refl.
    - eapply Hmeta; eauto. }
  assert (H13 : counters_le w1 w3).
  { eapply counters_le_trans; [ apply counters_le_same; symmetry; exact H2 | exact H3 ]. }
  assert (Hi : i <= class_max_instance w3 c) by (specialize (H13 c); lia).
  destruct r3 as [ [] | e ].
  - destruct (i =? 0).
    + destruct (meta_attributes _ w3) as [w4 [ [] | e ]] eqn:E4;
        apply meta_attributes_max in E4;
        intros H; injection H as <- <-;
        (split; [ eapply counters_le_trans;
                  [ eapply counters_le_trans; [ exact H1 | exact H13 ]
                  | apply counters_le_same; symmetry; exact E4 ] | ]);
        (split; [ unfold class_max_instance in *; rewrite E4; exact Hi | ]);
        intros o Ho; [ injection Ho as <-; auto | discriminate ].
    + intros H; injection H as <- <-.
      split; [ eapply counters_le_trans; eauto | ].
      split; [ exact Hi | ]. intros o Ho. injection Ho as <-. auto.
  - intros H; injection H as <- <-.
    split; [ eapply counters_le_trans; eauto | ].
    split; [ exact Hi | ]. intros o Ho. discriminate.
Qed.

Lemma construct_meta_counters c w n w1 r1 :
  construct_meta c w n = (w1, r1) -> counters_le w w1.
Proof.
  unfold construct_meta. intros H.
  destruct (Object_init _ c w _ (Some 0)) as [w2 [o | e]] eqn:E.
  - apply Object_init_counters in E as (Hle & _ & _).
    + apply subclass_init_meta_max in H.
      eapply counters_le_trans; [ exact Hle | ].
      apply counters_le_same. symmetry. exact H.
    + intros ? ? ? ? [= <- _]. apply counters_le_refl.
  - injection H as <- _.
    apply Object_init_counters in E as (Hle & _ & _); [ exact Hle | ].
    intros ? ? ? ? [= <- _]. apply counters_le_refl.
Qed.

(** A construction never lowers a counter, leaves the counter of its class
    at or above the id it used, and allocates the id after the counter when
    none is given. *)
Lemma construct_counters c w name inst w' r :
  construct c w name inst = (w', r) ->
  counters_le w w' /\
  default (class_max_instance w c + 1) inst <= class_max_instance w' c /\
  forall o, r = Ok o ->
            obj_cls o = c /\
            instance_id o = default (class_max_instance w c + 1) inst.
Proof.
  unfold construct. intros H.
  destruct (Object_init _ c w name inst) as [w2 [o | e]] eqn:E;
    apply Object_init_counters in E as (Hle & Hmax & Hid);
    try (intros ? ? ? ?; apply construct_meta_counters).
  - assert (Hsub : forall w3 r3, subclass_init_meta o w2 = (w3, r3) ->
                                 max_instance w3 = max_instance w2)
      by (intros; eapply subclass_init_meta_max; eauto).
    destruct (instance_id o =? 0).
    + destruct (subclass_init_meta o w2) as [w3 [ [] | e ]] eqn:E3;
        specialize (Hsub _ _ eq_refl); injection H as <- <-;
        (split; [ eapply counters_le_trans;
                  [ exact Hle | apply counters_le_same; symmetry; exact Hsub ] | ]);
        (split; [ unfold class_max_instance in *; rewrite Hsub; exact Hmax | ]);
        intros o' Ho'; [ injection Ho' as <-; auto | discriminate ].
    + injection H as <- <-.
      split; [ exact Hle | ]. split; [ exact Hmax | ].
      intros o' Ho'. injection Ho' as <-. apply Hid. reflexivity.
  - injection H as <- <-.
    split; [ exact Hle | ]. split; [ exact Hmax | ]. discriminate.
Qed.

Lemma perform_counters w op w' e :
  perform w op = (w', e) -> counters_le w w'.
Proof.
  destruct op as [c name inst | ]; simpl.
  - destruct (construct c w name inst) as [w1 [o | x]] eqn:E;
      intros [= <- _]; apply construct_counters in E; tauto.
  - intros [= <- _]. apply counters_le_same. reflexivity.
Qed.

Lemma run_counters ops : forall w, counters_le w (run w ops).1.
Proof.
  induction ops as [ | op ops IH ]; intros w; simpl.
  - apply counters_le_refl.
  - destruct (perform w op) as [w1 e] eqn:E.
    specialize (IH w1). destruct (run w1 ops) as [w2 es]. simpl in *.
    eapply counters_le_trans; [ eapply perform_counters; eauto | exact IH ].
Qed.

(** Whatever was created before, an automatic id lies above the counter. *)
Lemma run_automatic_above ops : forall w p o,
  (run w ops).2 !! p = Some (Created o true) ->
  class_max_instance w (obj_cls o) < instance_id o.
Proof.
  induction ops as [ | op ops IH ]; intros w p o; simpl.
  - rewrite lookup_nil. discriminate.
  - destruct (perform w op) as [w1 e] eqn:E.
    pose proof (perform_counters _ _ _ _ E) as Hle.
    specialize (IH w1). destruct (run w1 ops) as [w2 es]. simpl in *.
    destruct p as [ | p ]; simpl.
    + intros [= ->]. destruct op as [c name inst | ]; simpl in E.
      * destruct (construct c w name inst) as [w3 [o' | x]] eqn:E3;
          [ | discriminate ].
        injection E as -> -> Hb.
        apply bool_decide_eq_true in Hb. subst inst.
        apply construct_counters in E3 as (_ & _ & Hid).
        destruct (Hid o eq_refl) as [-> ->]. simpl. lia.
      * discriminate.
    + intros H. apply IH in H. specialize (Hle (obj_cls o)). lia.
Qed.

Lemma perform_created_below w op w' o b :
  perform w op = (w', Created o b) ->
  instance_id o <= class_max_instance w' (obj_cls o).
Proof.
  destruct op as [c name inst | ]; simpl; [ | discriminate ].
  destruct (construct c w name inst) as [w3 [o' | x]] eqn:E3; [ | discriminate ].
  intros [= <- <- _].
  apply construct_counters in E3 as (_ & Hmax & Hid).
  destruct (Hid o' eq_refl) as [-> ->]. exact Hmax.
Qed.

(** C6.  In any history of constructions and resets, an Object that got its
    instance id automatically has an id above that of every Object of its
    class created before it, with or without an explicit id, and whether or
    not [lookup_reset] ran in between; [lookup_reset] empties the directory
    and the symbol table and leaves the counters of the classes alone. *)
Theorem automatic_ids_increase (w : world) (ops : list operation)
        (q p : nat) (o1 o2 : Object) (b : bool) :
  (q < p)%nat ->
  (run w ops).2 !! q = Some (Created o1 b) ->
  (run w ops).2 !! p = Some (Created o2 true) ->
  obj_cls o1 = obj_cls o2 ->
  instance_id o1 < instance_id o2 /\
  directory (lookup_reset w) = ∅ /\ symbol (lookup_reset w) = ∅ /\
  max_instance (lookup_reset w) = max_instance w.
Proof.
  intros Hqp Hq Hp Hc. split; [ | repeat split ].
  revert w q p Hqp Hq Hp.
  induction ops as [ | op ops IH ]; intros w q p Hqp; simpl.
  - rewrite lookup_nil. discriminate.
  - destruct (perform w op) as [w1 e] eqn:E.
    pose proof (run_automatic_above ops w1) as Habove.
    specialize (IH w1). destruct (run w1 ops) as [w2 es]. simpl in *.
    destruct p as [ | p ]; [ lia | ].
    destruct q as [ | q ]; simpl.
    + intros [= ->] Hp.
      apply perform_created_below in E. apply Habove in Hp.
      rewrite <- Hc in Hp. lia.
    + intros Hq Hp. apply (IH q p); auto. lia.
Qed.

Lemma automatic_ids_increase_witness :
  instance_id (mkObject Identity 1 "Identity")
  < instance_id (mkObject Identity 2 "Identity").
Proof.
  apply (automatic_ids_increase no_world
           [Construct Identity None None; Reset; Construct Identity None None]
           0 2 (mkObject Identity 1 "Identity") (mkObject Identity 2 "Identity")
           true);
    [ lia | vm_compute; reflexivity | vm_compute; reflexivity | reflexivity ].
Defined.

(** C10.  A construction at a class and instance that the directory
    already holds fails on the assertion, and the directory is as it was:
    the entry of an Object is never replaced by another. *)
Theorem duplicate_instance_refused (c : pyclass) (w : world)
        (name : option string) (inst : option Z) :
  is_Some (dir_lookup w (class_id c)
                      (default (class_max_instance w c + 1) inst) None) ->
  (construct c w name inst).2 = Raise AssertionError /\
  directory (construct c w name inst).1 = directory w.
Proof.
  intros [e He]. unfold construct, Object_init.
  set (i := default (class_max_instance w c + 1) inst) in *.
  set (w1 := if class_max_instance w c <? i then _ else w).
  assert (Hd : directory w1 = directory w)
    by (subst w1; destruct (_ <? _); reflexivity).
  rewrite (dir_lookup_directory w1 w) by exact Hd.
  rewrite He. simpl. auto.
Qed.

Lemma duplicate_instance_refused_witness :
  let w := (construct Identity no_world None (Some 1)).1 in
  (construct Identity w (Some "Again"%string) (Some 1)).2 = Raise AssertionError
  /\ directory (construct Identity w (Some "Again"%string) (Some 1)).1
     = directory w.
Proof.
  apply (duplicate_instance_refused Identity
           (construct Identity no_world None (Some 1)).1
           (Some "Again"%string) (Some 1)).
  vm_compute. eauto.
Defined.

(** ** [resolve] *)

Lemma spec_fill_sticky key v res :
  (spec_fill key v (res, true)).2 = true.
Proof.
  unfold spec_fill. destruct v; [ | reflexivity ].
  simpl. destruct (is_None _); reflexivity.
Qed.

Lemma spec_fill_all_sticky t res :
  (spec_fill_all t (res, true)).2 = true.
Proof.
  unfold spec_fill_all.
  destruct (spec_fill "class" _ _) as [r1 b1] eqn:E1.
  pose proof (spec_fill_sticky "class" (t !! "class"%string) res) as H1.
  rewrite E1 in H1. simpl in H1. subst b1.
  destruct (spec_fill "instance" _ _) as [r2 b2] eqn:E2.
  pose proof (spec_fill_sticky "instance" (t !! "instance"%string) r1) as H2.
  rewrite E2 in H2. simpl in H2. subst b2.
  apply spec_fill_sticky.
Qed.

(** One key: the code pulls it or stops, the walk fills it or records the
    overwrite. *)
Lemma pull_spec_fill key res (t : term) :
  (pull key (res, t) = Ok ((spec_fill key (t !! key) (res, false)).1,
                           delete key t)
   /\ (spec_fill key (t !! key) (res, false)).2 = false)
  \/ (pull key (res, t) = Raise AssertionError
      /\ (spec_fill key (t !! key) (res, false)).2 = true).
Proof.
  unfold pull, spec_fill. destruct (t !! key) as [v | ] eqn:E.
  - simpl. destruct (is_None (get_key key res)); simpl; auto.
  - left. split; [ | reflexivity ]. simpl.
    rewrite delete_id by exact E. reflexivity.
Qed.

Lemma pull_keys_spec_fill_all res (t : term) :
  (pull_keys (res, t)
   = Ok ((spec_fill_all t (res, false)).1,
         delete "attribute"%string
           (delete "instance"%string (delete "class"%string t)))
   /\ (spec_fill_all t (res, false)).2 = false)
  \/ (pull_keys (res, t) = Raise AssertionError
      /\ (spec_fill_all t (res, false)).2 = true).
Proof.
  unfold pull_keys, spec_fill_all.
  destruct (pull_spec_fill "class" res t) as [[-> H1] | [-> H1]];
    destruct (spec_fill "class" _ _) as [r1 b1]; simpl in H1; subst b1;
    cbn [mbind result_bind fst snd].
  2: { right. split; [ reflexivity | ].
       destruct (spec_fill "instance" _ _) as [r2 b2] eqn:E2.
       pose proof (spec_fill_sticky "instance" (t !! "instance"%string) r1) as H2.
       rewrite E2 in H2. simpl in H2. subst b2. apply spec_fill_sticky. }
  replace (t !! "instance"%string)
    with (delete "class"%string t !! "instance"%string)
    by (apply lookup_delete_ne; discriminate).
  destruct (pull_spec_fill "instance" r1 (delete "class"%string t))
    as [[-> H2] | [-> H2]];
    destruct (spec_fill "instance" _ _) as [r2 b2]; simpl in H2; subst b2;
    cbn [mbind result_bind fst snd].
  2: { right. split; [ reflexivity | ]. apply spec_fill_sticky. }
  replace (t !! "attribute"%string)
    with (delete "instance"%string (delete "class"%string t)
            !! "attribute"%string)
    by (rewrite !lookup_delete_ne by discriminate; reflexivity).
  destruct (pull_spec_fill "attribute" r2
              (delete "instance"%string (delete "class"%string t)))
    as [[-> H3] | [-> H3]]; auto.
Qed.

Lemma spec_step_sticky symbol st t :
  (s_overwrites st = true -> s_overwrites (spec_step symbol st t) = true) /\
  (s_foreign st = true -> s_foreign (spec_step symbol st t) = true).
Proof.
  destruct st as [res tag over inv]. unfold spec_step. simpl.
  destruct (spec_fill_all t (res, over)) as [r1 o1] eqn:E1.
  assert (H1 : over = true -> o1 = true).
  { intros ->. pose proof (spec_fill_all_sticky t res) as H.
    rewrite E1 in H. exact H. }
  destruct (is_empty _); [ simpl; auto | ].
  destruct (_ !! "symbolic"%string); [ | simpl; auto ].
  destruct (symbol !! _) as [a | ]; [ | simpl; auto ].
  destruct (spec_fill_all (address_dict a) (r1, o1)) as [r2 o2] eqn:E2.
  simpl. split; [ | auto ].
  intros Ho. rewrite (H1 Ho) in E2.
  pose proof (spec_fill_all_sticky (address_dict a) r1) as H.
  rewrite E2 in H. exact H.
Qed.

Lemma spec_walk_sticky symbol attribute segment : forall st,
  s_overwrites st = true \/ s_foreign st = true ->
  s_overwrites (spec_walk symbol attribute segment st) = true
  \/ s_foreign (spec_walk symbol attribute segment st) = true.
Proof.
  induction segment as [ | t rest IH ]; intros st H; simpl; [ exact H | ].
  destruct (complete attribute (s_result st)); [ exact H | ].
  apply IH. destruct (spec_step_sticky symbol st t) as [Ho Hf]. tauto.
Qed.

(** One term: the code settles it as the walk does, or stops where the walk
    records an overwrite or a foreign segment. *)
Lemma settle_spec_step symbol res tag t :
  let st := spec_step symbol (SpecState res tag false false) t in
  (settle symbol (res, tag) t = Ok (s_result st, s_tag st)
   /\ s_overwrites st = false /\ s_foreign st = false)
  \/ (settle symbol (res, tag) t = Raise AssertionError
      /\ (s_overwrites st = true \/ s_foreign st = true)).
Proof.
  unfold settle, spec_step. cbn [s_result s_tag s_overwrites s_foreign].
  destruct (pull_keys_spec_fill_all res t) as [[-> H1] | [-> H1]];
    destruct (spec_fill_all t (res, false)) as [r1 o1]; simpl in H1; subst o1;
    cbn [mbind result_bind fst snd].
  2: { right. split; [ reflexivity | ].
       destruct (is_empty _); [ simpl; auto | ].
       destruct (_ !! "symbolic"%string); [ | simpl; auto ].
       destruct (symbol !! _) as [a | ]; [ | simpl; auto ].
       pose proof (spec_fill_all_sticky (address_dict a) r1) as H.
       destruct (spec_fill_all (address_dict a) (r1, true)).
       simpl in *. auto. }
  destruct (is_empty _); [ left; simpl; auto | ].
  destruct (_ !! "symbolic"%string) as [s | ]; [ | right; simpl; auto ].
  destruct (symbol !! _) as [a | ]; [ | left; simpl; auto ].
  destruct (pull_keys_spec_fill_all r1 (address_dict a)) as [[-> H2] | [-> H2]];
    destruct (spec_fill_all (address_dict a) (r1, false)) as [r2 o2];
    simpl in H2; subst o2; cbn [mbind result_bind fst snd];
    [ left | right ]; simpl; auto.
Qed.

Lemma walk_spec_walk symbol attribute segment : forall res tag,
  let st := spec_walk symbol attribute segment (SpecState res tag false false) in
  (walk symbol attribute segment (res, tag) = Ok (s_result st, s_tag st)
   /\ s_overwrites st = false /\ s_foreign st = false)
  \/ (walk symbol attribute segment (res, tag) = Raise AssertionError
      /\ (s_overwrites st = true \/ s_foreign st = true)).
Proof.
  induction segment as [ | t rest IH ]; intros res tag;
    cbn [walk spec_walk fst s_result s_tag s_overwrites s_foreign].
  - left. auto.
  - destruct (complete attribute res); [ left; auto | ].
    destruct (settle_spec_step symbol res tag t) as [(-> & Ho & Hf) | (-> & H)];
      cbn [mbind result_bind].
    + destruct (spec_step symbol _ t) as [r1 t1 o1 f1]. simpl in *. subst.
      apply IH.
    + right. split; [ reflexivity | ]. apply spec_walk_sticky. exact H.
Qed.

(** C8, as amended.  [resolve] fails, with an [AssertionError], exactly when
    the walk over the segments that are reached before the required fields
    are filled ends with a required field unset, or with a tag that the
    symbol table does not resolve, or meets a segment that would overwrite
    a set field, or meets a segment that, once its class, instance and
    attribute are taken, is left with keys none of which is symbolic;
    otherwise it returns the filled triple.  A segment with a symbolic key
    may have any further keys: they are dropped. *)
Theorem resolve_failure_conditions (symbol : gmap string address)
        (segment : list term) (attribute : bool) :
  let st := spec_walk symbol attribute segment spec_start in
  resolve symbol segment attribute
  = if spec_fails attribute st || s_foreign st
    then Raise AssertionError
    else Ok (spec_triple attribute st).
Proof.
  unfold resolve, spec_start, spec_fails, spec_triple.
  destruct (walk_spec_walk symbol attribute segment unresolved "")
    as [(-> & Ho & Hf) | (-> & H)]; cbn [mbind result_bind].
  - destruct (spec_walk _ _ _ _) as [res tag o f]. simpl in *. subst.
    rewrite !orb_false_r.
    destruct (String.eqb tag ""); simpl;
      [ | rewrite orb_true_r; reflexivity ].
    rewrite orb_false_r.
    destruct (complete attribute res); reflexivity.
  - destruct H as [-> | ->]; rewrite ?orb_true_r; reflexivity.
Qed.

(** C8, as stated, fails on a path with a connection segment between the
    class and the instance: none of the three conditions holds at the end of
    the walk, and [resolve] raises on the connection segment. *)
Lemma resolve_fails_on_foreign_segment :
  spec_fails false (spec_walk ∅ false path_with_connection spec_start) = false
  /\ resolve ∅ path_with_connection false = Raise AssertionError.
Proof. vm_compute. split; reflexivity. Qed.

(** What is left of a segment decides: a length beside the symbolic key is
    dropped, a connection beside the class is refused. *)
Example resolve_symbolic_with_length :
  resolve SCADA_symbol
          [ {["symbolic"%string := VStr "SCADA"; "length"%string := VInt 5]} ]
          true
  = Ok (VInt 0x1A2, VInt 1, VInt 1).
Proof. vm_compute. reflexivity. Qed.

Example resolve_class_with_connection :
  resolve ∅ [ {["class"%string := VInt 1; "connection"%string := VInt 7]};
              {["instance"%string := VInt 1]} ] false
  = Raise AssertionError.
Proof. vm_compute. reflexivity. Qed.

(** The tag SCADA with an element index resolves to the address of the tag;
    the element is left to [resolve_element]. *)
Example resolve_SCADA :
  resolve SCADA_symbol
          [ {["symbolic"%string := VStr "SCADA"]}; {["element"%string := VInt 12]} ]
          true
  = Ok (VInt 0x1A2, VInt 1, VInt 1)
  /\ resolve_element
       [ {["symbolic"%string := VStr "SCADA"]}; {["element"%string := VInt 12]} ]
     = VInt 12.
Proof. vm_compute. split; reflexivity. Qed.

(** ** The Multiple Service Packet reply *)

Lemma length_le_bytes n v : length (le_bytes n v) = n.
Proof. revert v. induction n; intros v; simpl; auto. Qed.

Lemma offsets_from_shift k lengths : forall first,
  (fun o => o + k) <$> offsets_from first lengths
  = offsets_from (first + k) lengths.
Proof.
  induction lengths as [ | l rest IH ]; intros first; simpl; [ reflexivity | ].
  rewrite IH. do 2 f_equal. lia.
Qed.

Lemma length_offsets_from lengths : forall first,
  length (offsets_from first lengths) = length lengths.
Proof. induction lengths; intros; simpl; auto. Qed.

(** The loop over the reversed replies builds the table that starts at 0. *)
Lemma offsets_payload_spec msgs :
  offsets_payload msgs = (offsets_from 0 (lengths_of msgs), concat msgs).
Proof.
  induction msgs as [ | m rest IH ]; simpl; [ reflexivity | ].
  rewrite IH. f_equal. f_equal.
  change (map ?f ?l) with (f <$> l).
  rewrite offsets_from_shift. reflexivity.
Qed.

(** The recurrence of the table. *)
Lemma offsets_from_next lengths : forall first i o l,
  offsets_from first lengths !! i = Some o ->
  lengths !! i = Some l ->
  (S i < length lengths)%nat ->
  offsets_from first lengths !! S i = Some (o + l).
Proof.
  induction lengths as [ | x rest IH ]; intros first i o l; simpl;
    [ rewrite lookup_nil; discriminate | ].
  destruct i as [ | i ]; simpl.
  - intros [= <-] [= <-] Hlen. destruct rest; simpl in *; [ lia | reflexivity ].
  - intros Ho Hl Hlen. apply (IH _ i); auto. lia.
Qed.

Lemma join_pack_unsigned n vs bs :
  join_produce (pack_unsigned n) (VInt <$> vs) = Ok bs ->
  Forall (fun v => 0 <= v < 256 ^ Z.of_nat n) vs
  /\ bs = concat (le_bytes n <$> vs).
Proof.
  revert bs. induction vs as [ | v vs IH ]; intros bs; simpl.
  - intros [= <-]. auto.
  - unfold pack_unsigned at 1.
    destruct ((0 <=? v) && (v <? 256 ^ Z.of_nat n)) eqn:E;
      [ | discriminate ].
    cbn [mbind result_bind].
    destruct (join_produce _ _) as [bs' | ]; [ | discriminate ].
    intros [= <-]. destruct (IH bs' eq_refl) as [HF ->].
    split; [ constructor; [ lia | exact HF ] | reflexivity ].
Qed.

Lemma pack_unsigned_in_range n v :
  0 <= v < 256 ^ Z.of_nat n -> pack_unsigned n (VInt v) = Ok (le_bytes n v).
Proof.
  intros H. unfold pack_unsigned.
  replace ((0 <=? v) && (v <? 256 ^ Z.of_nat n)) with true by lia.
  reflexivity.
Qed.

Lemma pack_unsigned_ok n v bs :
  pack_unsigned n (VInt v) = Ok bs ->
  0 <= v < 256 ^ Z.of_nat n /\ bs = le_bytes n v.
Proof.
  unfold pack_unsigned.
  destruct ((0 <=? v) && (v <? 256 ^ Z.of_nat n)) eqn:E; [ | discriminate ].
  intros [= <-]. split; [ lia | reflexivity ].
Qed.

Lemma pack_unsigned_join n vs :
  Forall (fun v => 0 <= v < 256 ^ Z.of_nat n) vs ->
  join_produce (pack_unsigned n) (VInt <$> vs)
  = Ok (concat (le_bytes n <$> vs)).
Proof.
  induction 1 as [ | v vs Hv _ IH ]; [ reflexivity | ].
  rewrite !fmap_cons. cbn [join_produce concat].
  rewrite pack_unsigned_in_range by exact Hv.
  cbn [mbind result_bind]. rewrite IH. reflexivity.
Qed.

Lemma length_concat_le_bytes n (vs : list Z) :
  length (concat (le_bytes n <$> vs)) = (n * length vs)%nat.
Proof.
  induction vs as [ | v vs IH ]; [ simpl; lia | ].
  rewrite fmap_cons. cbn [concat].
  rewrite length_app, length_le_bytes, IH. simpl. lia.
Qed.

Lemma length_concat_sum (msgs : list (list Z)) :
  Z.of_nat (length (concat msgs)) = sum_Z (lengths_of msgs).
Proof.
  induction msgs as [ | m rest IH ]; [ reflexivity | ].
  unfold lengths_of in *. rewrite fmap_cons. cbn [concat].
  rewrite length_app. unfold sum_Z in *. cbn [foldr]. lia.
Qed.

Lemma reply_inputs_all rs ins :
  input <$> rs = Some <$> ins -> reply_inputs rs = Ok ins.
Proof.
  revert ins. induction rs as [ | r rs IH ]; intros [ | i ins ]; simpl;
    try discriminate; [ reflexivity | ].
  intros [= Hi Hrs]. rewrite (IH _ Hrs). cbn [mbind result_bind].
  rewrite Hi. reflexivity.
Qed.

(** What [produce_offsets_payload] puts on the wire, when it does. *)
Lemma produce_offsets_payload_layout msgs out :
  produce_offsets_payload msgs = Ok out ->
  let n := Z.of_nat (length msgs) in
  let offsets := offsets_from (2 + 2 * n) (lengths_of msgs) in
  out = le_bytes 2 n ++ concat (le_bytes 2 <$> offsets) ++ concat msgs
  /\ Forall (fun o => 0 <= o < 65536) offsets.
Proof.
  assert (Hl : length (lengths_of msgs) = length msgs)
    by apply length_fmap.
  unfold produce_offsets_payload. rewrite offsets_payload_spec.
  rewrite length_offsets_from, Hl.
  destruct (UINT_produce _) as [nb | ] eqn:En; [ | discriminate ].
  apply pack_unsigned_ok in En as [_ ->]. cbn [mbind result_bind].
  match goal with |- context [ join_produce _ ?l ] =>
    replace l with (VInt <$> offsets_from (2 + 2 * Z.of_nat (length msgs))
                                          (lengths_of msgs)) end.
  2: { rewrite <- (offsets_from_shift (2 + 2 * Z.of_nat (length msgs)) _ 0).
       rewrite <- list_fmap_compose. apply list_fmap_ext.
       intros _ o _. simpl. f_equal. lia. }
  destruct (join_produce _ _) as [os | ] eqn:E; [ | discriminate ].
  intros [= <-]. apply join_pack_unsigned in E as [HF ->].
  split; [ reflexivity | exact HF ].
Qed.

Lemma join_pack_unsigned_cases n vs :
  join_produce (pack_unsigned n) (VInt <$> vs)
  = if forallb (fun v => (0 <=? v) && (v <? 256 ^ Z.of_nat n)) vs
    then Ok (concat (le_bytes n <$> vs))
    else Raise StructError.
Proof.
  induction vs as [ | v vs IH ]; [ reflexivity | ].
  rewrite fmap_cons. cbn [join_produce forallb concat].
  assert (Hp : pack_unsigned n (VInt v)
               = if (0 <=? v) && (v <? 256 ^ Z.of_nat n)
                 then Ok (le_bytes n v) else Raise StructError)
    by reflexivity.
  rewrite Hp, IH.
  destruct ((0 <=? v) && (v <? 256 ^ Z.of_nat n)); [ | reflexivity ].
  cbn [mbind result_bind andb].
  destruct (forallb _ vs); reflexivity.
Qed.

Lemma offsets_from_nonneg lengths : forall first,
  0 <= first -> Forall (fun l => 0 <= l) lengths ->
  Forall (fun o => 0 <= o) (offsets_from first lengths).
Proof.
  induction lengths as [ | l rest IH ]; intros first Hf Hl; simpl;
    [ constructor | ].
  inversion Hl as [ | ? ? H1 H2 ]; subst.
  constructor; [ exact Hf | apply IH; [ lia | exact H2 ] ].
Qed.

Lemma forallb_nonneg (f : Z -> bool) (vs : list Z) :
  Forall (fun v => 0 <= v) vs ->
  forallb (fun v => (0 <=? v) && f v) vs = forallb f vs.
Proof.
  induction 1 as [ | v vs Hv _ IH ]; [ reflexivity | ].
  cbn [forallb]. rewrite IH.
  replace (0 <=? v) with true by lia. reflexivity.
Qed.

(** What [produce_offsets_payload] puts on the wire: the count, the offset
    table and the messages when the count and the offsets are 16-bit values,
    a [struct.error] when one of them is not. *)
Lemma produce_offsets_payload_cases msgs :
  let n := Z.of_nat (length msgs) in
  let offsets := offsets_from (2 + 2 * n) (lengths_of msgs) in
  produce_offsets_payload msgs
  = if forallb (fun v => v <? 65536) (n :: offsets)
    then Ok (le_bytes 2 n ++ concat (le_bytes 2 <$> offsets) ++ concat msgs)
    else Raise StructError.
Proof.
  intros n offsets.
  assert (Hl : length (lengths_of msgs) = length msgs)
    by apply length_fmap.
  unfold produce_offsets_payload. rewrite offsets_payload_spec.
  rewrite length_offsets_from, Hl. fold n.
  match goal with |- context [ join_produce _ ?l ] =>
    replace l with (VInt <$> offsets) end.
  2: { unfold offsets.
       rewrite <- (offsets_from_shift (2 + 2 * n) _ 0).
       rewrite <- list_fmap_compose. apply list_fmap_ext.
       intros _ o _. simpl. f_equal. lia. }
  rewrite join_pack_unsigned_cases.
  change (256 ^ Z.of_nat 2) with 65536.
  rewrite (forallb_nonneg (fun v => v <? 65536) offsets).
  2: { apply offsets_from_nonneg; [ lia | ].
       unfold lengths_of. apply Forall_fmap, Forall_true. intros m. simpl. lia. }
  cbn [forallb]. unfold UINT_produce, pack_unsigned.
  change (256 ^ Z.of_nat 2) with 65536.
  replace (0 <=? n) with true by lia. cbn [andb].
  destruct (n <? 65536); [ | reflexivity ].
  cbn [mbind result_bind andb].
  destruct (forallb _ offsets); reflexivity.
Qed.

Lemma lookup_lengths_of (msgs : list (list Z)) i m :
  msgs !! i = Some m -> lengths_of msgs !! i = Some (Z.of_nat (length m)).
Proof. intros H. unfold lengths_of. rewrite list_lookup_fmap, H. reflexivity. Qed.

(** C1, as amended.  A Multiple Service Packet reply with status 0, built
    from N sub-requests whose replies have the lengths L_0 .. L_{N-1}, is
    the head (service, reserved, status block), the count N, the offset
    table and the replies; the table starts at 2 + 2*N, each further offset
    is the previous one plus the length of the previous reply, and what
    follows the head has the length 2 + 2*N + the sum of the L_i. *)
Theorem multiple_reply_layout
        (EPATH_produce : list term -> result (list Z))
        (d : data) (rs : list data) (ins : list (list Z)) (out : list Z) :
  service d = Some MULTIPLE_RPY ->
  status d = Some 0 ->
  multiple d = Some rs ->
  input <$> rs = Some <$> ins ->
  (Message_Router_produce EPATH_produce d).2 = Ok out ->
  let n := Z.of_nat (length rs) in
  exists head offsets,
    produce_reply_head d = Ok head /\
    out = head ++ le_bytes 2 n ++ concat (le_bytes 2 <$> offsets) ++ concat ins /\
    length offsets = length rs /\
    Forall (fun o => 0 <= o < 65536) offsets /\
    (forall o, offsets !! 0%nat = Some o -> o = 2 + 2 * n) /\
    (forall i o l,
        offsets !! i = Some o -> ins !! i = Some l ->
        (S i < length rs)%nat ->
        offsets !! S i = Some (o + Z.of_nat (length l))) /\
    Z.of_nat (length out) - Z.of_nat (length head)
    = 2 + 2 * n + sum_Z (lengths_of ins).
Proof.
  intros Hsv Hst Hm Hin.
  assert (Hlen : length ins = length rs).
  { apply (f_equal length) in Hin. rewrite !length_fmap in Hin. auto. }
  destruct d as [sv st se pa ga gs ss sc mu fo fc inp]. simpl in Hsv, Hst, Hm.
  subst sv st mu. cbn [Message_Router_produce].
  rewrite bool_decide_eq_false_2
    by (intros [H | H]; discriminate H).
  rewrite bool_decide_eq_true_2 by reflexivity. cbn [snd].
  destruct (produce_reply_head _) as [head | ] eqn:Eh; [ | discriminate ].
  cbn [mbind result_bind].
  rewrite bool_decide_eq_true_2 by reflexivity.
  rewrite (reply_inputs_all _ _ Hin). cbn [mbind result_bind].
  destruct (produce_offsets_payload ins) as [t | ] eqn:Et; [ | discriminate ].
  intros [= <-].
  apply produce_offsets_payload_layout in Et as [-> HF].
  rewrite Hlen in *.
  set (n := Z.of_nat (length rs)) in *.
  exists head, (offsets_from (2 + 2 * n) (lengths_of ins)).
  split; [ reflexivity | ]. split; [ reflexivity | ].
  split; [ rewrite length_offsets_from; unfold lengths_of;
           rewrite length_fmap; exact Hlen | ].
  split; [ exact HF | ]. split; [ | split ].
  - destruct ins as [ | i0 ins ]; simpl; [ discriminate | ].
    intros o [= <-]. reflexivity.
  - intros i o l Ho Hl Hi.
    apply (offsets_from_next _ _ i); auto using lookup_lengths_of.
    unfold lengths_of. rewrite length_fmap. lia.
  - rewrite !length_app, length_le_bytes, length_concat_le_bytes,
      length_offsets_from.
    pose proof (length_concat_sum ins) as Hs.
    unfold lengths_of at 1. rewrite length_fmap. lia.
Qed.

Lemma multiple_reply_layout_witness :
  exists head offsets,
    produce_reply_head one_reply = Ok head /\
    [0x8A; 0; 0; 0; 1; 0; 4; 0; 0x8E; 0; 0; 0; 1; 0]
    = head ++ le_bytes 2 1 ++ concat (le_bytes 2 <$> offsets)
           ++ concat [[0x8E; 0; 0; 0; 1; 0]] /\
    offsets = [4].
Proof.
  destruct (multiple_reply_layout EPATH_unused one_reply
              [answered] [[0x8E; 0; 0; 0; 1; 0]]
              [0x8A; 0; 0; 0; 1; 0; 4; 0; 0x8E; 0; 0; 0; 1; 0])
    as (head & offsets & Hh & Hout & Hlen & _ & H0 & _);
    try reflexivity.
  exists head, offsets. split; [ exact Hh | ]. split; [ exact Hout | ].
  destruct offsets as [ | o [ | ? ? ] ]; try discriminate Hlen.
  rewrite (H0 o eq_refl). reflexivity.
Defined.

(** C1, as stated, gives the body 4 + 2*N + the sum of the L_i bytes; the
    reply with one sub-reply of 6 bytes has 14 bytes, 11 of them after the
    service, the reserved byte and the status, 10 after the size of the
    extended status. *)
Lemma multiple_reply_body_length :
  exists out,
    (Message_Router_produce EPATH_unused one_reply).2 = Ok out /\
    Z.of_nat (length (drop 3 out))
    <> 4 + 2 * 1 + sum_Z (lengths_of [[0x8E; 0; 0; 0; 1; 0]]) /\
    Z.of_nat (length (drop 4 out))
    <> 4 + 2 * 1 + sum_Z (lengths_of [[0x8E; 0; 0; 0; 1; 0]]).
Proof.
  exists [0x8A; 0; 0; 0; 1; 0; 4; 0; 0x8E; 0; 0; 0; 1; 0].
  split; [ reflexivity | ]. split; vm_compute; discriminate.
Qed.

(** ** [Object.request] *)

Example get_vendor_reply :
  let '(_, d, r) :=
    Object_request (Object_produce EPATH_unused) identity_1 device get_vendor in
  d = set_input (Some [0x8E; 0; 0; 0; 1; 0])
        (set_get_attribute_single (Some (Dict (Some [1; 0])))
           (set_status (Some 0) (set_service (Some GA_SNG_RPY) get_vendor)))
  /\ r = Ok true.
Proof. vm_compute. split; reflexivity. Qed.

(** [Object.produce] has no format for a low service code without a
    context. *)
Lemma Object_produce_unrecognized
      (EPATH_produce : list term -> result (list Z)) (d : data) (s : Z) :
  service d = Some s ->
  s <> GA_ALL_REQ -> s <> GA_SNG_REQ -> s <> SA_SNG_REQ ->
  Z.land s 0x80 = 0 ->
  service_code d = None ->
  Object_produce EPATH_produce d = (d, Raise AssertionError).
Proof.
  intros Hs H1 H2 H3 Hbit Hsc.
  assert (Hne : forall r, Z.land r 0x80 <> 0 -> Some s <> Some r)
    by (intros r Hr [= ->]; contradiction).
  unfold Object_produce, service_for. rewrite Hs, Hsc.
  apply Z.eqb_neq in H1, H2, H3. rewrite H1, H2, H3.
  destruct (get_attributes_all d), (get_attribute_single d),
    (set_attribute_single d);
    rewrite !bool_decide_eq_false_2
      by (apply Hne; vm_compute; discriminate);
    rewrite Hbit; reflexivity.
Qed.

(** The loop of Get Attributes All ends by itself: the number of attributes
    bounds its turns, and more turns change nothing. *)
Lemma get_attributes_all_loop_enough n w self :
  forall a_id (m : gmap Z entry),
    (forall k, a_id <= k -> is_Some (attributes_of w self !! k) ->
               is_Some (m !! k)) ->
    (size m <= n)%nat ->
    get_attributes_all_loop (S n) w self a_id
    = get_attributes_all_loop n w self a_id.
Proof.
  induction n as [ | n IH ]; intros a_id m Hm Hsize.
  - cbn [get_attributes_all_loop].
    destruct (attributes_of w self !! a_id) as [e | ] eqn:E; [ | reflexivity ].
    assert (Hin : is_Some (m !! a_id)) by (apply Hm; [ lia | eauto ]).
    assert (m = ∅) as -> by (apply map_size_empty_iff; lia).
    rewrite lookup_empty in Hin. destruct Hin as [? [=]].
  - cbn [get_attributes_all_loop].
    destruct (attributes_of w self !! a_id) as [e | ] eqn:E; [ | reflexivity ].
    assert (Hin : is_Some (m !! a_id)) by (apply Hm; [ lia | eauto ]).
    assert (Hrest : get_attributes_all_loop (S n) w self (a_id + 1)
                    = get_attributes_all_loop n w self (a_id + 1)).
    { apply (IH _ (delete a_id m)).
      - intros k Hk Hs. rewrite lookup_delete_ne by lia. apply Hm; [ lia | auto ].
      - pose proof (map_size_delete_Some a_id m Hin) as Hd. lia. }
    cbn [get_attributes_all_loop] in Hrest. rewrite Hrest. reflexivity.
Qed.

Lemma get_attributes_all_loop_fuel w self k :
  get_attributes_all_loop (size (attributes_of w self) + k) w self 1
  = get_attributes_all_loop (size (attributes_of w self)) w self 1.
Proof.
  induction k as [ | k IH ]; [ rewrite Nat.add_0_r; reflexivity | ].
  rewrite Nat.add_succ_r, <- IH.
  apply (get_attributes_all_loop_enough _ w self 1 (attributes_of w self));
    [ auto | lia ].
Qed.

(** C2, where the code departs from it.  A request whose service is none of
    Get Attributes All, Get Attribute Single and Set Attribute Single, is not
    a reply code, and has no generic service-code context gets the status
    0x08, but its service keeps its low code, [produce] refuses the data
    and [Object.request] raises: no [data.input] is written. *)
Theorem unrecognized_service_raises
        (EPATH_produce : list term -> result (list Z))
        (self : Object) (w : world) (d : data) (s : Z) :
  service d = Some s ->
  s <> GA_ALL_REQ -> s <> GA_SNG_REQ -> s <> SA_SNG_REQ ->
  Z.land s 0x80 = 0 ->
  service_code d = None ->
  Object_request (Object_produce EPATH_produce) self w d
  = (w, set_status_ext None (set_status (Some 0x08) d), Raise AssertionError).
Proof.
  intros Hs H1 H2 H3 Hbit Hsc.
  unfold Object_request.
  set (d' := set_status_ext None (set_status (Some 8) d)).
  assert (Hs' : service d' = Some s) by exact Hs.
  assert (Hsc' : service_code d' = None) by exact Hsc.
  unfold recognized. rewrite Hs'.
  replace ((s =? GA_SNG_REQ) || (s =? GA_ALL_REQ) || (s =? SA_SNG_REQ))
    with false by lia.
  rewrite (Object_produce_unrecognized _ d' s); auto.
Qed.

Lemma unrecognized_service_raises_witness :
  Object_request (Object_produce EPATH_unused) identity_1 device read_tag
  = (device, set_status_ext None (set_status (Some 0x08) read_tag),
     Raise AssertionError).
Proof.
  apply (unrecognized_service_raises EPATH_unused identity_1 device read_tag 0x4C);
    try reflexivity; discriminate.
Defined.

(** A recognized request that fails is answered, with the status 0x08. *)
Example missing_attribute_reply :
  let '(_, d, r) :=
    Object_request (Object_produce EPATH_unused) identity_1 device
      (mkData (Some GA_SNG_REQ) None None
              (Some (identity_path ++ [ {["attribute"%string := VInt 99]} ]))
              None (Some Mark) None None None None None None) in
  service d = Some GA_SNG_RPY /\ status d = Some 8
  /\ input d = Some [0x8E; 0; 8; 0] /\ r = Ok true.
Proof. vm_compute. repeat split; reflexivity. Qed.

(** The attribute id may come as a [str]: the key of the attribute is
    [str( a_id )] either way. *)
Example get_vendor_by_str_id :
  let '(_, d, r) :=
    Object_request (Object_produce EPATH_unused) identity_1 device
      (mkData (Some GA_SNG_REQ) None None
              (Some (identity_path ++ [ {["attribute"%string := VStr "1"]} ]))
              None (Some Mark) None None None None None None) in
  status d = Some 0 /\ input d = Some [0x8E; 0; 0; 0; 1; 0] /\ r = Ok true.
Proof. vm_compute. repeat split; reflexivity. Qed.

(** ** The Multiple Service Packet request *)

Section Dispatch.

Variables EPATH_produce EPATH_padded_produce : list term -> result (list Z).
Variable directory_get : gmap (Z * Z) (gmap Z entry) -> string -> found.

Let request' := request EPATH_produce EPATH_padded_produce directory_get.

(** The [request] of a Message Router is [Message_Router.request]. *)
Lemma request_Message_Router self w d :
  obj_cls self = Message_Router ->
  request' self w d
  = Message_Router_request EPATH_produce directory_get request' self w d.
Proof.
  intros Hc. unfold request'. destruct d. cbn [request]. rewrite Hc.
  reflexivity.
Qed.

(** The loop of [Message_Router.request] dispatches in index order. *)
Lemma dispatch_in_order call rs : forall w,
  in_order call w rs (dispatch call w rs).1.1 (dispatch call w rs).1.2
           (dispatch call w rs).2.
Proof.
  induction rs as [ | r rest IH ]; intros w; cbn [dispatch].
  - constructor.
  - destruct (call w r) as [[w1 r1] [b | e]] eqn:E.
    + specialize (IH w1).
      destruct (dispatch call w1 rest) as [[w2 rest2] res].
      eapply in_order_next; eauto.
    + eapply in_order_stop; eauto.
Qed.

Lemma in_order_length call w rs w' rs' res :
  in_order call w rs w' rs' res -> length rs' = length rs.
Proof. induction 1; simpl; auto. Qed.

Lemma reply_inputs_inv rs ins :
  reply_inputs rs = Ok ins -> input <$> rs = Some <$> ins.
Proof.
  revert ins. induction rs as [ | r rs IH ]; intros ins; cbn [reply_inputs].
  - intros [= <-]. reflexivity.
  - destruct (reply_inputs rs) as [ins' | ]; [ | discriminate ].
    cbn [mbind result_bind]. destruct (input r) as [i | ] eqn:Ei;
      [ | discriminate ].
    intros [= <-]. rewrite !fmap_cons, Ei, (IH ins' eq_refl). reflexivity.
Qed.

(** A [request] that returns has written [data.input]. *)
Lemma Object_request_input produce self w d w1 d1 b :
  Object_request produce self w d = (w1, d1, Ok b) -> is_Some (input d1).
Proof.
  unfold Object_request.
  destruct (match recognized _ with Some _ => _ | None => _ end) as [w2 d2].
  destruct (produce d2) as [d3 [bs | e]]; intros [= <- <- <-].
  cbn [input set_input]. eauto.
Qed.

Lemma Message_Router_request_input call self w d w1 d1 b :
  Message_Router_request EPATH_produce directory_get call self w d
  = (w1, d1, Ok b) ->
  is_Some (input d1).
Proof.
  unfold Message_Router_request.
  destruct (multiple d) as [requests | ];
    [ destruct (service_for _ _ _) as [d0 | ] | ];
    try apply Object_request_input.
  unfold Message_Router_multiple.
  destruct (match Message_Router_route _ _ _ _ _ with
            | Ok _ => _ | Raise _ => _ end) as [w2 d2].
  destruct (Message_Router_produce _ d2) as [d3 [bs | e]];
    intros [= <- <- <-].
  cbn [input set_input]. eauto.
Qed.

Lemma Connection_Manager_request_input self w d w1 d1 b :
  Connection_Manager_request EPATH_produce EPATH_padded_produce self w d
  = (w1, d1, Ok b) ->
  is_Some (input d1).
Proof.
  unfold Connection_Manager_request.
  destruct (service_for _ _ _) as [d0 | ]; [ | discriminate ].
  destruct (match Connection_Manager_forward_open _ _ with
            | Ok _ => _ | Raise _ => _ end) as [w2 d2].
  destruct (Connection_Manager_produce _ _ d2) as [d3 [bs | e]];
    intros [= <- <- <-].
  cbn [input set_input]. eauto.
Qed.

Lemma request_input self w d w1 d1 b :
  request' self w d = (w1, d1, Ok b) -> is_Some (input d1).
Proof.
  unfold request'. destruct d. cbn [request].
  destruct (obj_cls self).
  - apply Object_request_input.
  - apply Object_request_input.
  - discriminate.
  - apply Message_Router_request_input.
  - apply Connection_Manager_request_input.
Qed.

(** When no sub-request raised, each one carries its reply. *)
Lemma in_order_inputs target w rs w' rs' res :
  in_order (target_request request' target) w rs w' rs' res ->
  res = Ok tt ->
  exists ins, input <$> rs' = Some <$> ins.
Proof.
  induction 1 as [ w | w r rest w1 r1 b w2 rest2 res Hcall _ IH
                 | w r rest w1 r1 e Hcall ]; intros Hres.
  - exists []. reflexivity.
  - destruct (IH Hres) as [ins Hins].
    assert (Hi : is_Some (input r1)).
    { unfold target_request in Hcall.
      destruct target as [ | | [ o | a ] | ]; try discriminate Hcall.
      exact (request_input _ _ _ _ _ _ Hcall). }
    destruct Hi as [i Hi]. exists (i :: ins).
    rewrite !fmap_cons, Hi, Hins. reflexivity.
  - discriminate Hres.
Qed.

(** The head of a reply without extended status. *)
Lemma produce_reply_head_plain d sv st :
  service d = Some sv -> status d = Some st -> status_ext d = None ->
  0 <= sv < 256 -> 0 <= st < 256 ->
  produce_reply_head d = Ok [sv; 0; st; 0].
Proof.
  intros Hsv Hst Hse Hr1 Hr2.
  unfold produce_reply_head, produce_service, status_produce, USINT_produce.
  rewrite Hsv, Hst, Hse.
  rewrite (pack_unsigned_in_range 1 sv), (pack_unsigned_in_range 1 st) by lia.
  cbn [mbind result_bind default length].
  change (Z.of_nat 0) with 0.
  rewrite (pack_unsigned_in_range 1 0) by lia.
  cbn [mbind result_bind fmap list_fmap join_produce le_bytes app].
  rewrite !Z.mod_small by lia. reflexivity.
Qed.

(** [Message_Router.produce] on a Multiple Service Packet reply. *)
Lemma produce_multiple_reply d rs st :
  service d = Some MULTIPLE_RPY -> multiple d = Some rs ->
  status d = Some st -> status_ext d = None -> 0 <= st < 256 ->
  Message_Router_produce EPATH_produce d
  = (d, if st =? 0
        then ins ← reply_inputs rs;
             t ← produce_offsets_payload ins;
             Ok ([0x8A; 0; 0; 0] ++ t)
        else Ok [0x8A; 0; st; 0]).
Proof.
  intros Hsv Hm Hst Hse Hr.
  assert (Hb : 0 <= MULTIPLE_RPY < 256) by (vm_compute; split; [ discriminate | reflexivity ]).
  pose proof (produce_reply_head_plain d _ _ Hsv Hst Hse Hb Hr) as Hh.
  destruct d as [sv st' se pa ga gs ss sc mu fo fc inp].
  simpl in Hsv, Hm, Hst, Hse. subst sv mu st' se.
  cbn [Message_Router_produce].
  rewrite bool_decide_eq_false_2 by (intros [H | H]; discriminate H).
  rewrite bool_decide_eq_true_2 by reflexivity.
  rewrite Hh. cbn [mbind result_bind]. f_equal.
  destruct (Z.eqb_spec st 0) as [-> | Hne].
  - rewrite bool_decide_eq_true_2 by reflexivity. reflexivity.
  - rewrite bool_decide_eq_false_2 by congruence. reflexivity.
Qed.

Lemma route_path_only self w d d' fail :
  path d' = path d ->
  Message_Router_route directory_get self w d' fail
  = Message_Router_route directory_get self w d fail.
Proof. unfold Message_Router_route. intros ->. reflexivity. Qed.


End Dispatch.


(** Two Get Attribute Single in one packet for the Identity: the replies
    come back in the order of the requests, at the offsets 6 and 12. *)
Example two_replies :
  let '(_, d, r) :=
    request EPATH_unused EPATH_unused directory_unused router_1 device
            (packet [get_vendor; get_vendor]) in
  input d = Some [0x8A; 0; 0; 0;  2; 0;  6; 0;  12; 0;
                  0x8E; 0; 0; 0; 1; 0;  0x8E; 0; 0; 0; 1; 0]
  /\ r = Ok true.
Proof. vm_compute. split; reflexivity. Qed.


(** Two sub-requests that are both answered, the second reply beyond the
    reach of a 16-bit offset: the status is 0, [produce] raises
    [struct.error], and the packet is left without a reply. *)
Example multiple_reply_too_long :
  let '(_, d, r) :=
    request EPATH_unused EPATH_unused directory_unused router_1 long_device
            (packet [get_long; get_long]) in
  r = Raise StructError /\ status d = Some 0 /\ input d = None
  /\ (fun r => Z.of_nat ∘ length <$> input r) <$> default [] (multiple d)
     = [Some 65534; Some 65534].
Proof. vm_compute. repeat split; reflexivity. Qed.

(** ** Forward Open *)

Lemma randint_range lo hi g :
  lo <= hi -> lo <= (randint lo hi g).1 <= hi.
Proof.
  intros H. unfold randint. cbn [fst].
  pose proof (Z.mod_pos_bound (draws g (taken g)) (hi - lo + 1)). lia.
Qed.

Lemma same_connection_refl a : same_connection a a.
Proof. repeat split. Qed.

Lemma Connection_Manager_produce_reply EP EPP d fo :
  service d = Some FWD_OPEN_RPY -> forward_open d = Some fo ->
  exists fo',
    forward_open (Connection_Manager_produce EP EPP d).1 = Some fo'
    /\ same_connection fo fo'
    /\ service (Connection_Manager_produce EP EPP d).1 = service d
    /\ status (Connection_Manager_produce EP EPP d).1 = status d.
Proof.
  intros Hs Hfo. unfold Connection_Manager_produce, service_for.
  rewrite Hfo, Hs. change (FWD_OPEN_RPY =? FWD_OPEN_REQ) with false.
  rewrite bool_decide_eq_true_2 by reflexivity.
  match goal with |- context [ match ?f with Ok _ => _ | Raise _ => _ end ] =>
    destruct f end.
  - destruct (produce_application (fo_application fo)) as [app tail].
    eexists. cbn [fst forward_open set_forward_open service status].
    split; [ reflexivity | ]. split; [ repeat split | ]. auto.
  - exists fo. cbn [fst]. rewrite Hfo. auto using same_connection_refl.
Qed.

(** C4, as amended.  A Forward Open is answered with the service 0xD4 and
    the status 0; the reply keeps the O->T connection id, the connection
    serial, the originator vendor and serial of the request, takes as T->O
    connection id a random value of 0 .. 2^32-1 (zero included), and has each
    API equal to its RPI. *)
Theorem forward_open_reply
        (EPATH_produce EPATH_padded_produce : list term -> result (list Z))
        (self : Object) (w : world) (d : data) (fo : fwd_open) :
  forward_open d = Some fo ->
  service d = None \/ service d = Some FWD_OPEN_REQ ->
  let out := Connection_Manager_request EPATH_produce EPATH_padded_produce
                                        self w d in
  exists fo',
    forward_open out.1.2 = Some fo' /\
    service out.1.2 = Some FWD_OPEN_RPY /\
    status out.1.2 = Some 0 /\
    T_O_connection_ID fo' = (randint 0 (2 ^ 32 - 1) (random w)).1 /\
    0 <= T_O_connection_ID fo' <= 2 ^ 32 - 1 /\
    O_T_connection_ID fo' = O_T_connection_ID fo /\
    connection_serial fo' = connection_serial fo /\
    O_vendor fo' = O_vendor fo /\
    O_serial fo' = O_serial fo /\
    O_T_RPI fo' = O_T_RPI fo /\ T_O_RPI fo' = T_O_RPI fo /\
    O_T_API fo' = Some (O_T_RPI fo) /\
    T_O_API fo' = Some (T_O_RPI fo).
Proof.
  intros Hfo Hsv out. subst out. unfold Connection_Manager_request.
  assert (H0 : exists d0, service_for (forward_open d) FWD_OPEN_REQ d = Some d0
                          /\ service d0 = Some FWD_OPEN_REQ
                          /\ forward_open d0 = Some fo).
  { unfold service_for. rewrite Hfo.
    destruct Hsv as [Hsv | Hsv]; rewrite Hsv.
    - eexists. split; [ reflexivity | ]. split; [ reflexivity | exact Hfo ].
    - rewrite Z.eqb_refl. eexists. split; [ reflexivity | ]. auto. }
  destruct H0 as (d0 & -> & Hs0 & Hf0).
  unfold Connection_Manager_forward_open.
  cbn [forward_open set_status set_service]. rewrite Hf0, Hs0.
  pose proof (randint_range 0 (2 ^ 32 - 1) (random w)) as Hrange.
  destruct (randint 0 (2 ^ 32 - 1) (random w)) as [id g] eqn:Er.
  cbn [fst] in Hrange.
  match goal with
  | |- context [ Connection_Manager_produce _ _ ?x ] => set (d3 := x)
  end.
  destruct (Connection_Manager_produce_reply EPATH_produce
              EPATH_padded_produce d3 _ eq_refl eq_refl)
    as (fo' & Hfo' & Hsame & Hs' & Hst').
  destruct (Connection_Manager_produce _ _ d3) as [d4 [bs | e]];
    cbn [fst snd] in *;
    exists fo';
    (split; [ exact Hfo' | ]); (split; [ exact Hs' | ]);
    (split; [ exact Hst' | ]);
    destruct Hsame as (H1 & H2 & H3 & H4 & H5 & H6 & H7 & H8 & H9);
    cbn in H1, H2, H3, H4, H5, H6, H7, H8, H9;
    rewrite <- H1, <- H2, <- H3, <- H4, <- H5, <- H6, <- H7, <- H8, <- H9;
    repeat split; auto; lia.
Qed.

Lemma forward_open_reply_witness :
  exists fo',
    forward_open (Connection_Manager_request EPATH_unused EPATH_unused
                    manager_1 (fresh (fun _ => 0x0BADCAFE)) open_request).1.2
    = Some fo'
    /\ T_O_connection_ID fo' = 0x0BADCAFE
    /\ O_T_connection_ID fo' = 0x12345678
    /\ O_T_API fo' = Some 0x4000 /\ T_O_API fo' = Some 0x4000.
Proof.
  destruct (forward_open_reply EPATH_unused EPATH_unused manager_1
              (fresh (fun _ => 0x0BADCAFE)) open_request open_fields)
    as (fo' & Hfo & _ & _ & Hid & _ & Hot & _ & _ & _ & _ & _ & Ha & Hb);
    [ reflexivity | right; reflexivity | ].
  exists fo'. split; [ exact Hfo | ]. split; [ exact Hid | ].
  split; [ exact Hot | ]. split; [ exact Ha | exact Hb ].
Defined.

(** The reply on the wire, for the draw 0x0BADCAFE: service, reserved,
    status, size of the extended status; the two connection ids; serial,
    vendor, originator serial; the two API; the size of the application
    data and the pad. *)
Example forward_open_reply_bytes :
  let '(_, d, r) :=
    Connection_Manager_request EPATH_unused EPATH_unused manager_1
      (fresh (fun _ => 0x0BADCAFE)) open_request in
  input d = Some [0xD4; 0; 0; 0;
                  0x78; 0x56; 0x34; 0x12;  0xFE; 0xCA; 0xAD; 0x0B;
                  0x01; 0x00;  0x34; 0x12;  0x01; 0x00; 0x00; 0x00;
                  0x00; 0x40; 0x00; 0x00;  0x00; 0x40; 0x00; 0x00;
                  0; 0]
  /\ r = Ok true.
Proof. vm_compute. split; reflexivity. Qed.

(** C4, as stated, asks for a nonzero T->O connection id; the generator may
    draw 0, and the reply then carries the id 0. *)
Lemma forward_open_zero_id :
  let '(_, d, r) :=
    Connection_Manager_request EPATH_unused EPATH_unused manager_1
      (fresh (fun _ => 0)) open_request in
  r = Ok true /\ status d = Some 0
  /\ T_O_connection_ID <$> forward_open d = Some 0.
Proof. vm_compute. repeat split; reflexivity. Qed.

(** ** Register Session *)

(** A draw that is not zero and is not a client address ends the loop. *)
Lemma draw_session_accepts n (sessions : gmap addr Z) session g :
  session <> 0 -> sessions !! AddrInt session = None ->
  draw_session n sessions session g = Some (session, g).
Proof.
  intros Hz Hk. destruct n; simpl;
    (replace (session =? 0) with false by lia);
    rewrite bool_decide_eq_false_2
      by (rewrite Hk; intros [? [=]]); reflexivity.
Qed.

(** The handle that [draw_session] returns is never zero, and lies in
    0 .. 2^32, both ends included, when the first draw does. *)
Lemma draw_session_nonzero n : forall (sessions : gmap addr Z) session g h g',
  draw_session n sessions session g = Some (h, g') ->
  0 <= session <= 2 ^ 32 ->
  h <> 0 /\ 0 <= h <= 2 ^ 32.
Proof.
  assert (Hpow : 0 <= 2 ^ 32) by (vm_compute; discriminate).
  assert (Hnext : forall g, 0 <= (randint 0 (2 ^ 32) g).1 <= 2 ^ 32)
    by (intros g; apply randint_range; exact Hpow).
  induction n as [ | n IH ]; intros sessions session g h g';
    cbn [draw_session].
  - destruct (Z.eqb_spec session 0); cbn [orb]; [ discriminate | ].
    destruct (bool_decide _); [ discriminate | ].
    intros [= <- _]. auto.
  - specialize (Hnext g).
    destruct (randint 0 (2 ^ 32) g) as [s1 g1]. cbn [fst] in Hnext.
    destruct (Z.eqb_spec session 0); cbn [orb].
    + intros H _. apply IH in H; auto.
    + destruct (bool_decide _).
      * intros H _. apply IH in H; auto.
      * intros [= <- _]. auto.
Qed.

(** C3, where the code departs from it.  The retry loop tests the draw
    against the keys of [sessions], which are the client addresses, not
    against the handles: a draw that equals the handle of a live session
    of another peer is accepted, and the two peers share the handle. *)
Theorem session_handle_shared
        (CIP_produce : enip_data -> result (list Z)) (n : nat) (w : world)
        (a b : addr) (h pv fl : Z) (e : enip_data) :
  sessions w !! b = Some h ->
  a <> b ->
  h <> 0 ->
  sessions w !! AddrInt h = None ->
  (randint 0 (2 ^ 32) (random w)).1 = h ->
  CIP e = register pv fl ->
  exists w' d' r,
    UCMM_request CIP_produce n w (mkUcmmData (Some a) (Some e))
    = Some (w', d', r) /\
    sessions w' !! a = Some h /\ sessions w' !! b = Some h.
Proof.
  intros Hb Hab Hz Hk Hdraw Hreg. unfold UCMM_request.
  cbn [addr_of enip CIP]. rewrite Hreg.
  destruct (randint 0 (2 ^ 32) (random w)) as [s g]. cbn [fst] in Hdraw.
  subst s. rewrite draw_session_accepts by assumption.
  destruct (CIP_produce _); eexists _, _, _; (split; [ reflexivity | ]);
    cbn [sessions set_random set_sessions];
    rewrite lookup_insert_eq, lookup_insert_ne by exact Hab; auto.
Qed.

Lemma session_handle_shared_witness :
  exists w' d' r,
    UCMM_request CIP_empty 0 one_session (register_request second_peer)
    = Some (w', d', r) /\
    sessions w' !! second_peer = Some 7 /\ sessions w' !! first_peer = Some 7.
Proof.
  apply (session_handle_shared CIP_empty 0 one_session second_peer first_peer
           7 1 0);
    [ reflexivity | discriminate | discriminate | reflexivity | reflexivity
    | reflexivity ].
Defined.

(** [random.randint( 0, 2**32 )] includes 2^32, which is no 32-bit value,
    and the loop accepts it. *)
Example session_handle_2_32 :
  match UCMM_request CIP_empty 0 (fresh (fun _ => 2 ^ 32))
                     (register_request first_peer) with
  | Some (w, d, r) =>
      sessions w !! first_peer = Some (2 ^ 32)
      /\ (enip d ≫= session_handle) = Some 4294967296
  | None => False
  end.
Proof. vm_compute. split; reflexivity. Qed.

(** What holds of the claim: a zero draw is drawn again, and the handle is
    never zero. *)
Lemma session_handle_nonzero
      (CIP_produce : enip_data -> result (list Z)) n w a e pv fl w' d' r :
  CIP e = register pv fl ->
  UCMM_request CIP_produce n w (mkUcmmData (Some a) (Some e))
  = Some (w', d', r) ->
  exists h, sessions w' !! a = Some h /\ h <> 0 /\ 0 <= h <= 2 ^ 32.
Proof.
  intros Hreg. unfold UCMM_request. cbn [addr_of enip CIP]. rewrite Hreg.
  assert (Hpow : 0 <= 2 ^ 32) by (vm_compute; discriminate).
  pose proof (randint_range 0 (2 ^ 32) (random w) Hpow) as Hr.
  destruct (randint 0 (2 ^ 32) (random w)) as [s g]. cbn [fst] in Hr.
  destruct (draw_session n (sessions w) s g) as [[h g'] | ] eqn:E;
    [ | discriminate ].
  apply draw_session_nonzero in E; [ | exact Hr ].
  destruct (CIP_produce _); intros [= <- _ _]; exists h;
    cbn [sessions set_random set_sessions];
    rewrite lookup_insert_eq; auto.
Qed.

Example zero_draw_is_retried :
  match UCMM_request CIP_empty 1
          (fresh (fun i => match i with O => 0 | _ => 9 end))
          (register_request first_peer) with
  | Some (w, _, _) => sessions w !! first_peer = Some 9
  | None => False
  end.
Proof. vm_compute. reflexivity. Qed.

(* ================================================================== *)
(** * Further properties of the code *)

(** ** Tags and paths *)

Lemma pull_keys_address (a : address) :
  exists rest,
    pull_keys (unresolved, address_dict a)
    = Ok (Resolved (a_class a) (a_instance a) (a_attribute a), rest).
Proof. destruct a as [c i t]. eexists. vm_compute. reflexivity. Qed.

Lemma pull_keys_symbolic res (s : pyval) :
  pull_keys (res, {["symbolic"%string := s]})
  = Ok (res, {["symbolic"%string := s]}).
Proof. destruct res. vm_compute. reflexivity. Qed.

Lemma settle_symbolic symbol tag (s : pyval) :
  settle symbol (unresolved, tag) {["symbolic"%string := s]}
  = match symbol !! extend_tag tag s with
    | None => Ok (unresolved, extend_tag tag s)
    | Some a =>
        Ok (Resolved (a_class a) (a_instance a) (a_attribute a), ""%string)
    end.
Proof.
  unfold settle. rewrite pull_keys_symbolic. cbn [mbind result_bind].
  replace (is_empty ({["symbolic"%string := s]} : term)) with false
    by (symmetry; apply bool_decide_eq_false_2, insert_non_empty).
  rewrite lookup_singleton_eq.
  destruct (symbol !! extend_tag tag s) as [a | ]; [ | reflexivity ].
  destruct (pull_keys_address a) as [rest ->]. reflexivity.
Qed.

Lemma complete_address attribute (a : address) :
  a_class a <> VNone -> a_instance a <> VNone ->
  (attribute = true -> a_attribute a <> VNone) ->
  complete attribute (Resolved (a_class a) (a_instance a) (a_attribute a))
  = true.
Proof.
  intros Hc Hi Ha. unfold complete. cbn [r_class r_instance r_attribute].
  destruct (a_class a); [ congruence | | ];
    destruct (a_instance a); try congruence;
    destruct attribute; try reflexivity;
    destruct (a_attribute a); try reflexivity;
    exfalso; apply Ha; reflexivity.
Qed.

(** X1.  A tag that [redirect_tag] has established resolves, as a
    one-segment symbolic path, to the address it was given, provided the
    address has the fields that the resolution requires. *)
Theorem redirect_tag_resolve (symbol : gmap string address) (tag : string)
        (a : address) (attribute : bool) :
  a_class a <> VNone -> a_instance a <> VNone ->
  (attribute = true -> a_attribute a <> VNone) ->
  resolve (redirect_tag symbol tag a).1 [ {["symbolic"%string := VStr tag]} ]
          attribute
  = Ok (a_class a, a_instance a, if attribute then a_attribute a else VNone)
  /\ resolve_tag (redirect_tag symbol tag a).1 tag = Some (address_tuple a).
Proof.
  intros Hc Hi Ha. split.
  - unfold resolve, redirect_tag. cbn [fst walk].
    replace (complete attribute unresolved) with false by reflexivity.
    rewrite settle_symbolic.
    replace (extend_tag "" (VStr tag)) with tag by reflexivity.
    rewrite lookup_insert_eq. cbn [mbind result_bind String.eqb assert].
    rewrite complete_address by assumption. reflexivity.
  - unfold resolve_tag, redirect_tag. cbn [fst].
    rewrite lookup_insert_eq. reflexivity.
Qed.

Lemma redirect_tag_resolve_witness :
  resolve (redirect_tag ∅ "SCADA" (Address (VInt 0x1A2) (VInt 1) (VInt 1))).1
          [ {["symbolic"%string := VStr "SCADA"]} ] true
  = Ok (VInt 0x1A2, VInt 1, VInt 1)
  /\ resolve_tag
       (redirect_tag ∅ "SCADA" (Address (VInt 0x1A2) (VInt 1) (VInt 1))).1
       "SCADA"
     = Some (VInt 0x1A2, VInt 1, VInt 1).
Proof.
  apply (redirect_tag_resolve ∅ "SCADA"
           (Address (VInt 0x1A2) (VInt 1) (VInt 1)) true);
    discriminate.
Defined.

Lemma extend_tag_nonempty tag s :
  tag <> ""%string -> extend_tag tag (VStr s) = (tag ++ "." ++ s)%string.
Proof.
  intros H. unfold extend_tag.
  destruct (String.eqb_spec tag ""); [ contradiction | reflexivity ].
Qed.

(** X2.  Consecutive symbolic segments are looked up as one dotted tag: when
    the first name alone is no tag, the two names joined by a dot are
    looked up, and the path resolves to the address of the joined tag. *)
Theorem dotted_tag_resolve (symbol : gmap string address)
        (parent child : string) (a : address) (attribute : bool) :
  parent <> ""%string ->
  symbol !! parent = None ->
  symbol !! (parent ++ "." ++ child)%string = Some a ->
  a_class a <> VNone -> a_instance a <> VNone ->
  (attribute = true -> a_attribute a <> VNone) ->
  resolve symbol [ {["symbolic"%string := VStr parent]};
                   {["symbolic"%string := VStr child]} ] attribute
  = Ok (a_class a, a_instance a, if attribute then a_attribute a else VNone).
Proof.
  intros Hne Hp Hpc Hc Hi Ha. unfold resolve. cbn [walk fst].
  replace (complete attribute unresolved) with false by reflexivity.
  rewrite settle_symbolic.
  replace (extend_tag "" (VStr parent)) with parent by reflexivity.
  rewrite Hp. cbn [mbind result_bind fst].
  replace (complete attribute unresolved) with false by reflexivity.
  rewrite settle_symbolic, extend_tag_nonempty, Hpc by exact Hne.
  cbn [mbind result_bind String.eqb assert].
  rewrite complete_address by assumption. reflexivity.
Qed.

Lemma dotted_tag_resolve_witness :
  resolve (<["Motor.Speed"%string := Address (VInt 0x1A2) (VInt 1) (VInt 3)]> ∅)
          [ {["symbolic"%string := VStr "Motor"]};
            {["symbolic"%string := VStr "Speed"]} ] true
  = Ok (VInt 0x1A2, VInt 1, VInt 3).
Proof.
  apply (dotted_tag_resolve
           (<["Motor.Speed"%string := Address (VInt 0x1A2) (VInt 1) (VInt 3)]> ∅)
           "Motor" "Speed" (Address (VInt 0x1A2) (VInt 1) (VInt 3)) true);
    try discriminate; reflexivity.
Defined.

Lemma walk_complete symbol attribute q res tag :
  complete attribute res = true ->
  walk symbol attribute q (res, tag) = Ok (res, tag).
Proof. intros H. destruct q; cbn [walk fst]; [ | rewrite H ]; reflexivity. Qed.

Lemma walk_app symbol attribute p : forall q st,
  walk symbol attribute (p ++ q) st
  = st' ← walk symbol attribute p st; walk symbol attribute q st'.
Proof.
  induction p as [ | t p IH ]; intros q st; cbn [app walk].
  - reflexivity.
  - destruct (complete attribute st.1) eqn:E.
    + cbn [mbind result_bind]. destruct st as [res tag].
      rewrite walk_complete by exact E. reflexivity.
    + destruct (settle symbol st t) as [st1 | e]; cbn [mbind result_bind];
        [ apply IH | reflexivity ].
Qed.

(** X3.  Once a path resolves, what follows it is not looked at: segments
    appended to a path that resolves (element indices, or anything else) do
    not change the result and cannot make the resolution fail. *)
Theorem resolve_ignores_the_rest (symbol : gmap string address)
        (p q : list term) (attribute : bool) (ids : pyval * pyval * pyval) :
  resolve symbol p attribute = Ok ids ->
  resolve symbol (p ++ q) attribute = Ok ids.
Proof.
  unfold resolve. rewrite walk_app.
  destruct (walk symbol attribute p (unresolved, ""%string))
    as [[res tag] | e]; cbn [mbind result_bind]; [ | discriminate ].
  destruct (String.eqb tag "") eqn:Et; cbn [assert mbind result_bind];
    [ | discriminate ].
  destruct (complete attribute res) eqn:E; cbn [assert mbind result_bind];
    [ | discriminate ].
  intros H. rewrite walk_complete by exact E. cbn [mbind result_bind].
  rewrite Et. cbn [assert mbind result_bind].
  rewrite E. exact H.
Qed.

Lemma resolve_ignores_the_rest_witness :
  resolve ∅ (path_with_connection_last ++ [ {["bogus"%string := VNone]} ])
          false
  = Ok (VInt 4, VInt 5, VNone).
Proof.
  apply (resolve_ignores_the_rest ∅ path_with_connection_last
           [ {["bogus"%string := VNone]} ] false).
  vm_compute. reflexivity.
Defined.

(** X4.  [resolve_element] returns the element of the first segment that
    has one, whatever comes after it, and 0 when no segment has one. *)
Theorem resolve_element_first (before after : list term) (t : term)
        (e : pyval) :
  Forall (fun s : term => s !! "element"%string = None) before ->
  t !! "element"%string = Some e ->
  resolve_element (before ++ t :: after) = e
  /\ resolve_element before = VInt 0.
Proof.
  intros Hb Ht. induction Hb as [ | s before Hs _ [IH1 IH2] ];
    cbn [app resolve_element].
  - rewrite Ht. auto.
  - rewrite Hs. auto.
Qed.

Lemma resolve_element_first_witness :
  resolve_element
    ([ {["symbolic"%string := VStr "SCADA"]} ]
       ++ {["element"%string := VInt 12]}
       :: [ {["element"%string := VInt 99]} ])
  = VInt 12
  /\ resolve_element [ {["symbolic"%string := VStr "SCADA"]} ] = VInt 0.
Proof.
  apply (resolve_element_first [ {["symbolic"%string := VStr "SCADA"]} ]
           [ {["element"%string := VInt 99]} ]
           {["element"%string := VInt 12]} (VInt 12));
    [ repeat constructor | reflexivity ].
Defined.

(** ** Attribute slices and assignment *)

Lemma slice_indices_plain s e len :
  0 <= s -> 0 <= e -> 0 <= len ->
  slice_indices (Some s) (Some e) None len
  = Ok (Z.min s len, Z.min e len, 1).
Proof.
  intros Hs He Hl. unfold slice_indices. cbn [default].
  change (1 =? 0) with false. change (1 <? 0) with false. cbv iota.
  replace (s <? 0) with false by lia. replace (e <? 0) with false by lia.
  reflexivity.
Qed.

Lemma validate_slice_key (a : Attribute) (s e : Z) :
  0 <= s -> 0 <= e ->
  Attribute_validate_key a (KSlice (Some s) (Some e) None)
  = if (s <? e) && (e <=? Attribute_len a) then Ok is_slice
    else Raise KeyError.
Proof.
  intros Hs He. unfold Attribute_validate_key.
  pose proof (Attribute_len_nonneg a) as Hl.
  rewrite slice_indices_plain by assumption. cbn [mbind result_bind].
  change (1 =? 1) with true. cbn [andb].
  set (L := Attribute_len a) in *.
  destruct (bool_decide_reflect (Some e = Some (Z.min e L) \/ Some e = None))
    as [Hd | Hd];
    destruct (Z.ltb_spec (Z.min s L) (Z.min e L)),
             (Z.leb_spec (Z.min e L) L),
             (Z.ltb_spec s e), (Z.leb_spec e L);
    cbn [andb]; try reflexivity;
    try (exfalso; lia);
    try (exfalso; destruct Hd as [[= Hd] | [=]]; lia);
    exfalso; apply Hd; left; f_equal; lia.
Qed.

(** X5.  A slice with a start and a stop that are not negative is accepted
    exactly when it is not empty and ends within the Attribute: a stop beyond
    the length is refused, not truncated.  With the stop left out the slice
    runs to the end, and is accepted exactly when the start is within the
    Attribute. *)
Theorem slice_accepted_within_length (a : Attribute) (s e : Z) :
  0 <= s -> 0 <= e ->
  Attribute_validate_key a (KSlice (Some s) (Some e) None)
  = (if (s <? e) && (e <=? Attribute_len a) then Ok is_slice
     else Raise KeyError)
  /\ Attribute_validate_key a (KSlice (Some s) None None)
     = (if s <? Attribute_len a then Ok is_slice else Raise KeyError).
Proof.
  intros Hs He. split; [ apply validate_slice_key; assumption | ].
  unfold Attribute_validate_key, slice_indices. cbn [from_option id].
  pose proof (Attribute_len_nonneg a) as Hl.
  change (1 =? 0) with false. change (1 <? 0) with false. cbv iota.
  replace (s <? 0) with false by lia. cbn [mbind result_bind].
  change (1 =? 1) with true. cbn [andb].
  rewrite Z.leb_refl, bool_decide_eq_true_2 by (right; reflexivity).
  rewrite !andb_true_r.
  destruct (Z.ltb_spec s (Attribute_len a)).
  - replace (Z.min s (Attribute_len a) <? Attribute_len a) with true by lia.
    reflexivity.
  - replace (Z.min s (Attribute_len a) <? Attribute_len a) with false by lia.
    reflexivity.
Qed.

Lemma slice_accepted_within_length_witness :
  Attribute_validate_key three_elements (KSlice (Some 1) (Some 4) None)
  = Raise KeyError
  /\ Attribute_validate_key three_elements (KSlice (Some 1) None None)
     = Ok is_slice.
Proof.
  exact (slice_accepted_within_length three_elements 1 4
           ltac:(lia) ltac:(lia)).
Defined.

Lemma Attribute_len_vector a l :
  attr_default a = Vector l -> Attribute_len a = Z.of_nat (length l).
Proof. unfold Attribute_len. intros ->. reflexivity. Qed.

Lemma getitem_slice_vector (w : world) (a : Attribute) (l : list pyval)
      (s e : Z) :
  attr_default a = Vector l ->
  0 <= s < e -> e <= Z.of_nat (length l) ->
  Attribute_getitem w a (KSlice (Some s) (Some e) None)
  = Ok (Items (take (Z.to_nat (e - s)) (drop (Z.to_nat s) l))).
Proof.
  intros Hv Hse He.
  pose proof (Attribute_len_vector a l Hv) as Hlen.
  unfold Attribute_getitem.
  rewrite validate_slice_key by lia. rewrite Hlen.
  replace ((s <? e) && (e <=? Z.of_nat (length l))) with true by lia.
  cbn [mbind result_bind]. rewrite Hv.
  rewrite slice_indices_plain by lia. cbn [mbind result_bind].
  unfold list_slice. rewrite !Z.min_l by lia. reflexivity.
Qed.

(** X6.  On a vector Attribute the elements from [s] up to [e], with
    0 <= s < e <= length, are read as a list of e - s values, and [produce]
    renders exactly these, in order. *)
Theorem slice_reads_the_range (w : world) (a : Attribute) (l : list pyval)
        (s e : Z) :
  attr_default a = Vector l ->
  0 <= s < e -> e <= Z.of_nat (length l) ->
  let items := take (Z.to_nat (e - s)) (drop (Z.to_nat s) l) in
  Attribute_getitem w a (KSlice (Some s) (Some e) None) = Ok (Items items)
  /\ Z.of_nat (length items) = e - s
  /\ Attribute_produce w a s (Some e)
     = join_produce (produce_value (attr_parser a)) items.
Proof.
  intros Hv Hse He items.
  pose proof (getitem_slice_vector w a l s e Hv Hse He) as Hget.
  split; [ exact Hget | ]. split.
  - subst items. rewrite length_take, length_drop. lia.
  - unfold Attribute_produce. cbn [from_option id]. rewrite Hget. reflexivity.
Qed.

Lemma slice_reads_the_range_witness :
  Attribute_getitem no_world three_elements (KSlice (Some 1) (Some 3) None)
  = Ok (Items [VInt 20; VInt 30])
  /\ Attribute_produce no_world three_elements 1 (Some 3) = Ok [20; 0; 30; 0].
Proof.
  destruct (slice_reads_the_range no_world three_elements
              [VInt 10; VInt 20; VInt 30] 1 3)
    as (Hg & _ & Hp); [ reflexivity | lia | simpl; lia | ].
  split; [ exact Hg | ]. rewrite Hp. reflexivity.
Defined.

(** X7.  On a vector Attribute, storing a value at an index within the
    length (counted from the end when negative) and reading the index back
    gives the value; the length stays, and the other elements stay. *)
Theorem setitem_getitem (w : world) (a : Attribute) (l : list pyval)
        (k : Z) (v : pyval) :
  attr_default a = Vector l ->
  - Z.of_nat (length l) <= k < Z.of_nat (length l) ->
  exists a',
    Attribute_setitem a (SetInt k v) = Ok a' /\
    Attribute_getitem w a' (KInt k) = Ok (Item v) /\
    Attribute_len a' = Attribute_len a /\
    forall j, 0 <= j < Z.of_nat (length l) ->
              j <> (if k <? 0 then k + Z.of_nat (length l) else k) ->
              Attribute_getitem w a' (KInt j) = Attribute_getitem w a (KInt j).
Proof.
  intros Hv Hk.
  pose proof (Attribute_len_vector a l Hv) as Hlen.
  set (i := if k <? 0 then k + Z.of_nat (length l) else k).
  assert (Hi : 0 <= i < Z.of_nat (length l))
    by (subst i; destruct (Z.ltb_spec k 0); lia).
  exists (set_default (Vector (<[Z.to_nat i := v]> l)) a).
  assert (Hval : forall b : Attribute,
             Attribute_len b = Z.of_nat (length l) ->
             forall j, j < Z.of_nat (length l) ->
                       Attribute_validate_key b (KInt j) = Ok is_int).
  { intros b Hb j Hj. rewrite validate_int_key, Hb.
    destruct (Z.geb_spec j (Z.of_nat (length l))); [ lia | reflexivity ]. }
  assert (Hlen' : Attribute_len (set_default (Vector (<[Z.to_nat i := v]> l)) a)
                  = Z.of_nat (length l))
    by (unfold Attribute_len; cbn; rewrite length_insert; reflexivity).
  split; [ | split; [ | split ] ].
  - unfold Attribute_setitem. rewrite Hv. cbn [assignment_key].
    rewrite (Hval a Hlen) by lia. cbn [mbind result_bind].
    unfold list_setitem. fold i.
    replace ((0 <=? i) && (i <? Z.of_nat (length l))) with true by lia.
    reflexivity.
  - unfold Attribute_getitem. rewrite (Hval _ Hlen') by lia.
    cbn [mbind result_bind attr_default set_default].
    unfold list_getitem. rewrite length_insert. fold i.
    replace ((0 <=? i) && (i <? Z.of_nat (length l))) with true by lia.
    rewrite list_lookup_insert_eq by lia. reflexivity.
  - rewrite Hlen', Hlen. reflexivity.
  - intros j Hj Hne. unfold Attribute_getitem.
    rewrite (Hval _ Hlen') by lia. rewrite (Hval a Hlen) by lia.
    cbn [mbind result_bind attr_default set_default]. rewrite Hv.
    unfold list_getitem. rewrite length_insert.
    replace (j <? 0) with false by lia.
    rewrite list_lookup_insert_ne by lia. reflexivity.
Qed.

Lemma setitem_getitem_witness :
  exists a',
    Attribute_setitem three_elements (SetInt (-1) (VInt 7)) = Ok a' /\
    Attribute_getitem no_world a' (KInt (-1)) = Ok (Item (VInt 7)) /\
    Attribute_getitem no_world a' (KInt 0) = Ok (Item (VInt 10)).
Proof.
  destruct (setitem_getitem no_world three_elements
              [VInt 10; VInt 20; VInt 30] (-1) (VInt 7))
    as (a' & Hs & Hg & _ & Ho); [ reflexivity | simpl; lia | ].
  exists a'. split; [ exact Hs | ]. split; [ exact Hg | ].
  rewrite (Ho 0); [ reflexivity | simpl; lia | simpl; lia ].
Defined.

(** X8.  Assigning to a slice of a vector Attribute replaces the slice by
    the values given, however many they are: the length of the Attribute
    changes by the difference, and with as many values as the slice had the
    slice reads back as the values. *)
Theorem set_slice_replaces (w : world) (a : Attribute) (l vs : list pyval)
        (s e : Z) :
  attr_default a = Vector l ->
  0 <= s < e -> e <= Z.of_nat (length l) ->
  exists a',
    Attribute_setitem a (SetSlice (Some s) (Some e) None vs) = Ok a' /\
    attr_default a'
    = Vector (take (Z.to_nat s) l ++ vs ++ drop (Z.to_nat e) l) /\
    Attribute_len a' = Attribute_len a - (e - s) + Z.of_nat (length vs) /\
    (Z.of_nat (length vs) = e - s ->
     Attribute_getitem w a' (KSlice (Some s) (Some e) None) = Ok (Items vs)).
Proof.
  intros Hv Hse He.
  pose proof (Attribute_len_vector a l Hv) as Hlen.
  eexists. split; [ | split; [ | split ] ].
  - unfold Attribute_setitem. rewrite Hv. cbn [assignment_key].
    rewrite validate_slice_key by lia. rewrite Hlen.
    replace ((s <? e) && (e <=? Z.of_nat (length l))) with true by lia.
    cbn [mbind result_bind].
    rewrite slice_indices_plain by lia. cbn [mbind result_bind].
    unfold list_set_slice. rewrite !Z.min_l by lia.
    rewrite Z.max_r by lia. reflexivity.
  - reflexivity.
  - unfold Attribute_len at 1. cbn [attr_default set_default].
    rewrite !length_app, length_take, length_drop, Hlen. lia.
  - intros Hvs.
    set (a' := set_default _ a).
    rewrite (getitem_slice_vector w a'
               (take (Z.to_nat s) l ++ vs ++ drop (Z.to_nat e) l) s e);
      [ | reflexivity | lia
        | rewrite !length_app, length_take, length_drop; lia ]. do 2 f_equal.
    rewrite drop_app_length' by (rewrite length_take; lia).
    rewrite take_app_length' by lia. reflexivity.
Qed.

Lemma set_slice_replaces_witness :
  exists a',
    Attribute_setitem three_elements
                      (SetSlice (Some 0) (Some 2) None [VInt 1]) = Ok a'
    /\ attr_default a' = Vector [VInt 1; VInt 30]
    /\ Attribute_len a' = 2.
Proof.
  destruct (set_slice_replaces no_world three_elements
              [VInt 10; VInt 20; VInt 30] [VInt 1] 0 2)
    as (a' & Hs & Hd & Hl & _); [ reflexivity | lia | simpl; lia | ].
  exists a'. split; [ exact Hs | ]. split; [ exact Hd | exact Hl ].
Defined.

(** X9.  A scalar Attribute is an array of one element: every [int] key
    below 1, the negative ones too, reads the value, the keys from 1 on are
    a [KeyError]; the slices [:] and [0:1] read the list of the value and a
    longer slice is a [KeyError]; [produce] renders the one value. *)
Theorem scalar_single_element (w : world) (a : Attribute) (v : pyval) :
  attr_default a = Scalar v ->
  (forall k, Attribute_getitem w a (KInt k)
             = if k <? 1 then Ok (Item v) else Raise KeyError)
  /\ Attribute_getitem w a (KSlice None None None) = Ok (Items [v])
  /\ Attribute_getitem w a (KSlice (Some 0) (Some 1) None) = Ok (Items [v])
  /\ (forall e, 1 < e ->
        Attribute_getitem w a (KSlice (Some 0) (Some e) None) = Raise KeyError)
  /\ Attribute_produce w a 0 None
     = join_produce (produce_value (attr_parser a)) [v].
Proof.
  intros Hv.
  assert (Hlen : Attribute_len a = 1)
    by (unfold Attribute_len; rewrite Hv; reflexivity).
  assert (H01 : Attribute_getitem w a (KSlice (Some 0) (Some 1) None)
                = Ok (Items [v])).
  { unfold Attribute_getitem. rewrite validate_slice_key by lia.
    rewrite Hlen, Hv. reflexivity. }
  split; [ | split; [ | split; [ | split ] ] ].
  - intros k. unfold Attribute_getitem. rewrite validate_int_key, Hlen, Hv.
    destruct (Z.geb_spec k 1), (Z.ltb_spec k 1); try lia; reflexivity.
  - unfold Attribute_getitem, Attribute_validate_key.
    rewrite Hlen, Hv. reflexivity.
  - exact H01.
  - intros e He. unfold Attribute_getitem. rewrite validate_slice_key by lia.
    rewrite Hlen. replace ((0 <? e) && (e <=? 1)) with false by lia.
    reflexivity.
  - unfold Attribute_produce. cbn [from_option id]. rewrite Hlen, H01.
    reflexivity.
Qed.

Lemma scalar_single_element_witness :
  Attribute_getitem no_world (Attribute_init "State" USINT (Scalar (VInt 255)))
                    (KInt (-7)) = Ok (Item (VInt 255))
  /\ Attribute_produce no_world
       (Attribute_init "State" USINT (Scalar (VInt 255))) 0 None = Ok [255].
Proof.
  destruct (scalar_single_element no_world
              (Attribute_init "State" USINT (Scalar (VInt 255))) (VInt 255))
    as (Hk & _ & _ & _ & Hp); [ reflexivity | ].
  split; [ exact (Hk (-7)) | ]. rewrite Hp. reflexivity.
Defined.

(** X10.  On a vector Attribute the two ends of the [int] keys fail in two
    ways: a key at or beyond the length is refused by the validation with a
    [KeyError], a key below minus the length passes the validation and is
    refused by the list with an [IndexError], on reading and on assignment
    alike. *)
Theorem int_key_out_of_range (w : world) (a : Attribute) (l : list pyval)
        (k : Z) (v : pyval) :
  attr_default a = Vector l ->
  (Z.of_nat (length l) <= k ->
   Attribute_getitem w a (KInt k) = Raise KeyError
   /\ Attribute_setitem a (SetInt k v) = Raise KeyError)
  /\ (k < - Z.of_nat (length l) ->
      Attribute_validate_key a (KInt k) = Ok is_int
      /\ Attribute_getitem w a (KInt k) = Raise IndexError
      /\ Attribute_setitem a (SetInt k v) = Raise IndexError).
Proof.
  intros Hv.
  pose proof (Attribute_len_vector a l Hv) as Hlen.
  split; intros Hk.
  - unfold Attribute_getitem, Attribute_setitem. rewrite Hv.
    cbn [assignment_key]. rewrite validate_int_key, Hlen.
    destruct (Z.geb_spec k (Z.of_nat (length l))); [ | lia ].
    split; reflexivity.
  - assert (Hval : Attribute_validate_key a (KInt k) = Ok is_int)
      by (apply validate_negative_key; lia).
    split; [ exact Hval | ].
    unfold Attribute_getitem, Attribute_setitem. rewrite Hv.
    cbn [assignment_key]. rewrite Hval. cbn [mbind result_bind].
    unfold list_getitem, list_setitem.
    replace (k <? 0) with true by lia.
    replace ((0 <=? k + Z.of_nat (length l))
             && (k + Z.of_nat (length l) <? Z.of_nat (length l)))
      with false by lia.
    split; reflexivity.
Qed.

Lemma int_key_out_of_range_witness :
  Attribute_setitem three_elements (SetInt 3 (VInt 0)) = Raise KeyError
  /\ Attribute_setitem three_elements (SetInt (-4) (VInt 0))
     = Raise IndexError.
Proof.
  destruct (int_key_out_of_range no_world three_elements
              [VInt 10; VInt 20; VInt 30] 3 (VInt 0)) as [Hhi _];
    [ reflexivity | ].
  destruct (int_key_out_of_range no_world three_elements
              [VInt 10; VInt 20; VInt 30] (-4) (VInt 0)) as [_ Hlo];
    [ reflexivity | ].
  split.
  - apply Hhi. simpl. lia.
  - apply Hlo. simpl. lia.
Defined.

(** X11.  An Attribute over an empty list has nothing to read: [produce]
    raises a [KeyError] whatever the start and the stop, and so does every
    key that is not negative. *)
Theorem empty_vector_not_produced (w : world) (a : Attribute) :
  attr_default a = Vector [] ->
  (forall start stop, Attribute_produce w a start stop = Raise KeyError)
  /\ (forall k, 0 <= k -> Attribute_getitem w a (KInt k) = Raise KeyError).
Proof.
  intros Hv.
  assert (Hlen : Attribute_len a = 0)
    by (unfold Attribute_len; rewrite Hv; reflexivity).
  split.
  - intros start stop. unfold Attribute_produce, Attribute_getitem.
    unfold Attribute_validate_key, slice_indices. rewrite Hlen.
    cbn [from_option id].
    change (1 =? 0) with false. change (1 <? 0) with false. cbv iota.
    cbn [mbind result_bind].
    set (b := if start <? 0 then _ else _).
    set (e := if _ <? 0 then _ else _).
    assert (Hb : b = 0) by (subst b; destruct (Z.ltb_spec start 0); lia).
    assert (He : e = 0)
      by (subst e; destruct stop as [z | ]; cbn [from_option id];
          [ destruct (Z.ltb_spec z 0); lia | reflexivity ]).
    rewrite Hb, He. reflexivity.
  - intros k Hk. unfold Attribute_getitem. rewrite validate_int_key, Hlen.
    destruct (Z.geb_spec k 0); [ reflexivity | lia ].
Qed.

Lemma empty_vector_not_produced_witness :
  Attribute_produce no_world (Attribute_init "Empty" INT (Vector [])) 0 None
  = Raise KeyError.
Proof.
  destruct (empty_vector_not_produced no_world
              (Attribute_init "Empty" INT (Vector []))) as [Hp _];
    [ reflexivity | ].
  exact (Hp 0 None).
Defined.

(** X12.  The Num Instances of a class never exceeds its Max Instance: when
    both values can be read, the count lies between 0 and the maximum, and
    the two agree only if every instance from 1 to the maximum is in the
    directory. *)
Theorem num_instances_at_most_max (w : world) (cid n m : Z) :
  computed_value w (NumInstances cid) = Ok (VInt n) ->
  computed_value w (MaxInstance cid) = Ok (VInt m) ->
  0 <= n <= Z.max 0 m
  /\ (n = m ->
      forall i, 1 <= i <= m -> is_Some (dir_lookup w cid i None)).
Proof.
  unfold computed_value.
  destruct (dir_lookup w cid 0 None) as [[o | ?] | ]; try discriminate.
  cbn [mbind result_bind fmap result_fmap].
  intros [= Hn] [= Hm]. rewrite Hm in Hn.
  set (ids := map (fun k : nat => Z.of_nat k + 1) (seq 0 (Z.to_nat m))) in *.
  set (P := fun i : Z => is_Some (dir_lookup w cid i None)).
  change (Z.of_nat (length (filter P ids)) = n) in Hn.
  assert (Hids : length ids = Z.to_nat m)
    by (subst ids; rewrite length_map, length_seq; reflexivity).
  pose proof (length_filter P ids) as Hle.
  split; [ lia | ].
  intros -> i Hi.
  destruct (decide (P i)) as [Hp | Hp]; [ exact Hp | exfalso ].
  assert (Hin : i ∈ ids).
  { apply list_elem_of_In. subst ids. apply in_map_iff.
    exists (Z.to_nat (i - 1)). split; [ lia | ]. apply in_seq. lia. }
  pose proof (length_filter_lt P ids i Hin Hp) as Hlt. lia.
Qed.

Lemma num_instances_at_most_max_witness :
  computed_value (construct Identity no_world None (Some 5)).1
                 (NumInstances 1) = Ok (VInt 1)
  /\ 0 <= 1 <= Z.max 0 5.
Proof.
  assert (Hn : computed_value (construct Identity no_world None (Some 5)).1
                              (NumInstances 1) = Ok (VInt 1))
    by (vm_compute; reflexivity).
  assert (Hm : computed_value (construct Identity no_world None (Some 5)).1
                              (MaxInstance 1) = Ok (VInt 5))
    by (vm_compute; reflexivity).
  split; [ exact Hn | ].
  exact (proj1 (num_instances_at_most_max _ 1 1 5 Hn Hm)).
Defined.

(** ** What a construction leaves in the directory *)

Lemma pair_of_snd {A B} (p : A * B) (b : B) : p.2 = b -> p = (p.1, b).
Proof. destruct p. cbn. intros ->. reflexivity. Qed.

Lemma class_id_inj c c' : class_id c = class_id c' -> c = c'.
Proof. destruct c, c'; intros H; try reflexivity; discriminate H. Qed.

Lemma config_int_raises w n k f e :
  config_int w n k f = Raise e -> config_error e.
Proof.
  unfold config_int, config_error.
  destruct (config_get w n k) as [ [ v | | ] | ]; [ destruct (Py.int v 10) | | | ];
    intros [= <-]; auto.
Qed.

Lemma set_attribute_other o a e w k :
  k <> (class_id (obj_cls o), instance_id o) ->
  directory (set_attribute o a e w) !! k = directory w !! k.
Proof.
  intros Hk. unfold set_attribute. cbn [directory set_directory].
  rewrite lookup_insert_ne; auto.
Qed.

Lemma dir_lookup_object w c i :
  dir_lookup w c i None = directory w !! (c, i) ≫= (.!! 0).
Proof. reflexivity. Qed.

Lemma dir_lookup_set_object o e w :
  dir_lookup (set_attribute o 0 e w) (class_id (obj_cls o)) (instance_id o) None
  = Some e.
Proof.
  rewrite dir_lookup_object. unfold set_attribute.
  cbn [directory set_directory]. rewrite lookup_insert_eq.
  cbn [mbind option_bind]. apply lookup_insert_eq.
Qed.

Lemma dir_lookup_set_attribute_ne o a e w c i :
  a <> 0 ->
  dir_lookup (set_attribute o a e w) c i None = dir_lookup w c i None.
Proof.
  intros Ha. rewrite !dir_lookup_object. unfold set_attribute.
  cbn [directory set_directory].
  destruct (decide ((class_id (obj_cls o), instance_id o) = (c, i)))
    as [<- | Hk].
  - rewrite lookup_insert_eq. cbn [mbind option_bind].
    rewrite lookup_insert_ne by exact Ha.
    destruct (directory w !! _) as [m | ]; reflexivity.
  - rewrite lookup_insert_ne by exact Hk. reflexivity.
Qed.

Lemma dir_lookup_other w w' c i :
  directory w' !! (c, i) = directory w !! (c, i) ->
  dir_lookup w' c i None = dir_lookup w c i None.
Proof. rewrite !dir_lookup_object. intros ->. reflexivity. Qed.

Lemma meta_attributes_spec o w w' r :
  meta_attributes o w = (w', r) ->
  (forall k, k <> (class_id (obj_cls o), instance_id o) ->
             directory w' !! k = directory w !! k)
  /\ (forall c i, dir_lookup w' c i None = dir_lookup w c i None)
  /\ (forall e, r = Raise e -> config_error e).
Proof.
  unfold meta_attributes. intros H.
  destruct (config_int w (obj_name o) "Revision" 0) as [rev | e0] eqn:E0.
  2: { injection H as <- <-. split; [ | split ]; auto.
       intros e [= <-]. eapply config_int_raises; eauto. }
  destruct (config_int _ (obj_name o) "Optional Attributes" 0)
    as [opt | e1] eqn:E1; injection H as <- <-.
  - split; [ | split ].
    + intros k Hk. rewrite !set_attribute_other by exact Hk. reflexivity.
    + intros c i. rewrite !dir_lookup_set_attribute_ne by lia. reflexivity.
    + discriminate.
  - split; [ | split ].
    + intros k Hk. rewrite !set_attribute_other by exact Hk. reflexivity.
    + intros c i. rewrite !dir_lookup_set_attribute_ne by lia. reflexivity.
    + intros e [= <-]. eapply config_int_raises; eauto.
Qed.

Lemma subclass_init_meta_spec o w w' r :
  subclass_init_meta o w = (w', r) ->
  (forall c i, is_Some (dir_lookup w c i None) ->
               is_Some (dir_lookup w' c i None))
  /\ (forall e, r = Raise e -> config_error e)
  /\ (obj_cls o <> TCPIP -> w' = w)
  /\ (r = Ok tt -> obj_cls o = TCPIP ->
      exists a, dir_lookup w' (class_id (obj_cls o)) (instance_id o) None
                = Some (EAttribute a)
                /\ attr_name a = "Revision"%string).
Proof.
  unfold subclass_init_meta. intros H.
  destruct (obj_cls o) eqn:Ec;
    try (injection H as <- <-;
         split; [ auto | split; [ discriminate | split; [ auto | ] ] ];
         discriminate).
  destruct (config_int w (obj_name o) "Revision" 3) as [rev | e0] eqn:E0;
    injection H as <- <-.
  - split; [ | split; [ discriminate | split; [ congruence | ] ] ].
    + intros c i Hs.
      destruct (decide ((class_id (obj_cls o), instance_id o) = (c, i)))
        as [[= <- <-] | Hk].
      * rewrite dir_lookup_set_object. eauto.
      * rewrite (dir_lookup_other w); [ exact Hs | ].
        apply set_attribute_other. congruence.
    + intros _ _. eexists. split.
      * rewrite <- Ec. apply dir_lookup_set_object.
      * reflexivity.
  - split; [ auto | split; [ | split; [ congruence | discriminate ] ] ].
    intros e [= <-]. eapply config_int_raises; eauto.
Qed.

(** [Object.__init__], whatever creates the instance 0 when it is missing:
    which entries of the directory it touches, what it leaves there when it
    returns, and how it can fail. *)
Lemma Object_init_directory (Q : entry -> Prop) meta c w name inst w' r :
  (default (class_max_instance w c + 1) inst <> 0 ->
   forall w0 n w1 r1,
     dir_lookup w0 (class_id c) 0 None = None ->
     meta w0 n = (w1, r1) ->
     (forall k, k <> (class_id c, 0) -> directory w1 !! k = directory w0 !! k)
     /\ (r1 = Ok tt ->
         exists x, dir_lookup w1 (class_id c) 0 None = Some x /\ Q x)
     /\ (forall e, r1 = Raise e -> config_error e)) ->
  Object_init meta c w name inst = (w', r) ->
  (forall k, k <> (class_id c, default (class_max_instance w c + 1) inst) ->
             k <> (class_id c, 0) ->
             directory w' !! k = directory w !! k)
  /\ (forall o, r = Ok o ->
        dir_lookup w (class_id c)
                   (default (class_max_instance w c + 1) inst) None = None
        /\ dir_lookup w' (class_id c)
                      (default (class_max_instance w c + 1) inst) None
           = Some (EObject o)
        /\ is_Some (dir_lookup w' (class_id c) 0 None)
        /\ (default (class_max_instance w c + 1) inst <> 0 ->
            dir_lookup w (class_id c) 0 None = None ->
            exists x, dir_lookup w' (class_id c) 0 None = Some x /\ Q x))
  /\ (forall e, r = Raise e ->
        e = AssertionError
        /\ is_Some (dir_lookup w (class_id c)
                      (default (class_max_instance w c + 1) inst) None)
        \/ config_error e).
Proof.
  intros Hmeta. unfold Object_init.
  set (nm := match name with Some n => _ | None => _ end).
  set (i := default (class_max_instance w c + 1) inst) in *.
  set (w1 := if class_max_instance w c <? i then _ else w).
  assert (Hd1 : directory w1 = directory w)
    by (subst w1; destruct (_ <? _); reflexivity).
  rewrite (dir_lookup_directory w1 w) by exact Hd1.
  destruct (dir_lookup w (class_id c) i None) as [x | ] eqn:Ei.
  { intros [= <- <-]. split; [ | split ].
    - intros k _ _. rewrite Hd1. reflexivity.
    - discriminate.
    - intros e [= <-]. left. split; eauto. }
  set (self := mkObject c i nm).
  set (w2 := set_attribute self 0 (EObject self) w1).
  assert (Hd2 : forall k, k <> (class_id c, i) ->
                          directory w2 !! k = directory w !! k).
  { intros k Hk. subst w2. rewrite set_attribute_other by exact Hk.
    rewrite Hd1. reflexivity. }
  assert (Hs2 : dir_lookup w2 (class_id c) i None = Some (EObject self))
    by apply (dir_lookup_set_object self).
  destruct (match dir_lookup w2 (class_id c) 0 None with
            | None => _
            | Some _ => _
            end) as [w3 r3] eqn:E3.
  assert (H3 : (forall k, k <> (class_id c, 0) ->
                          directory w3 !! k = directory w2 !! k)
               /\ (r3 = Ok tt ->
                   dir_lookup w3 (class_id c) i None = Some (EObject self)
                   /\ is_Some (dir_lookup w3 (class_id c) 0 None)
                   /\ (i <> 0 -> dir_lookup w (class_id c) 0 None = None ->
                       exists x, dir_lookup w3 (class_id c) 0 None = Some x
                                 /\ Q x))
               /\ (forall e, r3 = Raise e -> config_error e)).
  { destruct (dir_lookup w2 (class_id c) 0 None) as [y | ] eqn:E0.
    - injection E3 as <- <-. split; [ auto | split; [ | discriminate ] ].
      intros _. split; [ exact Hs2 | split; [ rewrite E0; eauto | ] ].
      intros Hi H0. exfalso.
      rewrite (dir_lookup_other w w2) in E0; [ congruence | ].
      apply Hd2. intros [= Hx]. apply Hi. symmetry. exact Hx.
    - assert (Hi : i <> 0) by (intros Hi0; rewrite Hi0 in Hs2; congruence).
      destruct (Hmeta Hi w2 nm w3 r3 E0 E3) as (Ho & Hok & Hr).
      split; [ exact Ho | split; [ | exact Hr ] ].
      intros Hr3. destruct (Hok Hr3) as (x & Hx & HQ).
      split; [ | split; [ rewrite Hx; eauto | eauto ] ].
      rewrite <- Hs2. apply dir_lookup_other, Ho.
      intros [= Hx']. apply Hi. exact Hx'. }
  destruct H3 as (Ho3 & Hok3 & Hr3).
  assert (Hd3 : forall k, k <> (class_id c, i) -> k <> (class_id c, 0) ->
                          directory w3 !! k = directory w !! k).
  { intros k Hk Hk0. rewrite Ho3 by exact Hk0. apply Hd2, Hk. }
  destruct r3 as [ [] | e3 ].
  2: { intros [= <- <-]. split; [ exact Hd3 | split; [ discriminate | ] ].
       intros e [= <-]. right. apply Hr3. reflexivity. }
  destruct (Hok3 eq_refl) as (Hs3 & H03 & HQ3).
  destruct (i =? 0) eqn:Ei0.
  - destruct (meta_attributes self w3) as [w4 r4] eqn:E4.
    apply meta_attributes_spec in E4 as (Ho4 & Hl4 & Hr4).
    destruct r4 as [ [] | e4 ]; intros [= <- <-].
    + split; [ | split; [ | discriminate ] ].
      * intros k Hk Hk0. rewrite Ho4 by exact Hk. auto.
      * intros o [= <-]. rewrite !Hl4. auto.
    + split; [ | split; [ discriminate | ] ].
      * intros k Hk Hk0. rewrite Ho4 by exact Hk. auto.
      * intros e [= <-]. right. apply Hr4. reflexivity.
  - intros [= <- <-]. split; [ exact Hd3 | split; [ | discriminate ] ].
    intros o [= <-]. auto.
Qed.

Lemma construct_meta_directory c w n w1 r1 :
  dir_lookup w (class_id c) 0 None = None ->
  construct_meta c w n = (w1, r1) ->
  (forall k, k <> (class_id c, 0) -> directory w1 !! k = directory w !! k)
  /\ (r1 = Ok tt ->
      exists x, dir_lookup w1 (class_id c) 0 None = Some x
                /\ (c = TCPIP ->
                    exists a, x = EAttribute a
                              /\ attr_name a = "Revision"%string))
  /\ (forall e, r1 = Raise e -> config_error e).
Proof.
  intros H0. unfold construct_meta.
  destruct (Object_init _ c w _ (Some 0)) as [w2 [o | e]] eqn:E.
  - pose proof E as E'.
    apply Object_init_counters in E' as (_ & _ & Hid);
      [ | intros ? ? ? ? [= <- _]; apply counters_le_refl ].
    destruct (Hid o eq_refl) as [Hc Hi]. cbn [from_option id] in Hi.
    apply (Object_init_directory (fun _ => True)) in E as (Hd & Hok & _);
      [ | intros Hne; exfalso; apply Hne; reflexivity ].
    destruct (Hok o eq_refl) as (_ & Hs & _ & _).
    cbn [from_option id] in Hd, Hs.
    intros Hsub.
    pose proof (subclass_init_meta_spec _ _ _ _ Hsub)
      as (Hkeep & Hraise & Hsame & Htcp).
    split; [ | split ].
    + intros k Hk.
      rewrite (subclass_init_meta_directory_other o w2 w1 r1 k Hsub)
        by (rewrite Hc, Hi; exact Hk).
      apply Hd; exact Hk.
    + intros Hr1. destruct (decide (c = TCPIP)) as [Ht | Ht].
      * destruct (Htcp Hr1) as (a & Ha & Hnm); [ congruence | ].
        rewrite Hc, Hi in Ha. exists (EAttribute a).
        split; [ exact Ha | ]. intros _. exists a. auto.
      * rewrite (Hsame ltac:(congruence)). exists (EObject o).
        split; [ exact Hs | ]. intros Ht'. contradiction.
    + exact Hraise.
  - intros [= <- <-].
    apply (Object_init_directory (fun _ => True)) in E as (Hd & _ & Hr);
      [ | intros Hne; exfalso; apply Hne; reflexivity ].
    cbn [from_option id] in Hd, Hr.
    split; [ intros k Hk; apply Hd; exact Hk | split; [ discriminate | ] ].
    intros e' [= <-].
    destruct (Hr e eq_refl) as [[_ [x Hx]] | He];
      [ congruence | exact He ].
Qed.

(** A construction: which entries of the directory it touches, what it
    leaves there when it returns, and how it can fail. *)
Lemma construct_directory c w name inst w' r :
  construct c w name inst = (w', r) ->
  (forall k, k <> (class_id c, default (class_max_instance w c + 1) inst) ->
             k <> (class_id c, 0) ->
             directory w' !! k = directory w !! k)
  /\ (forall o, r = Ok o ->
        dir_lookup w (class_id c)
                   (default (class_max_instance w c + 1) inst) None = None
        /\ instance_id o = default (class_max_instance w c + 1) inst
        /\ obj_cls o = c
        /\ is_Some (dir_lookup w' (class_id c) 0 None)
        /\ (instance_id o <> 0 \/ c <> TCPIP ->
            dir_lookup w' (class_id c) (instance_id o) None
            = Some (EObject o))
        /\ (c = TCPIP -> dir_lookup w (class_id c) 0 None = None ->
            exists a, dir_lookup w' (class_id c) 0 None = Some (EAttribute a)
                      /\ attr_name a = "Revision"%string))
  /\ (forall e, r = Raise e ->
        e = AssertionError
        /\ is_Some (dir_lookup w (class_id c)
                      (default (class_max_instance w c + 1) inst) None)
        \/ config_error e).
Proof.
  unfold construct.
  destruct (Object_init _ c w name inst) as [w2 [o | e]] eqn:E.
  - pose proof E as E'.
    apply Object_init_counters in E' as (_ & _ & Hid);
      [ | intros ? ? ? ?; apply construct_meta_counters ].
    destruct (Hid o eq_refl) as [Hc Hi].
    apply (Object_init_directory
             (fun x => c = TCPIP ->
                       exists a, x = EAttribute a
                                 /\ attr_name a = "Revision"%string))
      in E as (Hd & Hok & _);
      [ | intros _ w0 n w1 r1 H0 Hm;
          exact (construct_meta_directory c w0 n w1 r1 H0 Hm) ].
    destruct (Hok o eq_refl) as (Hn & Hs & H0 & HQ).
    set (i := default (class_max_instance w c + 1) inst) in *.
    destruct (instance_id o =? 0) eqn:Ei0.
    + apply Z.eqb_eq in Ei0.
      destruct (subclass_init_meta o w2) as [w3 r3] eqn:E3.
      pose proof (subclass_init_meta_spec _ _ _ _ E3)
        as (Hkeep & Hraise & Hsame & Htcp).
      assert (Hd' : forall k, k <> (class_id c, i) -> k <> (class_id c, 0) ->
                              directory w3 !! k = directory w !! k).
      { intros k Hk Hk0.
        rewrite (subclass_init_meta_directory_other o w2 w3 _ k E3)
          by (rewrite Hc, Hi; exact Hk).
        auto. }
      destruct r3 as [ [] | e3 ]; intros [= <- <-].
      * split; [ exact Hd' | split; [ | discriminate ] ].
        intros o' [= <-].
        split; [ exact Hn | ]. split; [ exact Hi | ]. split; [ exact Hc | ].
        split; [ apply Hkeep; exact H0 | ]. split.
        -- intros [Hne | Hne]; [ contradiction | ].
           rewrite (Hsame ltac:(congruence)). rewrite Hi. exact Hs.
        -- intros Ht _.
           destruct (Htcp eq_refl ltac:(congruence)) as (a & Ha & Hnm).
           rewrite Hc, Ei0 in Ha. exists a. auto.
      * split; [ exact Hd' | split; [ discriminate | ] ].
        intros e' [= <-]. right. apply Hraise. reflexivity.
    + apply Z.eqb_neq in Ei0. intros [= <- <-].
      split; [ exact Hd | split; [ | discriminate ] ].
      intros o' [= <-].
      split; [ exact Hn | ]. split; [ exact Hi | ]. split; [ exact Hc | ].
      split; [ exact H0 | ]. split.
      * intros _. rewrite Hi. exact Hs.
      * intros Ht H0w.
        destruct (HQ ltac:(congruence) H0w) as (x & Hx & Hx').
        destruct (Hx' Ht) as (a & -> & Hnm). exists a. auto.
  - intros [= <- <-].
    apply (Object_init_directory (fun _ => True)) in E as (Hd & _ & Hr).
    + split; [ exact Hd | split; [ discriminate | ] ].
      intros e' [= <-]. exact (Hr e eq_refl).
    + intros _ w0 n w1 r1 H0 Hm.
      destruct (construct_meta_directory c w0 n w1 r1 H0 Hm)
        as (Ha & Hb & Hc).
      split; [ exact Ha | split; [ | exact Hc ] ].
      intros Hr1. destruct (Hb Hr1) as (x & Hx & _). eauto.
Qed.

(** X13.  When the construction of an Object returns, the instance was not
    in the directory before; the directory then holds the instance 0 of the
    class, and holds the Object itself under its class and instance (the
    instance 0 of TCPIP apart); the entries of the other instances and
    classes are as they were. *)
Theorem construct_registers (c : pyclass) (w w' : world)
        (name : option string) (inst : option Z) (o : Object) :
  construct c w name inst = (w', Ok o) ->
  dir_lookup w (class_id c) (instance_id o) None = None
  /\ is_Some (dir_lookup w' (class_id c) 0 None)
  /\ (instance_id o <> 0 \/ c <> TCPIP ->
      dir_lookup w' (class_id c) (instance_id o) None = Some (EObject o))
  /\ forall k, k <> (class_id c, instance_id o) -> k <> (class_id c, 0) ->
               directory w' !! k = directory w !! k.
Proof.
  intros H. apply construct_directory in H as (Hd & Hok & _).
  destruct (Hok o eq_refl) as (Hn & Hi & _ & H0 & Hs & _).
  rewrite Hi. split; [ exact Hn | ]. split; [ exact H0 | ].
  split; [ rewrite <- Hi; exact Hs | exact Hd ].
Qed.

Lemma construct_registers_witness :
  dir_lookup (construct Message_Router no_world None None).1 2 1 None
  = Some (EObject router_1)
  /\ is_Some (dir_lookup (construct Message_Router no_world None None).1
                         2 0 None).
Proof.
  assert (H : construct Message_Router no_world None None
              = ((construct Message_Router no_world None None).1,
                 Ok router_1))
    by (apply pair_of_snd; vm_compute; reflexivity).
  destruct (construct_registers _ _ _ _ _ _ H) as (_ & H0 & Hs & _).
  split; [ apply Hs; left; discriminate | exact H0 ].
Defined.

(** X14.  The constructor of TCPIP stores the Revision of the class at the
    attribute 0 of the instance 0, which is where the directory keeps the
    Object: once a TCPIP Object is constructed in a directory without the
    class, the lookup of class 0xF5, instance 0 gives that Attribute, and the
    Max Instance of the class cannot be read. *)
Theorem tcpip_class_level_overwritten (w w' : world) (name : option string)
        (inst : option Z) (o : Object) :
  dir_lookup w 0xF5 0 None = None ->
  construct TCPIP w name inst = (w', Ok o) ->
  (exists a, dir_lookup w' 0xF5 0 None = Some (EAttribute a)
             /\ attr_name a = "Revision"%string)
  /\ computed_value w' (MaxInstance 0xF5) = Raise AttributeError
  /\ computed_value w' (NumInstances 0xF5) = Raise AttributeError.
Proof.
  intros H0 H. apply construct_directory in H as (_ & Hok & _).
  destruct (Hok o eq_refl) as (_ & _ & _ & _ & _ & Ht).
  destruct (Ht eq_refl H0) as (a & Ha & Hnm).
  split; [ eauto | ].
  unfold computed_value. change (class_id TCPIP) with 0xF5 in Ha.
  rewrite Ha. split; reflexivity.
Qed.

Lemma tcpip_class_level_overwritten_witness :
  computed_value (construct TCPIP no_world None None).1 (MaxInstance 0xF5)
  = Raise AttributeError.
Proof.
  assert (H : construct TCPIP no_world None None
              = ((construct TCPIP no_world None None).1,
                 Ok (mkObject TCPIP 1 "TCPIP")))
    by (apply pair_of_snd; vm_compute; reflexivity).
  exact (proj1 (proj2 (tcpip_class_level_overwritten no_world _ None None _
                         eq_refl H))).
Defined.

(** ** Automatic ids are free *)

Lemma counted_no_directory w :
  directory w = ∅ -> (forall c, 0 <= class_max_instance w c) -> counted w.
Proof.
  intros Hd Hc. split; [ exact Hc | ].
  intros c i [x Hx]. rewrite dir_lookup_object, Hd, lookup_empty in Hx.
  discriminate.
Qed.

Lemma construct_counted c w name inst w' r :
  counted w -> construct c w name inst = (w', r) -> counted w'.
Proof.
  intros [Hpos Hcnt] H.
  pose proof (construct_counters _ _ _ _ _ _ H) as (Hle & Hmax & _).
  pose proof (construct_directory _ _ _ _ _ _ H) as (Hd & _ & _).
  split.
  - intros c'. specialize (Hpos c'). specialize (Hle c'). lia.
  - intros c' i' Hs.
    destruct (decide ((class_id c', i')
                      = (class_id c,
                         default (class_max_instance w c + 1) inst)))
      as [[= Hc ->] | Hk].
    { apply class_id_inj in Hc. subst c'. exact Hmax. }
    destruct (decide ((class_id c', i') = (class_id c, 0)))
      as [[= Hc ->] | Hk0].
    { specialize (Hpos c'). specialize (Hle c'). lia. }
    rewrite (dir_lookup_other w w') in Hs by (apply Hd; assumption).
    specialize (Hcnt c' i' Hs). specialize (Hle c'). lia.
Qed.

Lemma perform_counted w op w' e :
  counted w -> perform w op = (w', e) -> counted w'.
Proof.
  intros Hc. destruct op as [c name inst | ]; cbn [perform].
  - destruct (construct c w name inst) as [w1 [o | x]] eqn:E;
      intros [= <- _]; eapply construct_counted; eauto.
  - intros [= <- _]. apply counted_no_directory; [ reflexivity | ].
    exact (proj1 Hc).
Qed.



(** ** Requests that fail, and Get Attributes All *)

Lemma Object_produce_failed
      (EPATH_produce : list term -> result (list Z)) (d : data) (s : Z) :
  s = GA_SNG_REQ \/ s = GA_ALL_REQ \/ s = SA_SNG_REQ ->
  service d = Some (Z.lor 0x80 s) ->
  status d = Some 0x08 -> status_ext d = None ->
  Object_produce EPATH_produce d = (d, Ok [Z.lor 0x80 s; 0; 8; 0]).
Proof.
  intros Hcase Hs Hst Hext.
  unfold Object_produce, service_for, produce_reply_head, produce_service,
    status_produce.
  rewrite Hs, Hst, Hext.
  destruct Hcase as [-> | [-> | ->]];
    destruct (get_attributes_all d), (get_attribute_single d),
      (set_attribute_single d); reflexivity.
Qed.

(** A recognized request whose service fails is answered all the same:
    service with the reply bit, status 0x08, no extended status, no data;
    the world is as it was. *)
Lemma Object_request_failed
      (EPATH_produce : list term -> result (list Z))
      (self : Object) (w : world) (d : data) (s : Z) (e : exn) :
  service d = Some s ->
  s = GA_SNG_REQ \/ s = GA_ALL_REQ \/ s = SA_SNG_REQ ->
  Object_service w self
    (set_service (Some (Z.lor 0x80 s))
       (set_status_ext None (set_status (Some 0x08) d))) = Raise e ->
  Object_request (Object_produce EPATH_produce) self w d
  = (w,
     set_input (Some [Z.lor 0x80 s; 0; 8; 0])
       (set_service (Some (Z.lor 0x80 s))
          (set_status_ext None (set_status (Some 0x08) d))),
     Ok true).
Proof.
  intros Hs Hcase Hfail. unfold Object_request.
  set (d0 := set_status_ext None (set_status (Some 8) d)) in *.
  assert (Hs0 : service d0 = Some s) by exact Hs.
  assert (Hrec : recognized d0 = Some d0).
  { unfold recognized. rewrite Hs0.
    destruct Hcase as [-> | [-> | ->]]; reflexivity. }
  rewrite Hrec, Hs0. cbn [fmap option_fmap option_map].
  rewrite Hfail.
  rewrite (Object_produce_failed EPATH_produce _ s Hcase);
    reflexivity.
Qed.

(** X16.  A Get or Set Attribute Single whose path names an attribute that
    the Object does not have, or one hidden by [MASK_GA_SNG], is answered
    with the status 0x08 and no data, and changes nothing: the mask named
    after Get Attribute Single hides the Attribute from Set Attribute
    Single as well. *)
Theorem attribute_not_available
        (EPATH_produce : list term -> result (list Z))
        (self : Object) (w : world) (d : data) (s : Z)
        (segment : list term) (t : term) (a_id : Z) :
  service d = Some s ->
  s = GA_SNG_REQ \/ s = SA_SNG_REQ ->
  path d = Some segment -> last segment = Some t ->
  t !! "attribute"%string = Some (VInt a_id) ->
  attributes_of w self !! a_id = None
  \/ (exists a, attributes_of w self !! a_id = Some (EAttribute a)
                /\ Z.land (attr_mask a) MASK_GA_SNG <> 0) ->
  Object_request (Object_produce EPATH_produce) self w d
  = (w,
     set_input (Some [Z.lor 0x80 s; 0; 8; 0])
       (set_service (Some (Z.lor 0x80 s))
          (set_status_ext None (set_status (Some 0x08) d))),
     Ok true).
Proof.
  intros Hs Hcase Hp Hl Ht Ha.
  apply (Object_request_failed EPATH_produce self w d s AssertionError Hs);
    [ tauto | ].
  set (d1 := set_service _ _).
  assert (Hloc : located_attribute w self d1 = Raise AssertionError).
  { unfold located_attribute.
    change (path d1) with (path d). rewrite Hp, Hl, Ht.
    cbn [directory_key].
    destruct Ha as [-> | (a & Ha & Hm)]; [ reflexivity | ].
    rewrite Ha. unfold attribute_at. rewrite Ha.
    cbn [mbind result_bind].
    apply Z.eqb_neq in Hm. rewrite Hm. reflexivity. }
  unfold Object_service. change (service d1) with (Some (Z.lor 0x80 s)).
  destruct Hcase as [-> | ->].
  - rewrite bool_decide_eq_false_2 by discriminate.
    rewrite bool_decide_eq_true_2 by reflexivity.
    rewrite Hloc. reflexivity.
  - rewrite !bool_decide_eq_false_2 by discriminate.
    rewrite bool_decide_eq_true_2 by reflexivity.
    rewrite Hloc. reflexivity.
Qed.

Lemma attribute_not_available_witness :
  Object_request (Object_produce EPATH_unused) identity_1 device set_missing
  = (device,
     set_input (Some [0x90; 0; 8; 0])
       (set_service (Some 0x90)
          (set_status_ext None (set_status (Some 0x08) set_missing))),
     Ok true).
Proof.
  apply (attribute_not_available EPATH_unused identity_1 device set_missing
           SA_SNG_REQ (identity_path ++ [ {["attribute"%string := VInt 99]} ])
           {[ "attribute"%string := VInt 99 ]} 99);
    [ reflexivity | right; reflexivity | reflexivity | reflexivity
    | reflexivity | left; vm_compute; reflexivity ].
Defined.

Lemma concat_le_bytes_1 (bs : list Z) :
  Forall (fun b => 0 <= b < 256) bs -> concat (le_bytes 1 <$> bs) = bs.
Proof.
  induction 1 as [ | b bs Hb _ IH ]; [ reflexivity | ].
  rewrite fmap_cons. cbn [concat]. rewrite IH.
  cbn [le_bytes app]. rewrite Z.mod_small by lia. reflexivity.
Qed.

Lemma typed_data_produce_bytes (bs : list Z) :
  Forall (fun b => 0 <= b < 256) bs ->
  typed_data_produce (Some (Dict (Some bs))) = Ok bs.
Proof.
  intros H. unfold typed_data_produce.
  rewrite pack_unsigned_join by exact H.
  rewrite concat_le_bytes_1 by exact H. reflexivity.
Qed.

(** The loop of Get Attributes All over the attributes 1, 2, ... up to the
    first id that is missing. *)
Lemma get_attributes_all_loop_run w self attrs : forall f a_id,
  (length attrs <= f)%nat ->
  (forall j a, attrs !! j = Some a ->
               attributes_of w self !! (a_id + Z.of_nat j)
               = Some (EAttribute a)) ->
  attributes_of w self !! (a_id + Z.of_nat (length attrs)) = None ->
  get_attributes_all_loop f w self a_id = produce_unmasked w attrs.
Proof.
  induction attrs as [ | a attrs IH ]; intros f a_id Hf Hat Hend.
  - cbn [length] in Hend. rewrite Z.add_0_r in Hend.
    destruct f; cbn [get_attributes_all_loop produce_unmasked];
      [ | rewrite Hend ]; reflexivity.
  - destruct f as [ | f ]; [ cbn [length] in Hf; lia | ].
    cbn [get_attributes_all_loop produce_unmasked].
    pose proof (Hat 0%nat a eq_refl) as H0. rewrite Z.add_0_r in H0.
    rewrite H0. unfold attribute_at. rewrite H0. cbn [mbind result_bind].
    rewrite (IH f (a_id + 1)).
    + reflexivity.
    + cbn [length] in Hf. lia.
    + intros j b Hj. specialize (Hat (S j) b Hj).
      rewrite <- Hat. f_equal. lia.
    + rewrite <- Hend. f_equal. cbn [length]. lia.
Qed.

Lemma Object_produce_get_attributes_all_reply
      (EPATH_produce : list term -> result (list Z)) (d : data)
      (bs : list Z) :
  service d = Some GA_ALL_RPY ->
  status d = Some 0 -> status_ext d = None ->
  get_attributes_all d = Some (Dict (Some bs)) ->
  Forall (fun b => 0 <= b < 256) bs ->
  Object_produce EPATH_produce d = (d, Ok ([0x81; 0; 0; 0] ++ bs)).
Proof.
  intros Hs Hst Hext Hga Hbs.
  unfold Object_produce, service_for, produce_reply_head, produce_service,
    status_produce.
  rewrite Hs, Hst, Hext, Hga, (typed_data_produce_bytes bs Hbs).
  destruct (get_attribute_single d), (set_attribute_single d); reflexivity.
Qed.

(** X17.  Get Attributes All answers with the renderings of the attributes
    1, 2, ... of the Object, up to the first id that is missing and without
    those that [MASK_GA_ALL] hides, after the bytes 0x81, 0, 0, 0; when
    there is nothing to render, or a rendering fails, it answers with the
    status 0x08 and no data.  The world is as it was. *)
Theorem get_attributes_all_reply
        (EPATH_produce : list term -> result (list Z))
        (self : Object) (w : world) (d : data) (attrs : list Attribute) :
  service d = Some GA_ALL_REQ ->
  (forall j a, attrs !! j = Some a ->
               attributes_of w self !! (1 + Z.of_nat j)
               = Some (EAttribute a)) ->
  attributes_of w self !! (1 + Z.of_nat (length attrs)) = None ->
  (forall bs, produce_unmasked w attrs = Ok bs ->
              Forall (fun b => 0 <= b < 256) bs) ->
  Object_request (Object_produce EPATH_produce) self w d
  = match produce_unmasked w attrs with
    | Ok (b :: bs) =>
        (w,
         set_input (Some ([0x81; 0; 0; 0] ++ b :: bs))
           (set_status_ext None (set_status (Some 0)
              (set_get_attributes_all (Some (Dict (Some (b :: bs))))
                 (set_service (Some GA_ALL_RPY)
                    (set_status_ext None (set_status (Some 0x08) d)))))),
         Ok true)
    | _ =>
        (w,
         set_input (Some [0x81; 0; 8; 0])
           (set_service (Some GA_ALL_RPY)
              (set_status_ext None (set_status (Some 0x08) d))),
         Ok true)
    end.
Proof.
  intros Hs Hat Hend Hbytes.
  set (d1 := set_service (Some GA_ALL_RPY)
               (set_status_ext None (set_status (Some 8) d))).
  assert (Hloop : get_attributes_all_loop (size (attributes_of w self))
                                          w self 1
                  = produce_unmasked w attrs).
  { rewrite <- (get_attributes_all_loop_fuel w self (length attrs)).
    apply get_attributes_all_loop_run; [ lia | exact Hat | exact Hend ]. }
  assert (Hserv : Object_service w self d1
                  = match produce_unmasked w attrs with
                    | Ok (b :: bs) =>
                        Ok (w, set_get_attributes_all
                                 (Some (Dict (Some (b :: bs)))) d1)
                    | Ok [] => Raise AssertionError
                    | Raise e => Raise e
                    end).
  { unfold Object_service. change (service d1) with (Some GA_ALL_RPY).
    rewrite bool_decide_eq_true_2 by reflexivity. rewrite Hloop.
    destruct (produce_unmasked w attrs) as [[ | b bs] | e]; reflexivity. }
  destruct (produce_unmasked w attrs) as [[ | b bs] | e] eqn:Ep.
  - apply (Object_request_failed EPATH_produce self w d GA_ALL_REQ
             AssertionError Hs); [ tauto | exact Hserv ].
  - unfold Object_request.
    set (d0 := set_status_ext None (set_status (Some 8) d)) in *.
    assert (Hs0 : service d0 = Some GA_ALL_REQ) by exact Hs.
    assert (Hrec : recognized d0 = Some d0)
      by (unfold recognized; rewrite Hs0; reflexivity).
    rewrite Hrec, Hs0. cbn [fmap option_fmap option_map].
    change (set_service (Some (Z.lor 128 GA_ALL_REQ)) d0) with d1.
    rewrite Hserv.
    rewrite (Object_produce_get_attributes_all_reply EPATH_produce _ (b :: bs));
      [ reflexivity | reflexivity | reflexivity | reflexivity | reflexivity
      | apply Hbytes; reflexivity ].
  - apply (Object_request_failed EPATH_produce self w d GA_ALL_REQ e Hs);
      [ tauto | exact Hserv ].
Qed.

Lemma get_attributes_all_reply_witness :
  Object_request (Object_produce EPATH_unused) identity_1 device get_all
  = (device,
     set_input (Some [0x81; 0; 0; 0; 1; 0])
       (set_status_ext None (set_status (Some 0)
          (set_get_attributes_all (Some (Dict (Some [1; 0])))
             (set_service (Some GA_ALL_RPY)
                (set_status_ext None (set_status (Some 0x08) get_all)))))),
     Ok true).
Proof.
  apply (get_attributes_all_reply EPATH_unused identity_1 device get_all
           [Attribute_init "Vendor Number" INT (Scalar (VInt 1))]).
  - reflexivity.
  - intros [ | j ] a; [ intros [= <-]; reflexivity | discriminate ].
  - reflexivity.
  - intros bs H. vm_compute in H. injection H as <-.
    repeat constructor; lia.
Defined.

(** ** Set Attribute Single, then Get Attribute Single *)

Lemma chunks_spec (P : Z -> Prop) (siz : nat) :
  (0 < siz)%nat ->
  forall k n (bs : list Z),
    length bs = (siz * k)%nat -> (k <= n)%nat -> Forall P bs ->
    length (chunks n siz bs) = k
    /\ Forall (fun c => length c = siz /\ Forall P c) (chunks n siz bs)
    /\ concat (chunks n siz bs) = bs.
Proof.
  intros Hsiz. induction k as [ | k IH ]; intros n bs Hlen Hn HP.
  - rewrite Nat.mul_0_r in Hlen. apply nil_length_inv in Hlen. subst bs.
    destruct n; cbn [chunks]; auto.
  - destruct n as [ | n ]; [ lia | ].
    destruct bs as [ | b bs ]; [ cbn [length] in Hlen; lia | ].
    cbn [chunks].
    destruct (IH n (drop siz (b :: bs))) as (Hk & Hall & Hcat).
    + rewrite length_drop, Hlen. lia.
    + lia.
    + apply Forall_drop. exact HP.
    + split; [ cbn [length]; rewrite Hk; reflexivity | ].
      split.
      * constructor; [ | exact Hall ].
        split; [ rewrite length_take, Hlen; lia | ].
        apply Forall_take. exact HP.
      * cbn [concat]. rewrite Hcat. apply take_drop.
Qed.

Lemma unpack_all_join (p : codec) (siz : nat) (cs : list (list Z)) :
  (forall c, length c = siz -> Forall (fun b => 0 <= b < 256) c ->
             exists v, struct_unpack p c = Ok v
                       /\ produce_value p v = Ok c) ->
  Forall (fun c => length c = siz /\ Forall (fun b => 0 <= b < 256) c) cs ->
  exists val, unpack_all (struct_unpack p) cs = Ok val
              /\ length val = length cs
              /\ join_produce (produce_value p) val = Ok (concat cs).
Proof.
  intros Hcodec. induction 1 as [ | c cs [Hc Hr] _ (val & Hu & Hl & Hj) ].
  - exists []. auto.
  - destruct (Hcodec c Hc Hr) as (v & Hv & Hp).
    exists (v :: val). cbn [unpack_all join_produce length concat].
    rewrite Hv, Hu, Hp, Hj, Hl. auto.
Qed.

Lemma attributes_of_set_attribute self a_id e w :
  attributes_of (set_attribute self a_id e w) self !! a_id = Some e.
Proof.
  unfold attributes_of, set_attribute. cbn [directory set_directory].
  rewrite lookup_insert_eq. cbn [from_option id]. apply lookup_insert_eq.
Qed.

Lemma located_attribute_found w self d segment t a_id a :
  path d = Some segment -> last segment = Some t ->
  t !! "attribute"%string = Some (VInt a_id) ->
  attributes_of w self !! a_id = Some (EAttribute a) ->
  Z.land (attr_mask a) MASK_GA_SNG = 0 ->
  located_attribute w self d = Ok (a_id, a).
Proof.
  intros Hp Hl Ht Ha Hm. unfold located_attribute, attribute_at.
  rewrite Hp, Hl, Ht. cbn [directory_key].
  rewrite Ha. cbn [mbind result_bind]. rewrite Hm. reflexivity.
Qed.

Lemma Object_produce_set_reply
      (EPATH_produce : list term -> result (list Z)) (d : data) :
  service d = Some SA_SNG_RPY -> status d = Some 0 -> status_ext d = None ->
  Object_produce EPATH_produce d = (d, Ok [0x90; 0; 0; 0]).
Proof.
  intros Hs Hst Hext.
  unfold Object_produce, service_for, produce_reply_head, produce_service,
    status_produce.
  rewrite Hs, Hst, Hext.
  destruct (get_attributes_all d), (get_attribute_single d),
    (set_attribute_single d); reflexivity.
Qed.

Lemma Object_produce_get_reply
      (EPATH_produce : list term -> result (list Z)) (d : data)
      (bs : list Z) :
  service d = Some GA_SNG_RPY -> status d = Some 0 -> status_ext d = None ->
  get_attribute_single d = Some (Dict (Some bs)) ->
  Forall (fun b => 0 <= b < 256) bs ->
  Object_produce EPATH_produce d = (d, Ok ([0x8E; 0; 0; 0] ++ bs)).
Proof.
  intros Hs Hst Hext Hga Hbs.
  unfold Object_produce, service_for, produce_reply_head, produce_service,
    status_produce.
  rewrite Hs, Hst, Hext, Hga, (typed_data_produce_bytes bs Hbs).
  destruct (get_attributes_all d), (set_attribute_single d); reflexivity.
Qed.

(** A recognized request whose service succeeds: the status 0, and the
    reply that [produce] makes of the data. *)
Lemma Object_request_served
      (EPATH_produce : list term -> result (list Z))
      (self : Object) (w w' : world) (d d' : data) (s : Z) (out : list Z) :
  service d = Some s ->
  s = GA_SNG_REQ \/ s = GA_ALL_REQ \/ s = SA_SNG_REQ ->
  Object_service w self
    (set_service (Some (Z.lor 0x80 s))
       (set_status_ext None (set_status (Some 0x08) d))) = Ok (w', d') ->
  Object_produce EPATH_produce (set_status_ext None (set_status (Some 0) d'))
  = (set_status_ext None (set_status (Some 0) d'), Ok out) ->
  Object_request (Object_produce EPATH_produce) self w d
  = (w', set_input (Some out) (set_status_ext None (set_status (Some 0) d')),
     Ok true).
Proof.
  intros Hs Hcase Hserv Hprod. unfold Object_request.
  set (d0 := set_status_ext None (set_status (Some 8) d)) in *.
  assert (Hs0 : service d0 = Some s) by exact Hs.
  assert (Hrec : recognized d0 = Some d0).
  { unfold recognized. rewrite Hs0.
    destruct Hcase as [-> | [-> | ->]]; reflexivity. }
  rewrite Hrec, Hs0. cbn [fmap option_fmap option_map].
  rewrite Hserv, Hprod. reflexivity.
Qed.

(** X18.  Set Attribute Single, then Get Attribute Single.  On an array
    Attribute whose parser reads back what it renders, a Set Attribute
    Single with as many bytes as the elements take is answered with 0x90,
    0, 0, 0 and replaces the Attribute of the Object; a Get Attribute Single
    of the same attribute is then answered with 0x8E, 0, 0, 0 and the bytes
    that were written. *)
Theorem set_then_get_attribute_single
        (EPATH_produce : list term -> result (list Z))
        (self : Object) (w : world) (dset dget : data)
        (segment : list term) (t : term) (a_id : Z) (a : Attribute)
        (l : list pyval) (bs : list Z) :
  service dset = Some SA_SNG_REQ -> service dget = Some GA_SNG_REQ ->
  path dset = Some segment -> path dget = Some segment ->
  last segment = Some t -> t !! "attribute"%string = Some (VInt a_id) ->
  set_attribute_single dset = Some (Dict (Some bs)) ->
  attributes_of w self !! a_id = Some (EAttribute a) ->
  Z.land (attr_mask a) MASK_GA_SNG = 0 ->
  attr_default a = Vector l -> l <> [] ->
  0 < struct_calcsize (attr_parser a) ->
  Z.of_nat (length bs) = struct_calcsize (attr_parser a) * Z.of_nat (length l) ->
  Forall (fun b => 0 <= b < 256) bs ->
  (forall c, Z.of_nat (length c) = struct_calcsize (attr_parser a) ->
             Forall (fun b => 0 <= b < 256) c ->
             exists v, struct_unpack (attr_parser a) c = Ok v
                       /\ produce_value (attr_parser a) v = Ok c) ->
  exists w' d' d'',
    Object_request (Object_produce EPATH_produce) self w dset
    = (w', d', Ok true)
    /\ input d' = Some [0x90; 0; 0; 0] /\ status d' = Some 0
    /\ Object_request (Object_produce EPATH_produce) self w' dget
       = (w', d'', Ok true)
    /\ input d'' = Some ([0x8E; 0; 0; 0] ++ bs) /\ status d'' = Some 0.
Proof.
  intros Hss Hsg Hps Hpg Hl Ht Hctx Ha Hm Hv Hne Hsiz Hlen Hbs Hcodec.
  set (p := attr_parser a) in *.
  set (siz := Z.to_nat (struct_calcsize p)).
  assert (Hsz : struct_calcsize p = Z.of_nat siz) by (subst siz; lia).
  pose proof (Attribute_len_vector a l Hv) as Hal.
  assert (Hl1 : (0 < length l)%nat) by (destruct l; [ congruence | cbn; lia ]).
  destruct (chunks_spec (fun b => 0 <= b < 256) siz ltac:(lia)
              (length l) (length bs) bs) as (Hk & Hall & Hcat);
    [ nia | nia | exact Hbs | ].
  destruct (unpack_all_join p siz (chunks (length bs) siz bs))
    as (val & Hu & Hvl & Hj);
    [ intros c Hc Hr; apply Hcodec; [ lia | exact Hr ] | exact Hall | ].
  rewrite Hcat in Hj. rewrite Hk in Hvl.
  set (a' := set_default (Vector val) a).
  set (w' := set_attribute self a_id (EAttribute a') w).
  (* the assignment [att[:] = val] *)
  assert (Hset : Attribute_setitem a (SetSlice None None None val) = Ok a').
  { unfold Attribute_setitem. rewrite Hv. cbn [assignment_key].
    unfold Attribute_validate_key, slice_indices. rewrite Hal.
    cbn [from_option id].
    change (1 =? 0) with false. change (1 <? 0) with false. cbv iota.
    cbn [mbind result_bind]. change (1 =? 1) with true.
    replace (0 <? Z.of_nat (length l)) with true by lia.
    rewrite Z.leb_refl, bool_decide_eq_true_2 by (right; reflexivity).
    cbn [andb]. unfold list_set_slice.
    rewrite Z.max_r by lia. rewrite Nat2Z.id, drop_all, app_nil_r.
    reflexivity. }
  (* the service of Set Attribute Single *)
  set (ds := set_service (Some (Z.lor 0x80 SA_SNG_REQ))
               (set_status_ext None (set_status (Some 8) dset))).
  assert (Hserv : Object_service w self ds = Ok (w', ds)).
  { unfold Object_service. change (service ds) with (Some SA_SNG_RPY).
    rewrite !bool_decide_eq_false_2 by discriminate.
    rewrite bool_decide_eq_true_2 by reflexivity.
    rewrite (located_attribute_found w self ds segment t a_id a Hps Hl Ht Ha Hm).
    cbn [mbind result_bind].
    change (set_attribute_single ds) with (set_attribute_single dset).
    rewrite Hctx. cbn [mbind option_bind ctx_data]. fold p.
    rewrite Hal.
    replace (Z.of_nat (length bs) =? struct_calcsize p * Z.of_nat (length l))
      with true by lia.
    cbn [assert mbind result_bind].
    replace (forallb (fun b => (0 <=? b) && (b <? 256)) bs) with true.
    2: { symmetry. apply forallb_forall. intros b Hb.
         rewrite Forall_forall in Hbs. apply list_elem_of_In in Hb.
         specialize (Hbs b Hb). lia. }
    cbn [mbind result_bind].
    replace (struct_calcsize p =? 0) with false by lia.
    replace (struct_calcsize p <? 0) with false by lia.
    cbn [mbind result_bind]. fold siz. rewrite Hu.
    cbn [mbind result_bind]. rewrite Hset. reflexivity. }
  (* the service of Get Attribute Single, afterwards *)
  assert (Hal' : Attribute_len a' = Z.of_nat (length l))
    by (unfold Attribute_len; cbn [a' attr_default set_default]; lia).
  assert (Hprod : Attribute_produce w' a' 0 None = Ok bs).
  { unfold Attribute_produce. cbn [from_option id]. rewrite Hal'.
    rewrite (getitem_slice_vector w' a' val 0 (Z.of_nat (length l)));
      [ | reflexivity | lia | lia ].
    rewrite Z.sub_0_r, Nat2Z.id. change (Z.to_nat 0) with 0%nat.
    rewrite drop_0, <- Hvl, firstn_all. exact Hj. }
  set (dg := set_service (Some (Z.lor 0x80 GA_SNG_REQ))
               (set_status_ext None (set_status (Some 8) dget))).
  assert (Hget : Object_service w' self dg
                 = Ok (w', set_get_attribute_single
                             (Some (Dict (Some bs))) dg)).
  { unfold Object_service. change (service dg) with (Some GA_SNG_RPY).
    rewrite bool_decide_eq_false_2 by discriminate.
    rewrite bool_decide_eq_true_2 by reflexivity.
    rewrite (located_attribute_found w' self dg segment t a_id a' Hpg Hl Ht);
      [ | apply attributes_of_set_attribute | exact Hm ].
    cbn [mbind result_bind]. rewrite Hprod. reflexivity. }
  exists w'. eexists. eexists. split; [ | split; [ | split; [ | split; [ | split ] ] ] ].
  - apply (Object_request_served EPATH_produce self w w' dset ds SA_SNG_REQ
             [0x90; 0; 0; 0] Hss); [ tauto | exact Hserv | ].
    apply Object_produce_set_reply; reflexivity.
  - reflexivity.
  - reflexivity.
  - apply (Object_request_served EPATH_produce self w' w' dget
             (set_get_attribute_single (Some (Dict (Some bs))) dg) GA_SNG_REQ
             ([0x8E; 0; 0; 0] ++ bs) Hsg); [ tauto | exact Hget | ].
    apply Object_produce_get_reply; try reflexivity. exact Hbs.
  - reflexivity.
  - reflexivity.
Qed.

Lemma le_value_range (c : list Z) :
  Forall (fun b => 0 <= b < 256) c ->
  0 <= le_value c < 256 ^ Z.of_nat (length c).
Proof.
  induction 1 as [ | b c Hb _ IH ]; [ cbn; lia | ].
  cbn [le_value length]. rewrite Nat2Z.inj_succ, Z.pow_succ_r by lia. nia.
Qed.

Lemma le_bytes_le_value (c : list Z) :
  Forall (fun b => 0 <= b < 256) c -> le_bytes (length c) (le_value c) = c.
Proof.
  induction 1 as [ | b c Hb _ IH ]; [ reflexivity | ].
  cbn [le_value length le_bytes].
  rewrite (Z.mul_comm 256).
  rewrite Z.mod_add, Z.div_add by lia.
  rewrite Z.mod_small, Z.div_small, Z.add_0_l, IH by lia. reflexivity.
Qed.

(** The unsigned types read back what they render. *)
Lemma unsigned_codec_round_trip (nm : string) (n : nat) (c : list Z) :
  length c = n -> Forall (fun b => 0 <= b < 256) c ->
  exists v, struct_unpack (unsigned_codec nm n) c = Ok v
            /\ produce_value (unsigned_codec nm n) v = Ok c.
Proof.
  intros Hn Hr. exists (VInt (le_value c)).
  cbn [struct_unpack produce_value unsigned_codec]. unfold unpack_unsigned.
  rewrite Hn, Nat.eqb_refl. split; [ reflexivity | ].
  pose proof (le_value_range c Hr) as Hv. rewrite Hn in Hv.
  rewrite pack_unsigned_in_range by exact Hv.
  rewrite <- Hn at 1. rewrite le_bytes_le_value by exact Hr. reflexivity.
Qed.

Lemma set_then_get_attribute_single_witness :
  exists w' d' d'',
    Object_request (Object_produce EPATH_unused) identity_1 samples_device
                   set_samples = (w', d', Ok true)
    /\ input d' = Some [0x90; 0; 0; 0] /\ status d' = Some 0
    /\ Object_request (Object_produce EPATH_unused) identity_1 w' get_samples
       = (w', d'', Ok true)
    /\ input d'' = Some ([0x8E; 0; 0; 0] ++ [7; 9]) /\ status d'' = Some 0.
Proof.
  apply (set_then_get_attribute_single EPATH_unused identity_1 samples_device
           set_samples get_samples samples_path
           {[ "attribute"%string := VInt 2 ]} 2
           (Attribute_init "Samples" USINT (Vector [VInt 10; VInt 20]))
           [VInt 10; VInt 20] [7; 9]);
    try reflexivity.
  - discriminate.
  - repeat constructor; lia.
  - intros c Hc Hr.
    apply (unsigned_codec_round_trip "USINT" 1 c); [ | exact Hr ].
    cbn [struct_calcsize attr_parser Attribute_init USINT unsigned_codec] in Hc.
    lia.
Defined.

(** ** The Multiple Service Packet: a path that leads nowhere, and the
    payload read back *)

(** X19.  A Multiple Service Packet whose own path does not resolve is
    answered by the Message Router with the status 0x16 and no data; none
    of its sub-requests is handed to any Object, and nothing changes. *)
Theorem multiple_invalid_path
        (EPATH_produce EPATH_padded_produce : list term -> result (list Z))
        (directory_get : gmap (Z * Z) (gmap Z entry) -> string -> found)
        (self : Object) (w : world) (d : data) (rs : list data)
        (segment : list term) (e : exn) :
  obj_cls self = Message_Router ->
  multiple d = Some rs ->
  service d = None \/ service d = Some MULTIPLE_REQ ->
  status_ext d = None ->
  path d = Some segment ->
  resolve (symbol w) segment false = Raise e ->
  exists d',
    request EPATH_produce EPATH_padded_produce directory_get self w d
    = (w, d', Ok true)
    /\ service d' = Some MULTIPLE_RPY /\ status d' = Some 0x16
    /\ input d' = Some [0x8A; 0; 0x16; 0]
    /\ multiple d' = Some rs.
Proof.
  intros Hc Hm Hsv Hse Hp Hres.
  rewrite request_Message_Router by exact Hc.
  unfold Message_Router_request. rewrite Hm.
  assert (H0 : exists d0, service_for (Some rs) MULTIPLE_REQ d = Some d0
                          /\ service d0 = Some MULTIPLE_REQ
                          /\ path d0 = path d /\ multiple d0 = Some rs
                          /\ status_ext d0 = None).
  { unfold service_for. destruct Hsv as [Hsv | Hsv]; rewrite Hsv.
    - eexists. split; [ reflexivity | ]. repeat split; assumption.
    - rewrite Z.eqb_refl. eexists. split; [ reflexivity | ]. auto. }
  destruct H0 as (d0 & -> & Hs0 & Hp0 & Hm0 & Hse0).
  unfold Message_Router_multiple.
  set (d2 := set_status (Some 22) (set_service (Z.lor 128 <$> service d0) d0)).
  assert (Hs2 : service d2 = Some MULTIPLE_RPY)
    by (unfold d2; cbn [service set_status set_service]; rewrite Hs0;
        reflexivity).
  rewrite (route_path_only directory_get self w d d2) by exact Hp0.
  unfold Message_Router_route. rewrite Hp, Hres.
  change (ROUTE_RAISE =? ROUTE_FALSE) with false. cbv iota.
  rewrite (produce_multiple_reply EPATH_produce d2 rs 22);
    [ | exact Hs2 | exact Hm0 | reflexivity | exact Hse0 | lia ].
  change (22 =? 0) with false. cbv iota.
  eexists. split; [ reflexivity | ].
  split; [ exact Hs2 | ]. split; [ reflexivity | ].
  split; [ reflexivity | exact Hm0 ].
Qed.

Lemma multiple_invalid_path_witness :
  exists d',
    request EPATH_unused EPATH_unused directory_unused router_1 device
            lost_packet
    = (device, d', Ok true)
    /\ service d' = Some MULTIPLE_RPY /\ status d' = Some 0x16
    /\ input d' = Some [0x8A; 0; 0x16; 0]
    /\ multiple d' = Some [get_vendor].
Proof.
  apply (multiple_invalid_path EPATH_unused EPATH_unused directory_unused
           router_1 device
           lost_packet [get_vendor]
           [ {["symbolic"%string := VStr "nowhere"]} ] AssertionError);
    [ reflexivity | reflexivity | right; reflexivity | reflexivity
    | reflexivity | vm_compute; reflexivity ].
Defined.

Lemma sum_Z_app (xs ys : list Z) : sum_Z (xs ++ ys) = sum_Z xs + sum_Z ys.
Proof.
  unfold sum_Z. induction xs as [ | x xs IH ]; cbn [app foldr]; lia.
Qed.

Lemma sum_Z_nonneg (l : list Z) :
  Forall (fun x => 0 <= x) l -> 0 <= sum_Z l.
Proof.
  unfold sum_Z. induction 1 as [ | x l Hx _ IH ]; cbn [foldr]; lia.
Qed.

Lemma lengths_of_nonneg (msgs : list (list Z)) :
  Forall (fun x => 0 <= x) (lengths_of msgs).
Proof.
  unfold lengths_of. apply Forall_fmap, Forall_forall. intros m _.
  cbn. lia.
Qed.

Lemma offsets_from_lookup lengths : forall first i,
  (i < length lengths)%nat ->
  offsets_from first lengths !! i = Some (first + sum_Z (take i lengths)).
Proof.
  induction lengths as [ | l rest IH ]; intros first i Hi;
    [ cbn [length] in Hi; lia | ].
  destruct i as [ | i ]; cbn [offsets_from take].
  - unfold sum_Z. cbn. f_equal. lia.
  - cbn [lookup list_lookup]. rewrite IH by (cbn [length] in Hi; lia).
    unfold sum_Z. cbn [foldr]. f_equal. lia.
Qed.

Lemma concat_snippet (msgs : list (list Z)) : forall i m,
  msgs !! i = Some m ->
  take (length m)
       (drop (Z.to_nat (sum_Z (take i (lengths_of msgs)))) (concat msgs))
  = m.
Proof.
  induction msgs as [ | x rest IH ]; intros i m Hm;
    [ rewrite lookup_nil in Hm; discriminate | ].
  destruct i as [ | i ].
  - injection Hm as ->. cbn [take concat]. unfold sum_Z. cbn [foldr].
    change (Z.to_nat 0) with 0%nat. rewrite drop_0.
    apply take_app_length.
  - cbn [lookup list_lookup] in Hm. specialize (IH i m Hm).
    unfold lengths_of in *. rewrite fmap_cons. cbn [take concat].
    pose proof (sum_Z_nonneg _ (Forall_take _ i _ (lengths_of_nonneg rest)))
      as Hpos.
    unfold lengths_of in Hpos.
    unfold sum_Z in *. cbn [foldr].
    rewrite Z2Nat.inj_add, Nat2Z.id by lia.
    rewrite drop_app_add'; [ exact IH | reflexivity ].
Qed.

Lemma py_slice_within {A} (l : list A) (b e : Z) :
  0 <= b <= e -> e <= Z.of_nat (length l) ->
  py_slice l b e = take (Z.to_nat (e - b)) (drop (Z.to_nat b) l).
Proof.
  intros Hb He. unfold py_slice.
  rewrite slice_indices_plain by lia. unfold list_slice.
  rewrite !Z.min_l by lia. reflexivity.
Qed.

(** X20.  The payload that [Message_Router.produce] writes is read back by
    the parser of the Multiple Service Packet as it was written: with the
    offsets and the data that [produce] makes of any list of encoded
    messages, the closure hands the parser these messages, one per offset,
    in the same order. *)
Theorem multiple_snippets_of_produced (msgs : list (list Z)) :
  multiple_snippets
    ((fun o => 2 + 2 * Z.of_nat (length (offsets_payload msgs).1) + o)
       <$> (offsets_payload msgs).1)
    (offsets_payload msgs).2
  = msgs.
Proof.
  rewrite offsets_payload_spec. cbn [fst snd].
  set (ls := lengths_of msgs).
  assert (Hn : length (offsets_from 0 ls) = length msgs)
    by (rewrite length_offsets_from; subst ls; unfold lengths_of;
        apply length_fmap).
  rewrite Hn. unfold multiple_snippets. rewrite length_fmap, Hn.
  set (n := Z.of_nat (length msgs)).
  apply list_eq. intros i. rewrite list_lookup_fmap.
  destruct (msgs !! i) as [m | ] eqn:Hm.
  2: { apply lookup_ge_None in Hm.
       rewrite (proj2 (lookup_ge_None _ _));
         [ reflexivity | rewrite length_seq; lia ]. }
  pose proof (lookup_lt_Some _ _ _ Hm) as Hi.
  rewrite lookup_seq_lt by exact Hi. cbn [fmap option_fmap option_map plus].
  f_equal.
  assert (Hls : length ls = length msgs)
    by (subst ls; unfold lengths_of; apply length_fmap).
  assert (Hl : ls !! i = Some (Z.of_nat (length m)))
    by (subst ls; unfold lengths_of; rewrite list_lookup_fmap, Hm;
        reflexivity).
  assert (Hnext : sum_Z (take (S i) ls)
                  = sum_Z (take i ls) + Z.of_nat (length m)).
  { rewrite (take_S_r _ _ _ Hl), sum_Z_app. unfold sum_Z. cbn [foldr]. lia. }
  pose proof (sum_Z_nonneg _ (Forall_take _ i _ (lengths_of_nonneg msgs)))
    as Hpos.
  fold ls in Hpos.
  assert (Htot : sum_Z (take (S i) ls) <= Z.of_nat (length (concat msgs))).
  { rewrite length_concat_sum. fold ls.
    rewrite <- (take_drop (S i) ls) at 2. rewrite sum_Z_app.
    pose proof (sum_Z_nonneg _ (Forall_drop _ (S i) _ (lengths_of_nonneg msgs)))
      as Hrest.
    fold ls in Hrest. lia. }
  assert (Hbeg : default 0 (((fun o => 2 + 2 * n + o) <$> offsets_from 0 ls)
                              !! i)
                 - (2 + 2 * n) = sum_Z (take i ls)).
  { rewrite list_lookup_fmap, offsets_from_lookup by lia.
    cbn [fmap option_fmap option_map from_option id]. lia. }
  assert (Hend : (if Z.of_nat i <? n - 1
                  then default 0 (((fun o => 2 + 2 * n + o)
                                     <$> offsets_from 0 ls) !! S i)
                       - (2 + 2 * n)
                  else Z.of_nat (length (concat msgs)))
                 = sum_Z (take (S i) ls)).
  { destruct (Z.ltb_spec (Z.of_nat i) (n - 1)) as [Hlt | Hge].
    - rewrite list_lookup_fmap, offsets_from_lookup by (subst n; lia).
      cbn [fmap option_fmap option_map from_option id]. lia.
    - rewrite length_concat_sum. fold ls.
      rewrite take_ge by (subst n; lia). reflexivity. }
  rewrite Hbeg, Hend.
  rewrite py_slice_within by lia.
  rewrite Hnext.
  replace (sum_Z (take i ls) + Z.of_nat (length m) - sum_Z (take i ls))
    with (Z.of_nat (length m)) by lia.
  rewrite Nat2Z.id. apply concat_snippet. exact Hm.
Qed.

(** ** The replies of the Connection Manager on the wire *)

Lemma USINT_produce_byte (z : Z) :
  USINT_produce z = if (0 <=? z) && (z <? 256) then Ok [z]
                    else Raise StructError.
Proof.
  unfold USINT_produce, pack_unsigned. change (256 ^ Z.of_nat 1) with 256.
  destruct ((0 <=? z) && (z <? 256)) eqn:E; [ | reflexivity ].
  cbn [le_bytes]. rewrite Z.mod_small by lia. reflexivity.
Qed.

Lemma produce_application_bytes (a : option application) :
  let bs := default [] (app_data (default (mkApplication None None None) a)) in
  let padded := if Nat.odd (length bs) then bs ++ [0] else bs in
  let size := Z.of_nat (length padded) / 2 in
  Forall (fun b => 0 <= b < 256) bs ->
  (produce_application a).2
  = (if size <? 256 then Ok ([size; 0] ++ padded) else Raise StructError)
  /\ Z.of_nat (length padded) = 2 * size.
Proof.
  intros bs padded size Hbs. unfold produce_application.
  assert (Hdef : default [] (app_data (default (mkApplication None None None)
                                               a)) = bs) by reflexivity.
  clearbody bs. rewrite Hdef.
  assert (Heven : Z.of_nat (length padded) = 2 * size).
  { subst size padded. destruct (Nat.odd (length bs)) eqn:Eo.
    - rewrite length_app. cbn [length].
      apply Nat.odd_spec in Eo as [k Hk]. rewrite Hk.
      replace (Z.of_nat (2 * k + 1 + 1)) with (2 * (Z.of_nat k + 1)) by lia.
      rewrite Z.mul_comm, Z.div_mul by lia. lia.
    - assert (He : Nat.even (length bs) = true)
        by (rewrite <- Nat.negb_odd, Eo; reflexivity).
      apply Nat.even_spec in He as [k Hk]. rewrite Hk.
      replace (Z.of_nat (2 * k)) with (2 * Z.of_nat k) by lia.
      rewrite Z.mul_comm, Z.div_mul by lia. lia. }
  split; [ | exact Heven ].
  destruct bs as [ | b bs' ].
  - reflexivity.
  - set (bs := b :: bs') in *.
    rewrite (typed_data_produce_bytes bs Hbs).
    fold padded. fold size. cbn [snd].
    rewrite USINT_produce_byte.
    assert (Hpos : 0 < size).
    { assert (0 < Z.of_nat (length padded)); [ | lia ].
      subst padded. destruct (Nat.odd (length bs));
        rewrite ?length_app; subst bs; cbn [length]; lia. }
    replace (0 <=? size) with true by lia. cbn [andb].
    destruct (size <? 256); [ | reflexivity ].
    cbn [mbind result_bind]. replace (size =? 0) with false by lia.
    reflexivity.
Qed.

(** X21.  The application data at the end of a Forward Open or Forward
    Close reply is written as its size in words, a pad byte, and the data
    padded with a zero to an even number of bytes; without application data
    the size and the pad are all there is.  The size is a USINT: more than
    510 bytes of application data make [produce] raise. *)
Theorem application_data_padded (app : application) (bs : list Z) :
  app_data app = Some bs ->
  Forall (fun b => 0 <= b < 256) bs ->
  let padded := if Nat.odd (length bs) then bs ++ [0] else bs in
  let size := Z.of_nat (length padded) / 2 in
  (produce_application (Some app)).2
  = (if (length bs <=? 510)%nat then Ok ([size; 0] ++ padded)
     else Raise StructError)
  /\ Z.of_nat (length padded) = 2 * size
  /\ (produce_application None).2 = Ok [0; 0].
Proof.
  intros Ha Hbs padded size.
  destruct (produce_application_bytes (Some app)) as [Hp He].
  { cbn [from_option id]. rewrite Ha. exact Hbs. }
  cbn [from_option id] in Hp, He. rewrite Ha in Hp, He.
  cbn [from_option id] in Hp, He. fold padded in Hp, He. fold size in Hp, He.
  split; [ | split; [ exact He | reflexivity ] ].
  rewrite Hp.
  assert (Hsz : (size <? 256) = (length bs <=? 510)%nat).
  { subst padded. destruct (Nat.odd (length bs)) eqn:Eo.
    - rewrite length_app in He. cbn [length] in He.
      apply Nat.odd_spec in Eo as [k Hk].
      destruct (Z.ltb_spec size 256), (Nat.leb_spec (length bs) 510);
        try reflexivity; lia.
    - destruct (Z.ltb_spec size 256), (Nat.leb_spec (length bs) 510);
        try reflexivity; lia. }
  rewrite Hsz. reflexivity.
Qed.

Lemma application_data_padded_witness :
  (produce_application (Some (mkApplication (Some [1; 2; 3]) None None))).2
  = Ok [2; 0; 1; 2; 3; 0].
Proof.
  apply (application_data_padded (mkApplication (Some [1; 2; 3]) None None)
           [1; 2; 3]); [ reflexivity | repeat constructor; lia ].
Defined.

Lemma UDINT_produce_in_range (z : Z) :
  0 <= z < 2 ^ 32 -> UDINT_produce z = Ok (le_bytes 4 z).
Proof.
  intros H. apply pack_unsigned_in_range.
  change (256 ^ Z.of_nat 4) with (2 ^ 32). exact H.
Qed.

Lemma UINT_produce_in_range (z : Z) :
  0 <= z < 2 ^ 16 -> UINT_produce z = Ok (le_bytes 2 z).
Proof.
  intros H. apply pack_unsigned_in_range.
  change (256 ^ Z.of_nat 2) with (2 ^ 16). exact H.
Qed.

(** X22.  The Forward Open reply on the wire.  When the fields of the
    request fit their types, the Connection Manager answers a Forward Open
    with 0xD4, 0, 0, 0, then the O->T connection id, the T->O connection id
    it drew, the connection serial, the originator vendor and serial, the
    two RPI as the two API, all little-endian, and the application data
    behind its size and pad: 30 bytes and the padded application data. *)
Theorem forward_open_reply_layout
        (EPATH_produce EPATH_padded_produce : list term -> result (list Z))
        (self : Object) (w : world) (d : data) (fo : fwd_open) :
  forward_open d = Some fo ->
  service d = None \/ service d = Some FWD_OPEN_REQ ->
  status_ext d = None ->
  0 <= O_T_connection_ID fo < 2 ^ 32 ->
  0 <= connection_serial fo < 2 ^ 16 -> 0 <= O_vendor fo < 2 ^ 16 ->
  0 <= O_serial fo < 2 ^ 32 ->
  0 <= O_T_RPI fo < 2 ^ 32 -> 0 <= T_O_RPI fo < 2 ^ 32 ->
  let bs := default [] (app_data (default (mkApplication None None None)
                                          (fo_application fo))) in
  let padded := if Nat.odd (length bs) then bs ++ [0] else bs in
  Forall (fun b => 0 <= b < 256) bs -> (length bs <= 510)%nat ->
  let id := (randint 0 (2 ^ 32 - 1) (random w)).1 in
  let out := Connection_Manager_request EPATH_produce EPATH_padded_produce
                                        self w d in
  out.2 = Ok true
  /\ input out.1.2
     = Some ([0xD4; 0; 0; 0]
               ++ le_bytes 4 (O_T_connection_ID fo) ++ le_bytes 4 id
               ++ le_bytes 2 (connection_serial fo) ++ le_bytes 2 (O_vendor fo)
               ++ le_bytes 4 (O_serial fo)
               ++ le_bytes 4 (O_T_RPI fo) ++ le_bytes 4 (T_O_RPI fo)
               ++ [Z.of_nat (length padded) / 2; 0] ++ padded)
  /\ (forall bytes, input out.1.2 = Some bytes ->
                    length bytes = (30 + length padded)%nat).
Proof.
  intros Hfo Hsv Hse Hot Hcs Hov Hos Hor Htr bs padded Hbs Hlen id out.
  assert (Hin : input out.1.2
     = Some ([0xD4; 0; 0; 0]
               ++ le_bytes 4 (O_T_connection_ID fo) ++ le_bytes 4 id
               ++ le_bytes 2 (connection_serial fo) ++ le_bytes 2 (O_vendor fo)
               ++ le_bytes 4 (O_serial fo)
               ++ le_bytes 4 (O_T_RPI fo) ++ le_bytes 4 (T_O_RPI fo)
               ++ [Z.of_nat (length padded) / 2; 0] ++ padded)
     /\ out.2 = Ok true).
  2: { destruct Hin as [Hin Hret]. split; [ exact Hret | ].
       split; [ exact Hin | ]. intros bytes Hb. rewrite Hin in Hb.
       injection Hb as <-. cbn [length]. lia. }
  subst out. unfold Connection_Manager_request.
  assert (H0 : exists d0, service_for (forward_open d) FWD_OPEN_REQ d = Some d0
                          /\ service d0 = Some FWD_OPEN_REQ
                          /\ forward_open d0 = Some fo
                          /\ status_ext d0 = None).
  { unfold service_for. rewrite Hfo.
    destruct Hsv as [Hsv | Hsv]; rewrite Hsv.
    - eexists. split; [ reflexivity | ]. repeat split; assumption.
    - rewrite Z.eqb_refl. eexists. split; [ reflexivity | ]. auto. }
  destruct H0 as (d0 & -> & Hs0 & Hf0 & Hse0).
  unfold Connection_Manager_forward_open.
  cbn [forward_open set_status set_service]. rewrite Hf0, Hs0.
  pose proof (randint_range 0 (2 ^ 32 - 1) (random w)
                ltac:(vm_compute; discriminate)) as Hrange.
  fold id in Hrange.
  destruct (randint 0 (2 ^ 32 - 1) (random w)) as [id' g] eqn:Er.
  cbn [fst] in id. subst id.
  match goal with
  | |- context [ Connection_Manager_produce _ _ ?x ] => set (d3 := x)
  end.
  assert (Hs3 : service d3 = Some FWD_OPEN_RPY) by reflexivity.
  assert (Hst3 : status d3 = Some 0) by reflexivity.
  assert (Hse3 : status_ext d3 = None) by exact Hse0.
  assert (Hhead : produce_reply_head d3 = Ok [0xD4; 0; 0; 0]).
  { apply (produce_reply_head_plain d3 _ _ Hs3 Hst3 Hse3);
      [ vm_compute; split; [ discriminate | reflexivity ] | lia ]. }
  destruct (produce_application_bytes (fo_application fo) Hbs)
    as [Htail Heven].
  fold bs in Htail, Heven. fold padded in Htail, Heven.
  assert (Hsize : (Z.of_nat (length padded) / 2 <? 256) = true).
  { apply Z.ltb_lt. subst padded.
    destruct (Nat.odd (length bs)); rewrite ?length_app in *;
      cbn [length] in *; lia. }
  rewrite Hsize in Htail.
  unfold Connection_Manager_produce, service_for.
  change (forward_open d3) with (Some
    (mkFwdOpen (priority_time_tick fo) (timeout_ticks fo)
       (O_T_connection_ID fo) id' (connection_serial fo) (O_vendor fo)
       (O_serial fo) (connection_timeout_multiplier fo) (O_T_RPI fo)
       (O_T_NCP fo) (T_O_RPI fo) (T_O_NCP fo) (transport_class_triggers fo)
       (connection_path fo) (Some (O_T_RPI fo)) (Some (T_O_RPI fo))
       (fo_application fo))).
  rewrite Hs3. change (FWD_OPEN_RPY =? FWD_OPEN_REQ) with false. cbv iota.
  rewrite bool_decide_eq_true_2 by reflexivity.
  cbn [O_T_connection_ID T_O_connection_ID connection_serial O_vendor
       O_serial O_T_API T_O_API fo_application].
  rewrite Hhead.
  rewrite !UDINT_produce_in_range, !UINT_produce_in_range
    by (assumption || (change (2 ^ 32) with 4294967296 in *; lia)).
  cbn [mbind result_bind].
  destruct (produce_application (fo_application fo)) as [app tail].
  cbn [snd] in Htail. subst tail.
  cbn [mbind result_bind fst snd input set_input].
  split; [ | reflexivity ].
  rewrite <- !app_assoc. reflexivity.
Qed.

Lemma forward_open_reply_layout_witness :
  input (Connection_Manager_request EPATH_unused EPATH_unused manager_1
           (fresh (fun _ => 0x0BADCAFE)) open_request).1.2
  = Some ([0xD4; 0; 0; 0]
            ++ le_bytes 4 0x12345678 ++ le_bytes 4 0x0BADCAFE
            ++ le_bytes 2 1 ++ le_bytes 2 0x1234 ++ le_bytes 4 1
            ++ le_bytes 4 0x4000 ++ le_bytes 4 0x4000 ++ [0; 0] ++ []).
Proof.
  apply (forward_open_reply_layout EPATH_unused EPATH_unused manager_1
           (fresh (fun _ => 0x0BADCAFE)) open_request open_fields);
    try reflexivity;
    try (vm_compute; split; [ discriminate | reflexivity ]).
  - right; reflexivity.
  - constructor.
  - cbn. lia.
Defined.

(** ** Parsing of paths *)

Lemma contains_app c (a b : string) :
  Str.contains c (a ++ b)%string = Str.contains c a || Str.contains c b.
Proof.
  induction a as [ | x a IH ]; simpl; [ reflexivity | ].
  rewrite IH, orb_assoc. reflexivity.
Qed.

Lemma append_assoc (a b c : string) :
  ((a ++ b) ++ c)%string = (a ++ (b ++ c))%string.
Proof.
  induction a as [ | x a IH ]; [ reflexivity | ].
  change (String x ((a ++ b) ++ c) = String x (a ++ (b ++ c)))%string.
  f_equal. exact IH.
Qed.

Lemma contains_cons c x (s : string) :
  Str.contains c (String x s) = Ascii.eqb x c || Str.contains c s.
Proof. reflexivity. Qed.

Lemma split_absent c (s : string) :
  Str.contains c s = false -> Str.split c s = [s].
Proof.
  induction s as [ | x s IH ]; cbn [Str.contains Str.split]; [ reflexivity | ].
  intros H. apply orb_false_elim in H as [Hx Hs].
  rewrite Hx, (IH Hs). reflexivity.
Qed.

Lemma split_app c (a b : string) :
  Str.contains c a = false ->
  Str.split c (a ++ String c b)%string = a :: Str.split c b.
Proof.
  induction a as [ | x a IH ]; simpl.
  - intros _. rewrite Ascii.eqb_refl. reflexivity.
  - intros H. apply orb_false_elim in H as [Hx Ha].
    rewrite Hx, (IH Ha). reflexivity.
Qed.

Lemma split1_app c (a b : string) :
  Str.contains c a = false ->
  Str.split1 c (a ++ String c b)%string = Some (a, b).
Proof.
  induction a as [ | x a IH ]; simpl.
  - intros _. rewrite Ascii.eqb_refl. reflexivity.
  - intros H. apply orb_false_elim in H as [Hx Ha].
    rewrite Hx, (IH Ha). reflexivity.
Qed.

Lemma contains_join c sep (names : list string) :
  Ascii.eqb sep c = false ->
  Forall (fun n => Str.contains c n = false) names ->
  Str.contains c (join sep names) = false.
Proof.
  intros Hsep. induction 1 as [ | n names Hn Hall IH ]; [ reflexivity | ].
  destruct names as [ | m names ]; [ exact Hn | ].
  change (join sep (n :: m :: names))
    with (n ++ String sep (join sep (m :: names)))%string.
  rewrite contains_app, contains_cons, Hn, Hsep, IH. reflexivity.
Qed.

Lemma split_join c (names : list string) :
  names <> [] ->
  Forall (fun n => Str.contains c n = false) names ->
  Str.split c (join c names) = names.
Proof.
  intros Hne Hall. induction Hall as [ | n names Hn Hall IH ];
    [ congruence | ].
  destruct names as [ | m names ]; [ apply split_absent, Hn | ].
  change (join c (n :: m :: names))
    with (n ++ String c (join c (m :: names)))%string.
  rewrite split_app by exact Hn. rewrite IH by discriminate. reflexivity.
Qed.

Lemma free_of_contains cs (s : string) c :
  free_of cs s = true -> In c cs -> Str.contains c s = false.
Proof.
  unfold free_of. rewrite forallb_forall. intros H Hin.
  apply negb_true_iff, H, Hin.
Qed.

Lemma plain_spec (s : string) :
  plain s = true ->
  Str.contains "." s = false /\ Str.contains "*" s = false
  /\ Str.contains "[" s = false /\ Str.startswith "@" s = false.
Proof.
  unfold plain. intros H. apply andb_prop in H as [Hf Hs].
  apply negb_true_iff in Hs.
  repeat split; try exact Hs;
    apply (free_of_contains _ _ _ Hf); cbn; tauto.
Qed.

Section Tags.

Variable json_loads : string -> result term.

Lemma with_element_symbolic (n : string) (e : Z) :
  with_element [ {["symbolic"%string := VStr n]} ] e
  = [ {["symbolic"%string := VStr n]}; {["element"%string := VInt e]} ].
Proof.
  unfold with_element. cbn [last].
  rewrite bool_decide_eq_false_2; [ reflexivity | ].
  rewrite lookup_singleton_ne by discriminate. intros [? [=]].
Qed.

(** A plain name is one symbolic segment; a default element follows it as
    an element segment. *)
Lemma parse_path_component_plain (n : string) (elm cnt : option Z) :
  plain n = true ->
  parse_path_component json_loads n elm cnt
  = Ok ({["symbolic"%string := VStr n]}
          :: match elm with
             | Some e => [ {["element"%string := VInt e]} ]
             | None => []
             end, elm, cnt).
Proof.
  intros H. apply plain_spec in H as (_ & Hstar & Hbr & Hat).
  unfold parse_path_component. rewrite Hstar. cbn [mbind result_bind].
  rewrite Hbr. cbn [mbind result_bind]. rewrite Hat.
  cbn [mbind result_bind].
  destruct elm as [e | ]; [ rewrite with_element_symbolic | ]; reflexivity.
Qed.

Lemma leading_components_plain (names : list string) :
  Forall (fun n => plain n = true) names ->
  leading_components json_loads names
  = Ok ((fun n => ({["symbolic"%string := VStr n]} : term))
          <$> removelast names).
Proof.
  induction 1 as [ | n names Hn Hall IH ]; [ reflexivity | ].
  destruct names as [ | m names ]; [ reflexivity | ].
  cbn [leading_components] in *.
  rewrite (parse_path_component_plain n None None Hn).
  cbn [mbind result_bind].
  rewrite bool_decide_eq_true_2 by (left; reflexivity).
  cbn [assert mbind result_bind]. rewrite IH. reflexivity.
Qed.

(** X23.  A path of plain names joined by dots (no "*" or "[" in them, no
    "@" in front) parses into one symbolic segment per name, in order; a
    default element is appended as an element segment, and the default
    element and count are returned as they were given. *)
Theorem parse_path_tags (names : list string) (elm cnt : option Z) :
  names <> [] ->
  Forall (fun n => plain n = true) names ->
  parse_path_elements json_loads (join "." names) elm cnt
  = Ok (((fun n => ({["symbolic"%string := VStr n]} : term)) <$> names)
          ++ match elm with
             | Some e => [ {["element"%string := VInt e]} ]
             | None => []
             end, elm, cnt)
  /\ parse_path json_loads (join "." names) None
     = Ok ((fun n => ({["symbolic"%string := VStr n]} : term)) <$> names).
Proof.
  intros Hne Hall.
  assert (Hsplit : Str.split "." (join "." names) = names).
  { apply split_join; [ exact Hne | ].
    eapply Forall_impl; [ exact Hall | ].
    intros n Hn. apply plain_spec in Hn. tauto. }
  assert (Hgen : forall elm cnt,
    parse_path_elements json_loads (join "." names) elm cnt
    = Ok (((fun n => ({["symbolic"%string := VStr n]} : term)) <$> names)
            ++ match elm with
               | Some e => [ {["element"%string := VInt e]} ]
               | None => []
               end, elm, cnt)).
  { intros elm' cnt'. unfold parse_path_elements. rewrite Hsplit.
    rewrite leading_components_plain by exact Hall.
    cbn [mbind result_bind].
    destruct (exists_last Hne) as (front & final & ->).
    rewrite last_snoc, removelast_last.
    apply Forall_app in Hall as [_ Hfinal].
    apply Forall_inv in Hfinal.
    rewrite (parse_path_component_plain final elm' cnt' Hfinal).
    cbn [mbind result_bind]. rewrite fmap_app. cbn [fmap list_fmap].
    rewrite <- app_assoc. reflexivity. }
  split; [ apply Hgen | ].
  unfold parse_path. rewrite Hgen. cbn [mbind result_bind fst].
  rewrite app_nil_r. reflexivity.
Qed.

End Tags.

Lemma parse_path_tags_witness :
  parse_path json_unused "Motor.Speed" None
  = Ok [ {["symbolic"%string := VStr "Motor"]};
         {["symbolic"%string := VStr "Speed"]} ].
Proof.
  apply (parse_path_tags json_unused [ "Motor"; "Speed" ]%string None None);
    [ discriminate | repeat constructor ].
Defined.

Section Indexed.

Variable json_loads : string -> result term.

Lemma int_of_Some (x : string) (v : Z) :
  Py.int x 10 = Some v -> int_of x = Ok v.
Proof. unfold int_of. intros ->. reflexivity. Qed.

(** [Tag[...]]: the component before the bracket, with what the bracket
    gives as element and count. *)
Lemma parse_path_component_bracket (name inner : string) (e : Z)
      (elm cnt cnt' : option Z) :
  plain name = true ->
  free_of [ "*"; "["; "]" ]%char inner = true ->
  (if Str.contains "-" inner then
     match Str.split "-" inner with
     | [b; l] => l ← int_of l; Ok (b, Some l)
     | _ => Raise ValueError
     end
   else Ok (inner, None))
  ≫= (fun '(b, lst) =>
        b ← int_of b;
        match lst with
        | Some l => _ ← assert (0 <? l + 1 - b); Ok (Some b, Some (l + 1 - b))
        | None => Ok (Some b, cnt)
        end)
  = Ok (Some e, cnt') ->
  parse_path_component json_loads (name ++ String "[" (inner ++ "]"))%string
                       elm cnt
  = Ok ([ {["symbolic"%string := VStr name]};
          {["element"%string := VInt e]} ], Some e, cnt').
Proof.
  intros Hn Hi Hinner. apply plain_spec in Hn as (_ & Hstar & Hbr & Hat).
  pose proof (free_of_contains _ _ "*"%char Hi ltac:(cbn; tauto)) as Hi1.
  pose proof (free_of_contains _ _ "["%char Hi ltac:(cbn; tauto)) as Hi2.
  pose proof (free_of_contains _ _ "]"%char Hi ltac:(cbn; tauto)) as Hi3.
  unfold parse_path_component.
  replace (Str.contains "*" (name ++ String "[" (inner ++ "]"))%string)
    with false
    by (rewrite contains_app, contains_cons, contains_app, Hstar, Hi1;
        reflexivity).
  cbn [mbind result_bind].
  replace (Str.contains "[" (name ++ String "[" (inner ++ "]"))%string)
    with true
    by (rewrite contains_app, contains_cons, Hbr; reflexivity).
  rewrite split1_app by exact Hbr.
  change (inner ++ "]")%string with (inner ++ String "]" "")%string.
  rewrite split_app by exact Hi3.
  cbn [Str.split String.eqb assert mbind result_bind].
  destruct (if Str.contains "-" inner then _ else _) as [[b lst] | x];
    cbn [mbind result_bind] in Hinner |- *; [ | discriminate ].
  destruct (int_of b) as [bv | x]; cbn [mbind result_bind] in Hinner |- *;
    [ | discriminate ].
  destruct lst as [l | ].
  - destruct (0 <? l + 1 - bv); cbn [assert mbind result_bind] in Hinner |- *;
      [ | discriminate ].
    injection Hinner as -> <-. rewrite Hat. cbn [mbind result_bind].
    rewrite with_element_symbolic. reflexivity.
  - injection Hinner as -> <-. cbn [mbind result_bind]. rewrite Hat.
    cbn [mbind result_bind]. rewrite with_element_symbolic. reflexivity.
Qed.

(** X24.  [Tag[i]] and [Tag[i-j]].  A plain name followed by an index in
    brackets parses into the symbolic segment and an element segment, and
    the index is returned as the element; it replaces a default element.
    With a range the count is j + 1 - i, whatever the default count, and a
    range that ends before it begins is refused by the assertion. *)
Theorem parse_path_indexed (name first final : string) (i j : Z)
        (elm cnt : option Z) :
  plain name = true ->
  free_of [ "."; "*"; "["; "]"; "-" ]%char first = true ->
  free_of [ "."; "*"; "["; "]"; "-" ]%char final = true ->
  Py.int first 10 = Some i -> Py.int final 10 = Some j ->
  parse_path_elements json_loads (name ++ "[" ++ first ++ "]")%string elm cnt
  = Ok ([ {["symbolic"%string := VStr name]};
          {["element"%string := VInt i]} ], Some i, cnt)
  /\ parse_path_elements json_loads
       (name ++ "[" ++ first ++ "-" ++ final ++ "]")%string elm cnt
     = if i <=? j
       then Ok ([ {["symbolic"%string := VStr name]};
                  {["element"%string := VInt i]} ], Some i, Some (j + 1 - i))
       else Raise AssertionError.
Proof.
  intros Hn Hf Hl Hi Hj.
  pose proof (plain_spec _ Hn) as (Hdot & _ & _ & _).
  assert (Hc : forall c, In c [ "."; "*"; "["; "]"; "-" ]%char ->
                         Str.contains c first = false
                         /\ Str.contains c final = false)
    by (intros c Hin; split; eapply free_of_contains; eauto).
  destruct (Hc "."%char ltac:(cbn; tauto)) as [Hf0 Hl0].
  destruct (Hc "*"%char ltac:(cbn; tauto)) as [Hf1 Hl1].
  destruct (Hc "["%char ltac:(cbn; tauto)) as [Hf2 Hl2].
  destruct (Hc "]"%char ltac:(cbn; tauto)) as [Hf3 Hl3].
  destruct (Hc "-"%char ltac:(cbn; tauto)) as [Hf4 Hl4].
  split.
  - unfold parse_path_elements.
    change (name ++ "[" ++ first ++ "]")%string
      with (name ++ String "[" (first ++ "]"))%string.
    rewrite split_absent
      by (rewrite contains_app, contains_cons, contains_app, Hdot, Hf0;
          reflexivity).
    cbn [leading_components last mbind result_bind].
    rewrite (parse_path_component_bracket name first i elm cnt cnt Hn).
    + reflexivity.
    + unfold free_of. cbn [forallb]. rewrite Hf1, Hf2, Hf3. reflexivity.
    + rewrite Hf4. cbn [mbind result_bind].
      rewrite (int_of_Some _ _ Hi). reflexivity.
  - unfold parse_path_elements.
    change (name ++ "[" ++ first ++ "-" ++ final ++ "]")%string
      with (name ++ String "[" (first ++ (String "-" final ++ "]")))%string.
    rewrite <- (append_assoc first (String "-" final) "]").
    rewrite split_absent
      by (rewrite contains_app, contains_cons, !contains_app, contains_cons,
            Hdot, Hf0, Hl0; reflexivity).
    cbn [leading_components last mbind result_bind].
    assert (Hfree : free_of [ "*"; "["; "]" ]%char
                            (first ++ String "-" final) = true).
    { unfold free_of. cbn [forallb].
      rewrite !contains_app, !contains_cons, Hf1, Hf2, Hf3, Hl1, Hl2, Hl3.
      reflexivity. }
    assert (Hdash : Str.contains "-" (first ++ String "-" final) = true)
      by (rewrite contains_app, contains_cons, Hf4; reflexivity).
    assert (Hsplit : Str.split "-" (first ++ String "-" final)
                     = [first; final])
      by (rewrite split_app by exact Hf4;
          rewrite split_absent by exact Hl4; reflexivity).
    destruct (Z.leb_spec i j) as [Hle | Hgt].
    + rewrite (parse_path_component_bracket name _ i elm cnt
                 (Some (j + 1 - i)) Hn Hfree); [ reflexivity | ].
      rewrite Hdash, Hsplit, (int_of_Some _ _ Hj). cbn [mbind result_bind].
      rewrite (int_of_Some _ _ Hi). cbn [mbind result_bind].
      replace (0 <? j + 1 - i) with true by lia. reflexivity.
    + pose proof (plain_spec _ Hn) as (_ & Hstar & Hbr & Hat).
      unfold parse_path_component.
      replace (Str.contains "*"
                 (name ++ String "[" ((first ++ String "-" final) ++ "]")))
        with false
        by (rewrite contains_app, contains_cons, !contains_app,
              contains_cons, Hstar, Hf1, Hl1; reflexivity).
      cbn [mbind result_bind].
      replace (Str.contains "["
                 (name ++ String "[" ((first ++ String "-" final) ++ "]")))
        with true
        by (rewrite contains_app, contains_cons, Hbr; reflexivity).
      rewrite split1_app by exact Hbr.
      change ((first ++ String "-" final) ++ "]")%string
        with ((first ++ String "-" final) ++ String "]" "")%string.
      rewrite split_app
        by (rewrite contains_app, contains_cons, Hf3, Hl3; reflexivity).
      cbn [Str.split String.eqb assert mbind result_bind].
      rewrite Hdash, Hsplit, (int_of_Some _ _ Hj). cbn [mbind result_bind].
      rewrite (int_of_Some _ _ Hi). cbn [mbind result_bind].
      replace (0 <? j + 1 - i) with false by lia. reflexivity.
Qed.

End Indexed.

Lemma parse_path_indexed_witness :
  parse_path_elements json_unused "Samples[3]" None None
  = Ok ([ {["symbolic"%string := VStr "Samples"]};
          {["element"%string := VInt 3]} ], Some 3, None)
  /\ parse_path_elements json_unused "Samples[3-7]" None None
     = Ok ([ {["symbolic"%string := VStr "Samples"]};
             {["element"%string := VInt 3]} ], Some 3, Some 5).
Proof.
  exact (parse_path_indexed json_unused "Samples" "3" "7" 3 7 None None
           eq_refl eq_refl eq_refl eq_refl eq_refl).
Defined.

Section Numeric.

Variable json_loads : string -> result term.

Lemma number_spec (s : string) :
  number s = true ->
  Str.contains "." s = false /\ Str.contains "*" s = false
  /\ Str.contains "[" s = false /\ Str.contains "/" s = false
  /\ Str.startswith "{" s = false.
Proof.
  unfold number. intros H. apply andb_prop in H as [Hf Hs].
  apply negb_true_iff in Hs.
  repeat split; try exact Hs;
    apply (free_of_contains _ _ _ Hf); cbn; tauto.
Qed.

(** The terms of a numeric path take the keys class, instance, attribute
    and element in turn; a fifth term has no key left. *)
Lemma numeric_segments_numbers (terms : list (string * Z)) : forall i,
  (i <= 4)%nat ->
  Forall (fun t => number t.1 = true /\ parse_int t.1 10 = Some t.2) terms ->
  numeric_segments json_loads i (fst <$> terms)
  = if (i + length terms <=? 4)%nat
    then Ok (zip_with (fun key t => ({[ key := VInt t.2 ]} : term))
                      (drop i defaults) terms)
    else Raise AssertionError.
Proof.
  induction terms as [ | [s v] terms IH ]; intros i Hi Hall.
  - cbn [fmap list_fmap numeric_segments length].
    replace (i + 0 <=? 4)%nat with true by (symmetry; apply Nat.leb_le; lia).
    destruct (drop i defaults); reflexivity.
  - apply Forall_cons in Hall as [[Hn Hv] Hall]. cbn [fst snd] in Hn, Hv.
    apply number_spec in Hn as (_ & _ & _ & _ & Hbrace).
    rewrite fmap_cons. cbn [numeric_segments fst].
    rewrite Hbrace. unfold parse_int_of. rewrite Hv.
    destruct (defaults !! i) as [key | ] eqn:Ek.
    + assert (Hi' : (S i <= 4)%nat).
      { apply lookup_lt_Some in Ek. cbn [defaults length] in Ek. lia. }
      cbn [mbind result_bind]. rewrite (IH (S i) Hi' Hall).
      cbn [length]. rewrite Nat.add_succ_r. cbn [Nat.add].
      destruct (S (i + length terms) <=? 4)%nat; [ | reflexivity ].
      rewrite (drop_S _ _ _ Ek). reflexivity.
    + apply lookup_ge_None in Ek. cbn [defaults length] in Ek.
      cbn [mbind result_bind length].
      replace (i + S (length terms) <=? 4)%nat with false
        by (symmetry; apply Nat.leb_gt; lia).
      reflexivity.
Qed.

Lemma parse_path_component_numeric (terms : list (string * Z))
      (cnt : option Z) :
  terms <> [] ->
  Forall (fun t => number t.1 = true /\ parse_int t.1 10 = Some t.2) terms ->
  Str.contains "." (String "@" (join "/" (fst <$> terms))) = false
  /\ parse_path_component json_loads
       (String "@" (join "/" (fst <$> terms))) None cnt
     = if (length terms <=? 4)%nat
       then Ok (zip_with (fun key t => ({[ key := VInt t.2 ]} : term))
                         defaults terms, None, cnt)
       else Raise Exception.
Proof.
  intros Hne Hall.
  assert (Hnames : forall c, In c [ "."; "*"; "["; "/" ]%char ->
            Forall (fun n => Str.contains c n = false) (fst <$> terms)).
  { intros c Hc. apply Forall_fmap. eapply Forall_impl; [ exact Hall | ].
    intros [s v] [Hn _]. cbn [fst] in *. unfold number in Hn.
    apply andb_prop in Hn as [Hf _].
    exact (free_of_contains _ _ _ Hf Hc). }
  assert (Hfree : forall c, In c [ "."; "*"; "[" ]%char ->
            Str.contains c (String "@" (join "/" (fst <$> terms))) = false).
  { intros c Hc. rewrite contains_cons.
    rewrite (contains_join c "/");
      [ | | apply Hnames; cbn in Hc |- *; tauto ].
    - destruct Hc as [<- | [<- | [<- | []]]]; reflexivity.
    - destruct Hc as [<- | [<- | [<- | []]]]; reflexivity. }
  split; [ apply Hfree; cbn; tauto | ].
  unfold parse_path_component.
  rewrite (Hfree "*"%char) by (cbn; tauto). cbn [mbind result_bind].
  rewrite (Hfree "["%char) by (cbn; tauto). cbn [mbind result_bind].
  cbn [Str.startswith tail_of]. rewrite Ascii.eqb_refl.
  rewrite split_join;
    [ | destruct terms; [ congruence | discriminate ]
      | apply Hnames; cbn; tauto ].
  rewrite (numeric_segments_numbers terms 0 ltac:(lia) Hall).
  cbn [Nat.add drop].
  destruct (length terms <=? 4)%nat; reflexivity.
Qed.

(** X25.  A numeric path, "@" and up to four numbers separated by "/",
    parses into the segments class, instance, attribute and element, in
    that order, with the values of the numbers; with more than four numbers
    it raises an Exception.  No element is returned: the fourth number is
    part of the path only. *)
Theorem parse_path_numeric (terms : list (string * Z)) (cnt : option Z) :
  terms <> [] ->
  Forall (fun t => number t.1 = true /\ parse_int t.1 10 = Some t.2) terms ->
  parse_path_elements json_loads (String "@" (join "/" (fst <$> terms)))
                      None cnt
  = if (length terms <=? 4)%nat
    then Ok (zip_with (fun key t => ({[ key := VInt t.2 ]} : term))
                      defaults terms, None, cnt)
    else Raise Exception.
Proof.
  intros Hne Hall.
  destruct (parse_path_component_numeric terms cnt Hne Hall) as [Hdot Hc].
  unfold parse_path_elements. rewrite split_absent by exact Hdot.
  cbn [leading_components last mbind result_bind]. rewrite Hc.
  destruct (length terms <=? 4)%nat; reflexivity.
Qed.

End Numeric.

Lemma parse_path_numeric_witness :
  parse_path_elements json_unused "@0x1A2/1/3" None None
  = Ok ([ {["class"%string := VInt 418]}; {["instance"%string := VInt 1]};
          {["attribute"%string := VInt 3]} ], None, None).
Proof.
  apply (parse_path_numeric json_unused
           [ ("0x1A2", 418); ("1", 1); ("3", 3) ]%string None);
    [ discriminate | repeat constructor ].
Defined.

Lemma resolve_numeric (symbol : gmap string address) (c i a : Z) :
  resolve symbol [ {["class"%string := VInt c]};
                   {["instance"%string := VInt i]};
                   {["attribute"%string := VInt a]} ] true
  = Ok (VInt c, VInt i, VInt a)
  /\ resolve symbol [ {["class"%string := VInt c]};
                      {["instance"%string := VInt i]};
                      {["attribute"%string := VInt a]} ] false
     = Ok (VInt c, VInt i, VNone).
Proof. split; vm_compute; reflexivity. Qed.

(** X26.  A path written out as a string resolves to what it spells:
    "@class/instance/attribute", parsed by [parse_path], resolves to the three
    numbers (to the first two and None when no attribute is asked for); and
    a plain tag name, parsed by [parse_path], resolves to the address that
    [redirect_tag] gave the tag. *)
Theorem parse_path_resolve (json_loads : string -> result term)
        (symbol : gmap string address) (c i a tag : string)
        (vc vi va : Z) (adr : address) :
  number c = true -> number i = true -> number a = true ->
  parse_int c 10 = Some vc -> parse_int i 10 = Some vi ->
  parse_int a 10 = Some va ->
  plain tag = true ->
  a_class adr <> VNone -> a_instance adr <> VNone -> a_attribute adr <> VNone ->
  (path ← parse_path json_loads (String "@" (c ++ "/" ++ i ++ "/" ++ a)) None;
   resolve symbol path true) = Ok (VInt vc, VInt vi, VInt va)
  /\ (path ← parse_path json_loads (String "@" (c ++ "/" ++ i ++ "/" ++ a))
                        None;
      resolve symbol path false) = Ok (VInt vc, VInt vi, VNone)
  /\ (path ← parse_path json_loads tag None;
      resolve (redirect_tag symbol tag adr).1 path true)
     = Ok (a_class adr, a_instance adr, a_attribute adr).
Proof.
  intros Hc Hi Ha Hvc Hvi Hva Htag Hac Hai Haa.
  assert (Hparse : parse_path json_loads
                     (String "@" (c ++ "/" ++ i ++ "/" ++ a)) None
                   = Ok [ {["class"%string := VInt vc]};
                          {["instance"%string := VInt vi]};
                          {["attribute"%string := VInt va]} ]).
  { unfold parse_path.
    change (String "@" (c ++ "/" ++ i ++ "/" ++ a))
      with (String "@" (join "/" (fst <$> [ (c, vc); (i, vi); (a, va) ]))).
    destruct (parse_path_component_numeric json_loads
                [ (c, vc); (i, vi); (a, va) ] None)
      as [Hdot Hcomp]; [ discriminate | repeat constructor; assumption | ].
    unfold parse_path_elements. rewrite split_absent by exact Hdot.
    cbn [leading_components last mbind result_bind]. rewrite Hcomp.
    reflexivity. }
  destruct (resolve_numeric symbol vc vi va) as [Ht Hf].
  rewrite Hparse. cbn [mbind result_bind]. split; [ exact Ht | ].
  split; [ exact Hf | ].
  unfold parse_path, parse_path_elements.
  rewrite split_absent by (apply plain_spec in Htag; tauto).
  cbn [leading_components last mbind result_bind].
  rewrite (parse_path_component_plain json_loads tag None None Htag).
  cbn [mbind result_bind fst app].
  unfold resolve, redirect_tag. cbn [fst walk].
  replace (complete true unresolved) with false by reflexivity.
  rewrite settle_symbolic.
  replace (extend_tag "" (VStr tag)) with tag by reflexivity.
  rewrite lookup_insert_eq. cbn [mbind result_bind String.eqb assert].
  rewrite complete_address by (assumption || (intros _; assumption)).
  reflexivity.
Qed.

Lemma parse_path_resolve_witness :
  (path ← parse_path json_unused "@0x1A2/1/3" None;
   resolve ∅ path true) = Ok (VInt 418, VInt 1, VInt 3)
  /\ (path ← parse_path json_unused "SCADA" None;
      resolve (redirect_tag ∅ "SCADA"
                 (Address (VInt 0x1A2) (VInt 1) (VInt 1))).1 path true)
     = Ok (VInt 0x1A2, VInt 1, VInt 1).
Proof.
  destruct (parse_path_resolve json_unused ∅ "0x1A2" "1" "3" "SCADA"
              418 1 3 (Address (VInt 0x1A2) (VInt 1) (VInt 1)))
    as (Hn & _ & Ht); try reflexivity; try discriminate.
  split; [ exact Hn | exact Ht ].
Defined.

(** ** Sessions *)

(** The retry loop ends once a draw is accepted: with a fuel of [n] it
    returns when one of the draws up to the [n]-th next one is neither zero
    nor a key of the sessions. *)
Lemma draw_session_enough (sessions : gmap addr Z) (dr : nat -> Z) :
  forall (k n : nat) (session : Z) (t : nat),
    (k <= n)%nat ->
    let nth j := match j with
                 | O => session
                 | S j => dr (t + j)%nat mod (2 ^ 32 + 1)
                 end in
    nth k <> 0 -> sessions !! AddrInt (nth k) = None ->
    is_Some (draw_session n sessions session (mkRng dr t)).
Proof.
  induction k as [ | k IH ]; intros n session t Hk nth Hz Hs.
  - rewrite (draw_session_accepts n sessions session _ Hz Hs). eauto.
  - destruct n as [ | n ]; [ lia | ]. cbn [draw_session].
    destruct ((session =? 0)
              || bool_decide (is_Some (sessions !! AddrInt session)));
      [ | eauto ].
    unfold randint. cbn [draws taken]. rewrite Z.add_0_l, Z.sub_0_r.
    apply (IH n _ (S t)); [ lia | | ].
    + destruct k as [ | k ]; cbn [nth] in Hz |- *.
      * rewrite Nat.add_0_r in Hz. exact Hz.
      * replace (S t + k)%nat with (t + S k)%nat by lia. exact Hz.
    + destruct k as [ | k ]; cbn [nth] in Hs |- *.
      * rewrite Nat.add_0_r in Hs. exact Hs.
      * replace (S t + k)%nat with (t + S k)%nat by lia. exact Hs.
Qed.

(** X27.  Register Session, then Unregister Session.  When one of the next
    [n + 1] draws of the generator is accepted -- it is not zero and is no
    key of the sessions -- the registration returns within [n] retries; it
    lets the connection proceed and records a handle for the peer and for
    nobody else.  The Unregister Session of the peer (or a request without
    encapsulation) ends the connection and removes the session of that peer
    only, so that the sessions are those from before the registration,
    without the peer. *)
Theorem register_then_unregister
        (CIP_produce : enip_data -> result (list Z)) (n k : nat)
        (w : world) (a : addr) (e e' : enip_data) (pv fl : Z) :
  CIP e = register pv fl ->
  CIP e' = unregister ->
  (k <= n)%nat ->
  let h := draws (random w) (taken (random w) + k)%nat mod (2 ^ 32 + 1) in
  h <> 0 ->
  sessions w !! AddrInt h = None ->
  exists w1 d1,
    UCMM_request CIP_produce n w (mkUcmmData (Some a) (Some e))
    = Some (w1, d1, Ok true)
    /\ is_Some (sessions w1 !! a)
    /\ (forall b, b <> a -> sessions w1 !! b = sessions w !! b)
    /\ exists w2 d2,
         UCMM_request CIP_produce n w1 (mkUcmmData (Some a) (Some e'))
         = Some (w2, d2, Ok false)
         /\ UCMM_request CIP_produce n w1 (mkUcmmData (Some a) None)
            = Some (w2, mkUcmmData (Some a) None, Ok false)
         /\ sessions w2 = delete a (sessions w)
         /\ (enip d2 ≫= enip_input) = None.
Proof.
  intros Hreg Hun Hk h Hz Hh. unfold UCMM_request at 1.
  cbn [addr_of enip CIP]. rewrite Hreg.
  assert (Hdraw : is_Some (draw_session n (sessions w)
                             (randint 0 (2 ^ 32) (random w)).1
                             (randint 0 (2 ^ 32) (random w)).2)).
  { unfold randint. cbn [fst snd]. rewrite Z.add_0_l, Z.sub_0_r.
    destruct k as [ | k ].
    - subst h. rewrite Nat.add_0_r in Hz, Hh.
      rewrite draw_session_accepts by assumption. eauto.
    - destruct n as [ | n ]; [ lia | ].
      apply (draw_session_enough (sessions w) (draws (random w)) (S k));
        [ lia | | ]; cbn beta iota;
        replace (S (taken (random w)) + k)%nat
          with (taken (random w) + S k)%nat by lia; assumption. }
  destruct (randint 0 (2 ^ 32) (random w)) as [s g]. cbn [fst snd] in Hdraw.
  destruct Hdraw as [[s' g'] ->].
  assert (Hs : forall w1, sessions w1 = <[a := s']> (sessions w) ->
    is_Some (sessions w1 !! a)
    /\ (forall b, b <> a -> sessions w1 !! b = sessions w !! b)
    /\ exists w2 d2,
         UCMM_request CIP_produce n w1 (mkUcmmData (Some a) (Some e'))
         = Some (w2, d2, Ok false)
         /\ UCMM_request CIP_produce n w1 (mkUcmmData (Some a) None)
            = Some (w2, mkUcmmData (Some a) None, Ok false)
         /\ sessions w2 = delete a (sessions w)
         /\ (enip d2 ≫= enip_input) = None).
  { intros w' Hw'. split; [ rewrite Hw', lookup_insert_eq; eauto | ].
    split; [ intros b Hb; rewrite Hw'; apply lookup_insert_ne; congruence | ].
    unfold UCMM_request. cbn [addr_of enip CIP]. rewrite Hun.
    eexists _, _. split; [ reflexivity | ]. split; [ reflexivity | ].
    split; [ | reflexivity ].
    cbn [sessions set_sessions]. rewrite Hw'. apply delete_insert_eq. }
  destruct (CIP_produce _); eexists _, _;
    (split; [ reflexivity | apply Hs; reflexivity ]).
Qed.

Lemma register_then_unregister_witness :
  exists w1 d1,
    UCMM_request CIP_empty 1
      (set_sessions {[ first_peer := 7 ]}
         (fresh (fun i => match i with O => 0 | _ => 9 end)))
      (register_request second_peer)
    = Some (w1, d1, Ok true)
    /\ is_Some (sessions w1 !! second_peer)
    /\ sessions w1 !! first_peer = Some 7.
Proof.
  destruct (register_then_unregister CIP_empty 1 1
              (set_sessions {[ first_peer := 7 ]}
                 (fresh (fun i => match i with O => 0 | _ => 9 end)))
              second_peer
              (mkEnip (register 1 0) None None None)
              (mkEnip unregister None None None) 1 0)
    as (w1 & d1 & H1 & Hs & Hother & _);
    [ reflexivity | reflexivity | lia | discriminate | reflexivity | ].
  exists w1, d1. split; [ exact H1 | ]. split; [ exact Hs | ].
  rewrite (Hother first_peer) by discriminate. reflexivity.
Defined.

(** ** Assignment to a scalar Attribute *)

(** X28.  Assignment to a scalar Attribute converts the value to the type
    of the value it replaces: on an [int] Attribute an [int] is stored as it
    is and a [str] as the number it spells, and None is a TypeError.  Any
    key below 1 will do; a slice assignment stores the first of the values
    and ignores the others, and with no value at all it raises
    StopIteration.  The computed Attributes refuse every assignment. *)
Theorem scalar_assignment (a : Attribute) (old z k : Z) (s : string)
        (rest : list pyval) :
  attr_default a = Scalar (VInt old) ->
  k < 1 ->
  Py.int s 10 = Some z ->
  Attribute_setitem a (SetInt k (VInt z)) = Ok (set_default (Scalar (VInt z)) a)
  /\ Attribute_setitem a (SetInt k (VStr s))
     = Ok (set_default (Scalar (VInt z)) a)
  /\ Attribute_setitem a (SetInt k VNone) = Raise TypeError
  /\ Attribute_setitem a (SetSlice None None None (VInt z :: rest))
     = Ok (set_default (Scalar (VInt z)) a)
  /\ Attribute_setitem a (SetSlice None None None []) = Raise StopIteration
  /\ (forall b c x, attr_default b = Computed c ->
                    Attribute_setitem b x = Raise AssertionError).
Proof.
  intros Hv Hk Hs.
  assert (Hlen : Attribute_len a = 1)
    by (unfold Attribute_len; rewrite Hv; reflexivity).
  assert (Hint : Attribute_validate_key a (KInt k) = Ok is_int).
  { rewrite validate_int_key, Hlen.
    destruct (Z.geb_spec k 1); [ lia | reflexivity ]. }
  assert (Hall : Attribute_validate_key a (KSlice None None None)
                 = Ok is_slice)
    by (unfold Attribute_validate_key; rewrite Hlen; reflexivity).
  unfold Attribute_setitem. rewrite Hv. cbn [assignment_key].
  rewrite Hint, Hall. cbn [mbind result_bind coerce]. rewrite Hs.
  repeat split.
  intros b c x Hb. rewrite Hb. reflexivity.
Qed.

Lemma scalar_assignment_witness :
  Attribute_setitem (Attribute_init "State" USINT (Scalar (VInt 255)))
                    (SetInt 0 (VStr "12"))
  = Ok (Attribute_init "State" USINT (Scalar (VInt 12))).
Proof.
  exact (proj1 (proj2 (scalar_assignment
                         (Attribute_init "State" USINT (Scalar (VInt 255)))
                         255 12 0 "12" [] eq_refl eq_refl eq_refl))).
Defined.

(** ** Routing *)

Lemma resolve_class_instance (symbol : gmap string address) (c i : Z) :
  resolve symbol [ {["class"%string := VInt c]};
                   {["instance"%string := VInt i]} ] false
  = Ok (VInt c, VInt i, VNone).
Proof. vm_compute. reflexivity. Qed.

(** X29.  [route] on a path of a class and an instance never fails,
    whatever is asked of it on failure: it gives the entry of the directory
    at that class and instance, and None both for the Message Router itself
    and for an Object that does not exist; a request for an Object that
    does not exist is thus taken as one for the Message Router. *)
Theorem route_by_class_and_instance
        (directory_get : gmap (Z * Z) (gmap Z entry) -> string -> found)
        (self : Object) (w : world) (d : data) (c i fail : Z) :
  path d = Some [ {["class"%string := VInt c]};
                  {["instance"%string := VInt i]} ] ->
  Message_Router_route directory_get self w d fail
  = Ok (if bool_decide (c = class_id (obj_cls self) /\ i = instance_id self)
        then RouteNone
        else match dir_lookup w c i None with
             | Some e => RouteTo e
             | None => RouteNone
             end).
Proof.
  intros Hp. unfold Message_Router_route.
  rewrite Hp, resolve_class_instance. cbn [fst snd].
  destruct (decide (c = class_id (obj_cls self) /\ i = instance_id self))
    as [[-> ->] | Hne].
  - rewrite !bool_decide_eq_true_2 by auto. reflexivity.
  - rewrite (bool_decide_eq_false_2 (c = _ /\ _)) by exact Hne.
    rewrite bool_decide_eq_false_2
      by (intros [[= Hc] [= Hi]]; apply Hne; auto).
    cbn [lookup_ids directory_key].
    destruct (dir_lookup w c i None); reflexivity.
Qed.

Lemma route_by_class_and_instance_witness :
  Message_Router_route directory_unused router_1 no_world (packet [])
                       ROUTE_RAISE
  = Ok RouteNone.
Proof.
  exact (route_by_class_and_instance directory_unused router_1 no_world
           (packet []) 1 1 ROUTE_RAISE eq_refl).
Defined.

(** ** The Multiple Service Packet request on the wire *)

Lemma length_produce_requests produce (rs : list data) :
  forall rs' msgs, produce_requests produce rs = (rs', Ok msgs) ->
                   length msgs = length rs.
Proof.
  induction rs as [ | r rs IH ]; intros rs' msgs; cbn [produce_requests].
  - intros [= _ <-]. reflexivity.
  - destruct (produce_requests produce rs) as [rest [ms | e]];
      [ | discriminate ].
    destruct (produce r) as [r' [m | e]]; [ | discriminate ].
    intros [= _ <-]. cbn [length]. rewrite (IH rest ms eq_refl). reflexivity.
Qed.

Lemma produce_offsets_payload_in_range (msgs : list (list Z)) :
  Z.of_nat (length msgs) < 65536 ->
  Forall (fun o => 0 <= o < 65536)
         (offsets_from (2 + 2 * Z.of_nat (length msgs)) (lengths_of msgs)) ->
  produce_offsets_payload msgs
  = Ok (le_bytes 2 (Z.of_nat (length msgs))
          ++ concat (le_bytes 2 <$>
                       offsets_from (2 + 2 * Z.of_nat (length msgs))
                                    (lengths_of msgs))
          ++ concat msgs).
Proof.
  intros Hn Hoff.
  assert (Hl : length (lengths_of msgs) = length msgs)
    by apply length_fmap.
  unfold produce_offsets_payload. rewrite offsets_payload_spec.
  rewrite length_offsets_from, Hl.
  rewrite UINT_produce_in_range
    by (change (2 ^ 16) with 65536; lia).
  cbn [mbind result_bind].
  match goal with |- context [ join_produce _ ?l ] =>
    replace l with (VInt <$> offsets_from (2 + 2 * Z.of_nat (length msgs))
                                          (lengths_of msgs)) end.
  2: { rewrite <- (offsets_from_shift (2 + 2 * Z.of_nat (length msgs)) _ 0).
       rewrite <- list_fmap_compose. apply list_fmap_ext.
       intros _ o _. simpl. f_equal. lia. }
  rewrite pack_unsigned_join by exact Hoff. reflexivity.
Qed.

(** X30.  The Multiple Service Packet request on the wire: the service
    0x0A, the path (class 2, instance 1 when the data has none), the number
    of requests, the offset of each request counted from the number, and
    the encoded requests one after the other, in the order of the list. *)
Theorem multiple_request_layout
        (EPATH_produce : list term -> result (list Z))
        (d : data) (rs rs' : list data) (msgs : list (list Z))
        (p : list Z) :
  multiple d = Some rs ->
  service d = None \/ service d = Some MULTIPLE_REQ ->
  produce_requests (Message_Router_produce EPATH_produce) rs
  = (rs', Ok msgs) ->
  EPATH_produce (default [ {["class"%string := VInt 2]};
                           {["instance"%string := VInt 1]} ] (path d))
  = Ok p ->
  let n := Z.of_nat (length msgs) in
  let offsets := offsets_from (2 + 2 * n) (lengths_of msgs) in
  n < 65536 -> Forall (fun o => 0 <= o < 65536) offsets ->
  (Message_Router_produce EPATH_produce d).2
  = Ok ([0x0A] ++ p ++ le_bytes 2 n ++ concat (le_bytes 2 <$> offsets)
               ++ concat msgs)
  /\ service (Message_Router_produce EPATH_produce d).1 = Some MULTIPLE_REQ
  /\ multiple (Message_Router_produce EPATH_produce d).1 = Some rs'
  /\ length msgs = length rs.
Proof.
  intros Hm Hsv Hreq Hpath n offsets Hn Hoff.
  pose proof (length_produce_requests _ _ _ _ Hreq) as Hlen.
  pose proof (produce_offsets_payload_in_range msgs Hn Hoff) as Hpay.
  destruct d as [sv st se pa ga gs ss sc mu fo fc inp].
  cbn [multiple service path] in Hm, Hsv, Hpath. subst mu.
  cbn [Message_Router_produce].
  rewrite bool_decide_eq_true_2 by exact Hsv.
  rewrite Hreq. cbn [fst snd service multiple mbind result_bind].
  split; [ | auto ].
  unfold produce_service. cbn [service].
  change (USINT_produce MULTIPLE_REQ) with (Ok [10] : result (list Z)).
  cbn [mbind result_bind].
  change (class_id Message_Router) with 2. rewrite Hpath.
  cbn [mbind result_bind]. rewrite Hpay. reflexivity.
Qed.

Lemma multiple_request_layout_witness :
  (Message_Router_produce EPATH_fixed (packet [get_vendor])).2
  = Ok ([0x0A] ++ [0x02; 0x20; 0x01; 0x24; 0x01] ++ le_bytes 2 1
               ++ concat (le_bytes 2 <$> [4])
               ++ concat [[0x0E; 0x02; 0x20; 0x01; 0x24; 0x01]]).
Proof.
  apply (multiple_request_layout EPATH_fixed (packet [get_vendor])
           [get_vendor] [get_vendor]
           [[0x0E; 0x02; 0x20; 0x01; 0x24; 0x01]]
           [0x02; 0x20; 0x01; 0x24; 0x01]);
    [ reflexivity | right; reflexivity | reflexivity | reflexivity
    | reflexivity | repeat constructor; lia ].
Defined.
